(** * n8n metrics dashboard: filtering and aggregation

    A shallow embedding of the aggregation code of the dashboard:
    the Express handlers of [server/routes.ts], the in-memory
    re-aggregation of [client/src/pages/dashboard.tsx] and the duration
    formatters of the dashboard page and of the execution table.

    Conventions of the model.
    - A JavaScript number that holds a count is a [nat]; a duration or a
      timestamp in milliseconds is a [Z].  A finite Number that need not
      be an integer is the rational [Q] it denotes.  The success rate is
      computed as the code computes it, in binary64: the quotient of the
      two counts and its product by 100 are each rounded to the nearest
      binary64 value ([Js.div], [Js.mul]), and [parseInt] rounds the
      integer it reads in the same way.  The average duration is held
      as the exact quotient of the sum of the durations by their number.
    - A string is a sequence of code units below 256.
    - A timestamp column is held as the millisecond count that
      [new Date(...)] yields for it.  A [Date] holds a time value of at
      most 8 640 000 000 000 000 ms either side of the epoch; outside
      that range it is an Invalid Date, on which [toISOString] throws.
    - [string | null] is [option string]; JavaScript truthiness of such a
      value ([null] and the empty string are falsy) is [Js.truthy].
    - A calendar day is a day count since the epoch; the ["YYYY-MM-DD"]
      string that keys a [Map] in the source names it one to one, and the
      strings are produced only where the code sends them out.
    - A handler reads the clock once: the successive [new Date()] of one
      request are the same instant [now]. *)

From Stdlib Require Import ZArith QArith Qround Qabs Qpower.
From Stdlib Require Import List String Ascii Bool Lia Lqa.
From Stdlib Require Import Permutation DecimalString.
From Stdlib Require Import Sorted DecimalPos.
Import ListNotations.

Open Scope Z_scope.

(* ================================================================== *)
(** ** JavaScript primitives used by the code *)

Module Js.

(** [if (s)] on a [string | null]. *)
Definition truthy (o : option string) : bool :=
  match o with
  | Some s => negb (String.eqb s EmptyString)
  | None => false
  end.

(** [Math.round]: the nearest integer, ties towards plus infinity. *)
Definition Math_round (q : Q) : Z := Qfloor (q + (1 # 2)).

(** *** Binary64

    A finite Number is held as the rational it denotes.  The result of
    an arithmetic operation is the exact result rounded to the nearest
    binary64 value, ties to even: 53 significant bits, with the spacing
    of the subnormal range below [2 ^ -1022].  An exact result of
    magnitude [2 ^ 1024] or more, which the code reads as [Infinity],
    has no counterpart here and is kept as its 53-bit rounding. *)

Definition pow2 (e : Z) : Q := Qpower 2 e.

(** The nearest integer, ties to the even one. *)
Definition roundTiesToEven (q : Q) : Z :=
  let f := Qfloor q in
  match Qcompare (q - inject_Z f) (1 # 2) with
  | Lt => f
  | Gt => f + 1
  | Eq => if Z.even f then f else f + 1
  end.

(** For [0 < q], the [e] with [2 ^ e <= q < 2 ^ (e + 1)]. *)
Definition exponent (q : Q) : Z :=
  let k := Z.log2 (Qnum q) - Z.log2 (Zpos (Qden q)) in
  if Qle_bool (pow2 k) q then k else k - 1.

(** The binary64 value nearest to [0 < q]. *)
Definition binary64_pos (q : Q) : Q :=
  let e := Z.max (exponent q) (-1022) in
  (inject_Z (roundTiesToEven (q / pow2 (e - 52))) * pow2 (e - 52))%Q.

Definition binary64 (q : Q) : Q :=
  match Qcompare q 0 with
  | Eq => 0%Q
  | Gt => binary64_pos q
  | Lt => (- binary64_pos (- q))%Q
  end.

(** [a / b] and [a * b] on Numbers, for [b] other than zero. *)
Definition div (a b : Q) : Q := binary64 (a / b).

Definition mul (a b : Q) : Q := binary64 (a * b).

(** The Number for a mathematical integer; it is an integer again. *)
Definition binary64_int (n : Z) : Z := Qfloor (binary64 (inject_Z n)).

(** [`${n}`] for an integral number. *)
Definition show (n : Z) : string := NilZero.string_of_int (Z.to_int n).

(** [a < b] on numbers. *)
Definition ltb (a b : Q) : bool := negb (Qle_bool b a).

(** [!x] on a number: zero is falsy. *)
Definition is_zero (a : Q) : bool := Qeq_bool a 0.

(** White space and line terminators that [parseInt] skips, among the
    code units below 256: tab, line feed, vertical tab, form feed,
    carriage return, space and no-break space. *)
Definition is_space (c : ascii) : bool :=
  let n := nat_of_ascii c in
  orb (orb (Nat.eqb n 32) (Nat.eqb n 160)) (andb (Nat.leb 9 n) (Nat.leb n 13)).

Fixpoint skip_spaces (s : string) : string :=
  match s with
  | String c r => if is_space c then skip_spaces r else s
  | EmptyString => s
  end.

(** The value of a character as a digit of the given radix. *)
Definition digit_of (radix : Z) (c : ascii) : option Z :=
  let n := Z.of_nat (nat_of_ascii c) in
  let v :=
    if andb (48 <=? n) (n <=? 57) then Some (n - 48)
    else if andb (97 <=? n) (n <=? 122) then Some (n - 87)
    else if andb (65 <=? n) (n <=? 90) then Some (n - 55)
    else None in
  match v with
  | Some d => if d <? radix then Some d else None
  | None => None
  end.

(** Longest prefix of digits, accumulated; [None] when no digit was read. *)
Fixpoint digits (radix : Z) (acc : option Z) (s : string) : option Z :=
  match s with
  | String c r =>
      match digit_of radix c with
      | Some d =>
          digits radix (Some (radix * match acc with Some a => a | None => 0 end + d)) r
      | None => acc
      end
  | EmptyString => acc
  end.

Definition strip_hex_prefix (s : string) : option string :=
  match s with
  | String "0" (String "x" r) => Some r
  | String "0" (String "X" r) => Some r
  | _ => None
  end.

Definition unsigned (s : string) : option Z :=
  match strip_hex_prefix s with
  | Some r => digits 16 None r
  | None => digits 10 None s
  end.

(** The mathematical integer [parseInt] reads, sign included. *)
Definition signed (s : string) : option Z :=
  match skip_spaces s with
  | String "-" r => option_map Z.opp (unsigned r)
  | String "+" r => unsigned r
  | r => unsigned r
  end.

(** [parseInt(s)] without a radix argument: the integer read, as a
    Number; [None] is [NaN].  (An integer of magnitude [2 ^ 1024] or
    more stays finite here; as a number of days it is beyond the range
    of [Date] just as [Infinity] is.) *)
Definition parseInt_string (s : string) : option Z :=
  option_map binary64_int (signed s).

(** [parseInt(req.query.x as string)]: an absent parameter is
    [undefined], which parses to [NaN]. *)
Definition parseInt (q : option string) : option Z :=
  match q with
  | Some s => parseInt_string s
  | None => None
  end.

(** [n || d] on a number: [NaN] and zero are falsy. *)
Definition or_default (n : option Z) (d : Z) : Z :=
  match n with
  | Some 0 => d
  | Some v => v
  | None => d
  end.

(** [a.reduce((x, y) => x + y, 0)]. *)
Definition sum (l : list Z) : Z := fold_left Z.add l 0.

End Js.

(* ================================================================== *)
(** ** shared/schema.ts *)

Module Schema.

Inductive ExecutionStatus := success | error | running | waiting | canceled.

Definition status_eqb (a b : ExecutionStatus) : bool :=
  match a, b with
  | success, success | error, error | running, running
  | waiting, waiting | canceled, canceled => true
  | _, _ => false
  end.

(** The string a status is on the wire. *)
Definition status_string (s : ExecutionStatus) : string :=
  match s with
  | success => "success"
  | error => "error"
  | running => "running"
  | waiting => "waiting"
  | canceled => "canceled"
  end.

(** [ExecutionLog], without the two JSON payloads, which no handler
    selects. *)
Record ExecutionLog := {
  id : string;
  execution_id : string;
  workflow_id : string;
  workflow_name : string;
  status : ExecutionStatus;
  finished : bool;
  started_at : option Z;
  finished_at : option Z;
  duration_ms : option Z;
  mode : option string;
  node_count : option Z;
  error_message : option string;
  created_at : Z;
  n8n_instance : option string
}.

Record ExecutionStats := {
  totalExecutions : nat;
  successCount : nat;
  errorCount : nat;
  runningCount : nat;
  waitingCount : nat;
  canceledCount : nat;
  avgDurationMs : Q;
  successRate : Q
}.

Record DailyStats := {
  date : string;
  total : nat;
  success_n : nat;
  error_n : nat
}.

End Schema.

(* ================================================================== *)
(** ** Calendar days

    [Date] arithmetic of the handlers and of date-fns.  The zone of the
    server is any [TimeZone]; the zone of the browser, in which date-fns
    takes the bounds of a day, has a fixed offset [tz] (milliseconds to
    add to UTC to get local time). *)

Module Dates.

Definition msPerDay : Z := 86400000.

(** The UTC calendar day of an instant, as a day count since the epoch:
    what [toISOString().split("T")[0]] names. *)
Definition utcDay (t : Z) : Z := t / msPerDay.

(** Year, month and day of month of a day count (proleptic Gregorian). *)
Definition civil (day : Z) : Z * Z * Z :=
  let z := day + 719468 in
  let era := z / 146097 in
  let doe := z mod 146097 in
  let yoe := (doe - doe / 1460 + doe / 36524 - doe / 146096) / 365 in
  let doy := doe - (365 * yoe + yoe / 4 - yoe / 100) in
  let mp := (5 * doy + 2) / 153 in
  let d := doy - (153 * mp + 2) / 5 + 1 in
  let m := if mp <? 10 then mp + 3 else mp - 9 in
  let y := yoe + era * 400 + (if m <=? 2 then 1 else 0) in
  (y, m, d).

Definition pad2 (n : Z) : string :=
  if n <? 10 then ("0" ++ Js.show n)%string else Js.show n.

Definition pad4 (n : Z) : string :=
  if n <? 10 then ("000" ++ Js.show n)%string
  else if n <? 100 then ("00" ++ Js.show n)%string
  else if n <? 1000 then ("0" ++ Js.show n)%string
  else Js.show n.

(** ["yyyy-MM-dd"]. *)
Definition isoDate (day : Z) : string :=
  let '(y, m, d) := civil day in
  (pad4 y ++ "-" ++ pad2 m ++ "-" ++ pad2 d)%string.

Definition monthShort (m : Z) : string :=
  nth (Z.to_nat (m - 1))
    ["Jan"; "Feb"; "Mar"; "Apr"; "May"; "Jun";
     "Jul"; "Aug"; "Sep"; "Oct"; "Nov"; "Dec"]%string ""%string.

(** [toLocaleDateString("en-US", { month: "short", day: "numeric" })]
    of a day. *)
Definition shortLabel (day : Z) : string :=
  let '(_, m, d) := civil day in
  (monthShort m ++ " " ++ Js.show d)%string.

(** *** The zone of the server *)

(** A time zone: the offset in force at an instant ([LocalTZA(t, true)]
    of ECMAScript) and the offset taken for a local wall-clock time
    ([LocalTZA(t, false)]); the two differ around a change of offset. *)
Record TimeZone := {
  offsetOfInstant : Z -> Z;
  offsetOfLocal : Z -> Z
}.


(** The largest time value of a [Date]: 100 000 000 days. *)
Definition maxTime : Z := 8640000000000000.

(** [TimeClip]: a time value out of range makes an Invalid Date,
    [None]. *)
Definition timeClip (t : Z) : option Z :=
  if andb (- maxTime <=? t) (t <=? maxTime) then Some t else None.

(** [d.setDate(d.getDate() - k)] on a Date of time value [t]: the same
    local time of day, [k] calendar days earlier, taken back to UTC. *)
Definition minusDays (zone : TimeZone) (t k : Z) : option Z :=
  let local := t + offsetOfInstant zone t - k * msPerDay in
  timeClip (local - offsetOfLocal zone local).

(** [d.toISOString().split("T")[0]]; [None]: [toISOString] throws a
    [RangeError] on an Invalid Date. *)
Definition isoDay (d : option Z) : option Z := option_map utcDay d.

(** [new Date("yyyy-MM-dd")] is UTC midnight of that day; the label
    is taken in local time. *)
Definition labelOfUtcDay (zone : TimeZone) (day : Z) : string :=
  let t := day * msPerDay in
  shortLabel ((t + offsetOfInstant zone t) / msPerDay).

(** *** The zone of the browser *)

Section Zone.

Variable tz : Z.

(** The local calendar day of an instant. *)
Definition localDay (t : Z) : Z := (t + tz) / msPerDay.

(** date-fns [startOfDay]: local midnight of the day of [t]. *)
Definition startOfDay (t : Z) : Z := t - (t + tz) mod msPerDay.

(** date-fns [endOfDay]: 23:59:59.999 local of the day of [t]. *)
Definition endOfDay (t : Z) : Z := startOfDay t + (msPerDay - 1).

(** date-fns [isWithinInterval]: the two ends are put in order, then
    [time >= start && time <= end].  (Releases before 3 reject an
    interval whose start is after its end; on an ordered interval all
    releases compute this.) *)
Definition isWithinInterval (t start_ end_ : Z) : bool :=
  let lo := Z.min start_ end_ in
  let hi := Z.max start_ end_ in
  andb (lo <=? t) (t <=? hi).

(** date-fns [format(d, "yyyy-MM-dd")]. *)
Definition formatDay (t : Z) : string := isoDate (localDay t).

End Zone.

End Dates.

(* ================================================================== *)
(** ** Ordered containers: [Array.prototype.sort] and [Map] *)

Module Coll.

Section Sort.
Context {A : Type} (le : A -> A -> bool).

Fixpoint insert_sorted (x : A) (l : list A) : list A :=
  match l with
  | [] => [x]
  | y :: t => if le x y then x :: l else y :: insert_sorted x t
  end.

(** A stable sort. *)
Definition sort_by (l : list A) : list A := fold_right insert_sorted [] l.
End Sort.

Section InsertionOrderedMap.
Context {V : Type}.

(** A JavaScript [Map] keyed by calendar day: entries in insertion
    order, one per key. *)
Definition DayMap := list (Z * V).

Fixpoint get (k : Z) (m : DayMap) : option V :=
  match m with
  | [] => None
  | (k', v) :: t => if k =? k' then Some v else get k t
  end.

(** [m.set(k, v)]: an existing key keeps its place. *)
Fixpoint set (k : Z) (v : V) (m : DayMap) : DayMap :=
  match m with
  | [] => [(k, v)]
  | (k', v') :: t => if k =? k' then (k, v) :: t else (k', v') :: set k v t
  end.
End InsertionOrderedMap.

Arguments DayMap : clear implicits.

End Coll.

(* ================================================================== *)
(** ** server/routes.ts *)

Module Server.
Import Schema.

(** What a handler sends: [res.json(body)] or
    [res.status(500).json({ error })]. *)
Inductive Response (A : Type) :=
| Json (body : A)
| Status500 (message : string).
Arguments Json {A} body.
Arguments Status500 {A} message.

(** The table [n8n_execution_logs] behind the storage client: its rows,
    or the failure every query against it reports. *)
Inductive Store :=
| Rows (rows : list ExecutionLog)
| Failing (message : string).

(** [{ data, error }] of an awaited query. *)
Record QueryResult := {
  data : option (list ExecutionLog);
  error : option string
}.

(** A query: a transformation of the rows, run by the store. *)
Definition run (st : Store) (q : list ExecutionLog -> list ExecutionLog)
  : QueryResult :=
  match st with
  | Rows rows => {| data := Some (q rows); error := None |}
  | Failing m => {| data := None; error := Some m |}
  end.

Definition instance_is (i : string) (r : ExecutionLog) : bool :=
  match n8n_instance r with
  | Some j => String.eqb j i
  | None => false
  end.

(** [if (instance) query = query.eq("n8n_instance", instance)]. *)
Definition eq_instance (instance : option string)
    (rows : list ExecutionLog) : list ExecutionLog :=
  match instance with
  | Some i => if Js.truthy instance then filter (instance_is i) rows else rows
  | None => rows
  end.

Definition order_created_desc : list ExecutionLog -> list ExecutionLog :=
  Coll.sort_by (fun a b => created_at b <=? created_at a).

Definition order_created_asc : list ExecutionLog -> list ExecutionLog :=
  Coll.sort_by (fun a b => created_at a <=? created_at b).

(** [data || []]. *)
Definition or_empty (d : option (list ExecutionLog)) : list ExecutionLog :=
  match d with
  | Some l => l
  | None => []
  end.

(** *** GET /api/executions *)

Definition limit_of (q : option string) : Z :=
  Js.or_default (Js.parseInt q) 100.

Definition executionsHandler (st : Store) (limit_param instance : option string)
  : Response (list ExecutionLog) :=
  let limit := limit_of limit_param in
  let r := run st (fun rows =>
             firstn (Z.to_nat limit)
               (order_created_desc (eq_instance instance rows))) in
  match error r with
  | Some m => Status500 m
  | None => Json (or_empty (data r))
  end.

(** *** GET /api/executions/stats *)

Definition count_status (s : ExecutionStatus) (l : list ExecutionLog) : nat :=
  List.length (filter (fun e => status_eqb (status e) s) l).

Definition has_duration (e : ExecutionLog) : bool :=
  match duration_ms e with
  | Some _ => true
  | None => false
  end.

(** [e.duration_ms as number]. *)
Definition duration_number (e : ExecutionLog) : Z :=
  match duration_ms e with
  | Some d => d
  | None => 0
  end.

Definition of_nat (n : nat) : Q := inject_Z (Z.of_nat n).

(** The body of the stats handler once the rows are there. *)
Definition computeStats (executions : list ExecutionLog) : ExecutionStats :=
  let totalExecutions := List.length executions in
  let successCount := count_status success executions in
  let errorCount := count_status Schema.error executions in
  let runningCount := count_status running executions in
  let waitingCount := count_status waiting executions in
  let canceledCount := count_status canceled executions in
  let durationsWithValues :=
    map duration_number (filter has_duration executions) in
  let avgDurationMs :=
    if (0 <? List.length durationsWithValues)%nat
    then inject_Z (Js.Math_round
           (inject_Z (Js.sum durationsWithValues)
            / of_nat (List.length durationsWithValues)))
    else 0%Q in
  let successRate :=
    if (0 <? totalExecutions)%nat
    then Js.mul (Js.div (of_nat successCount) (of_nat totalExecutions)) 100
    else 0%Q in
  {| totalExecutions := totalExecutions;
     successCount := successCount;
     errorCount := errorCount;
     runningCount := runningCount;
     waitingCount := waitingCount;
     canceledCount := canceledCount;
     avgDurationMs := avgDurationMs;
     successRate := successRate |}.

Definition statsHandler (st : Store) (instance : option string)
  : Response ExecutionStats :=
  let r := run st (eq_instance instance) in
  match error r with
  | Some m => Status500 m
  | None => Json (computeStats (or_empty (data r)))
  end.

(** *** GET /api/executions/daily *)

Record Bucket := { b_total : nat; b_success : nat; b_error : nat }.

Definition zero_bucket : Bucket :=
  {| b_total := 0; b_success := 0; b_error := 0 |}.

Definition days_of (q : option string) : Z :=
  Js.or_default (Js.parseInt q) 14.

(** [for (let i = 0; i <= days; i++)]: the values [i] takes. *)
Definition loop_indices (days : Z) : list Z :=
  map Z.of_nat (seq 0 (Z.to_nat (days + 1))).

(** A loop whose body may throw: [None] once a turn has thrown. *)
Fixpoint forEach {A B : Type} (body : B -> A -> option B) (l : list A) (b : B)
  : option B :=
  match l with
  | [] => Some b
  | a :: t =>
      match body b a with
      | Some b' => forEach body t b'
      | None => None
      end
  end.

(** The message of the [RangeError] of [toISOString]. *)
Definition invalidTime : string := "Invalid time value".

(** "Initialize all dates in range": turn [i] sets the key of the UTC
    day of the instant [days - i] local days before [now]. *)
Definition seedTurn (zone : Dates.TimeZone) (now days : Z)
    (m : Coll.DayMap Bucket) (i : Z) : option (Coll.DayMap Bucket) :=
  match Dates.isoDay (Dates.minusDays zone now (days - i)) with
  | Some dateStr => Some (Coll.set dateStr zero_bucket m)
  | None => None
  end.

Definition seed (zone : Dates.TimeZone) (now days : Z)
  : option (Coll.DayMap Bucket) :=
  forEach (seedTurn zone now days) (loop_indices days) [].

(** One turn of "Aggregate data", for a row whose [created_at] makes a
    valid Date. *)
Definition aggregate (m : Coll.DayMap Bucket) (execution : ExecutionLog)
  : Coll.DayMap Bucket :=
  let dateStr := Dates.utcDay (created_at execution) in
  let existing :=
    match Coll.get dateStr m with
    | Some b => b
    | None => zero_bucket
    end in
  let existing' :=
    {| b_total := S (b_total existing);
       b_success := if status_eqb (status execution) success
                    then S (b_success existing) else b_success existing;
       b_error := if status_eqb (status execution) success
                  then b_error existing
                  else if status_eqb (status execution) Schema.error
                       then S (b_error existing) else b_error existing |} in
  Coll.set dateStr existing' m.

(** One turn of "Aggregate data": [new Date(execution.created_at)
    .toISOString()] throws when the timestamp is out of the range of
    [Date]. *)
Definition aggregateTurn (m : Coll.DayMap Bucket) (execution : ExecutionLog)
  : option (Coll.DayMap Bucket) :=
  match Dates.isoDay (Dates.timeClip (created_at execution)) with
  | Some _ => Some (aggregate m execution)
  | None => None
  end.

(** The map when the two loops are over. *)
Definition dailyMap (zone : Dates.TimeZone) (now days : Z)
    (rows : list ExecutionLog) : option (Coll.DayMap Bucket) :=
  match seed zone now days with
  | Some m => forEach aggregateTurn rows m
  | None => None
  end.

(** The query of the daily handler: rows created since [startDate],
    oldest first, of the instance when one is asked for. *)
Definition dailyQuery (startDate : Z) (instance : option string)
    (rows : list ExecutionLog) : list ExecutionLog :=
  eq_instance instance
    (order_created_asc
       (filter (fun e => startDate <=? created_at e) rows)).

Section Daily.
Variable zone : Dates.TimeZone.

Definition toDailyStats (entry : Z * Bucket) : DailyStats :=
  {| date := Dates.labelOfUtcDay zone (fst entry);
     total := b_total (snd entry);
     success_n := b_success (snd entry);
     error_n := b_error (snd entry) |}.

(** The handler; whatever is thrown inside its [try] is answered with
    status 500 and the message of the error.  [startDate.toISOString()]
    is evaluated when the query is built, before the store is asked. *)
Definition dailyHandler (st : Store) (now : Z)
    (days_param instance : option string) : Response (list DailyStats) :=
  let days := days_of days_param in
  match Dates.minusDays zone now days with
  | None => Status500 invalidTime
  | Some startDate =>
      let r := run st (dailyQuery startDate instance) in
      match error r with
      | Some m => Status500 m
      | None =>
          match dailyMap zone now days (or_empty (data r)) with
          | Some m => Json (map toDailyStats m)
          | None => Status500 invalidTime
          end
      end
  end.
End Daily.

End Server.

(* ================================================================== *)
(** ** client/src/components/execution-filters.tsx *)

Module Filters.

(** react-day-picker's [DateRange]: two optional [Date]s. *)
Record DateRange := { from : option Z; to : option Z }.

Record ExecutionFilters := {
  instanceFilter : option string;
  statusFilter : option string;
  workflowFilter : option string;
  modeFilter : option string;
  dateRange : option DateRange
}.

(** The initial state of the page: nothing selected. *)
Definition none : ExecutionFilters :=
  {| instanceFilter := None; statusFilter := None; workflowFilter := None;
     modeFilter := None; dateRange := None |}.

Definition with_status (f : ExecutionFilters) (s : option string)
  : ExecutionFilters :=
  {| instanceFilter := instanceFilter f; statusFilter := s;
     workflowFilter := workflowFilter f; modeFilter := modeFilter f;
     dateRange := dateRange f |}.

(** The filter clauses shared by the dashboard page and the table. *)
Section Clauses.
Import Schema.
Variable tz : Z.

(** [filters.workflowFilter && item.workflow_name !== filters.workflowFilter] *)
Definition workflow_rejects (f : ExecutionFilters) (item : ExecutionLog) : bool :=
  match workflowFilter f with
  | Some w => andb (Js.truthy (Some w)) (negb (String.eqb (workflow_name item) w))
  | None => false
  end.

(** [filters.modeFilter && item.mode !== filters.modeFilter] *)
Definition mode_rejects (f : ExecutionFilters) (item : ExecutionLog) : bool :=
  match modeFilter f with
  | Some m =>
      andb (Js.truthy (Some m))
           (negb match mode item with
                 | Some m' => String.eqb m' m
                 | None => false
                 end)
  | None => false
  end.

(** [item.status === s] for a selected status [s]. *)
Definition status_is (s : string) (item : ExecutionLog) : bool :=
  String.eqb (status_string (status item)) s.

(** The "Date range filter" block: [true] when it returns [false]
    from the filter callback. *)
Definition date_rejects (f : ExecutionFilters) (item : ExecutionLog) : bool :=
  match dateRange f with
  | Some range =>
      match from range, started_at item with
      | Some fromDate, Some started =>
          let itemDate := started in
          let from_ := Dates.startOfDay tz fromDate in
          let to_ :=
            match to range with
            | Some toDate => Dates.endOfDay tz toDate
            | None => Dates.endOfDay tz fromDate
            end in
          negb (Dates.isWithinInterval itemDate from_ to_)
      | _, _ => false
      end
  | None => false
  end.

(** The callback of [executions.filter] for the counts: workflow,
    mode and date range, not status. *)
Definition passesCountFilters (f : ExecutionFilters) (item : ExecutionLog) : bool :=
  if workflow_rejects f item then false
  else if mode_rejects f item then false
  else if date_rejects f item then false
  else true.
End Clauses.

End Filters.

(* ================================================================== *)
(** ** client/src/pages/dashboard.tsx *)

Module Dashboard.
Import Schema Filters.

(** The page's own [formatDuration], used by the Avg Duration card. *)
Definition formatDuration (ms : option Q) : string :=
  match ms with
  | Some v =>
      if Js.is_zero v then "0ms"%string
      else (Js.show (Js.Math_round v) ++ "ms")%string
  | None => "0ms"%string
  end.

Definition is_some {A} (o : option A) : bool :=
  match o with
  | Some _ => true
  | None => false
  end.

Definition hasCountFilters (filters : ExecutionFilters) : bool :=
  orb (orb (Js.truthy (workflowFilter filters)) (Js.truthy (modeFilter filters)))
      (is_some (dateRange filters)).

Definition hasAnyFilters (filters : ExecutionFilters) : bool :=
  orb (hasCountFilters filters) (Js.truthy (statusFilter filters)).

Section Page.
Variable tz : Z.

Definition filteredForCounts (executions : list ExecutionLog)
    (filters : ExecutionFilters) : list ExecutionLog :=
  filter (passesCountFilters tz filters) executions.

Definition filteredForDuration (executions : list ExecutionLog)
    (filters : ExecutionFilters) : list ExecutionLog :=
  match statusFilter filters with
  | Some s =>
      if Js.truthy (Some s)
      then filter (status_is s) (filteredForCounts executions filters)
      else filteredForCounts executions filters
  | None => filteredForCounts executions filters
  end.

Definition count_status (s : ExecutionStatus) (l : list ExecutionLog) : nat :=
  List.length (filter (fun e => status_eqb (status e) s) l).

(** The [useMemo] body of [filteredStats]; [None] is [null]. *)
Definition filteredStats (executions : option (list ExecutionLog))
    (filters : ExecutionFilters) (stats : option ExecutionStats)
  : option ExecutionStats :=
  match executions with
  | Some execs =>
      if negb (hasAnyFilters filters) then stats
      else
        let forCounts := filteredForCounts execs filters in
        let forDuration := filteredForDuration execs filters in
        let successCount := count_status success forCounts in
        let errorCount := count_status Schema.error forCounts in
        let runningCount := count_status running forCounts in
        let waitingCount := count_status waiting forCounts in
        let canceledCount := count_status canceled forCounts in
        let durations :=
          map Server.duration_number (filter Server.has_duration forDuration) in
        let avgDurationMs :=
          if (0 <? List.length durations)%nat
          then (inject_Z (Js.sum durations)
                / Server.of_nat (List.length durations))%Q
          else 0%Q in
        let totalExecutions := List.length forCounts in
        Some {| totalExecutions := totalExecutions;
                successCount := successCount;
                errorCount := errorCount;
                runningCount := runningCount;
                waitingCount := waitingCount;
                canceledCount := canceledCount;
                avgDurationMs := avgDurationMs;
                successRate :=
                  if (0 <? totalExecutions)%nat
                  then Js.mul (Js.div (Server.of_nat successCount)
                                      (Server.of_nat totalExecutions)) 100
                  else 0%Q |}
  | None => stats
  end.

(** One turn of the [forEach] that fills [byDate]. *)
Definition group (byDate : Coll.DayMap Server.Bucket) (e : ExecutionLog)
  : Coll.DayMap Server.Bucket :=
  match started_at e with
  | None => byDate
  | Some started =>
      let date := Dates.localDay tz started in
      let existing :=
        match Coll.get date byDate with
        | Some b => b
        | None => Server.zero_bucket
        end in
      Coll.set date
        {| Server.b_total := S (Server.b_total existing);
           Server.b_success :=
             if status_eqb (status e) success
             then S (Server.b_success existing) else Server.b_success existing;
           Server.b_error :=
             if status_eqb (status e) Schema.error
             then S (Server.b_error existing) else Server.b_error existing |}
        byDate
  end.

Definition toDailyStats (entry : Z * Server.Bucket) : DailyStats :=
  {| date := Dates.isoDate (fst entry);
     total := Server.b_total (snd entry);
     success_n := Server.b_success (snd entry);
     error_n := Server.b_error (snd entry) |}.

(** The [useMemo] body of [filteredDailyStats]. *)
Definition filteredDailyStats (executions : option (list ExecutionLog))
    (filters : ExecutionFilters) (dailyStats : option (list DailyStats))
  : list DailyStats :=
  let server :=
    match dailyStats with
    | Some d => d
    | None => []
    end in
  match executions with
  | Some execs =>
      if negb (hasCountFilters filters) then server
      else
        let filtered := filter (passesCountFilters tz filters) execs in
        let byDate := fold_left group filtered [] in
        Coll.sort_by (fun a b => String.leb (date a) (date b))
          (map toDailyStats byDate)
  | None => server
  end.

(** What the Avg Duration card shows once the stats are loaded. *)
Definition avgDurationCard (filtered : option ExecutionStats) : string :=
  formatDuration (option_map avgDurationMs filtered).

End Page.

(** *** The three queries of the page *)

Definition body {A} (r : Server.Response A) : option A :=
  match r with
  | Server.Json b => Some b
  | Server.Status500 _ => None
  end.

(** [filters.instanceFilter ? `?instance=...` : ""] *)
Definition instanceQueryParam (filters : ExecutionFilters) : option string :=
  if Js.truthy (instanceFilter filters) then instanceFilter filters else None.

Definition fetchExecutions (st : Server.Store) (filters : ExecutionFilters)
  : option (list ExecutionLog) :=
  body (Server.executionsHandler st None (instanceQueryParam filters)).

Definition fetchStats (st : Server.Store) (filters : ExecutionFilters)
  : option ExecutionStats :=
  body (Server.statsHandler st (instanceQueryParam filters)).

Definition fetchDaily (server_tz : Dates.TimeZone) (st : Server.Store) (now : Z)
    (filters : ExecutionFilters) : option (list DailyStats) :=
  body (Server.dailyHandler server_tz st now None (instanceQueryParam filters)).

End Dashboard.

(* ================================================================== *)
(** ** client/src/components/execution-table.tsx *)

Module Table.
Import Schema Filters.

(** [formatDuration] of the detail sheet; [DurationCellRenderer] of the
    grid has the same branches. *)
Definition formatDuration (ms : option Q) : string :=
  match ms with
  | None => "-"%string
  | Some v =>
      if Js.ltb v 1000 then (Js.show (Js.Math_round v) ++ "ms")%string
      else if Js.ltb v 60000
           then (Js.show (Js.Math_round (v / 1000)) ++ "s")%string
           else (Js.show (Js.Math_round (v / 60000)) ++ "m")%string
  end.

Definition DurationCellRenderer (value : option Q) : string :=
  match value with
  | None => "-"%string
  | Some ms =>
      if Js.ltb ms 1000 then (Js.show (Js.Math_round ms) ++ "ms")%string
      else if Js.ltb ms 60000
           then (Js.show (Js.Math_round (ms / 1000)) ++ "s")%string
           else (Js.show (Js.Math_round (ms / 60000)) ++ "m")%string
  end.

Section Grid.
Variable tz : Z.

(** The callback of [data.filter] in [filteredData]. *)
Definition passesAllFilters (f : ExecutionFilters) (item : ExecutionLog) : bool :=
  if match statusFilter f with
     | Some s => andb (Js.truthy (Some s)) (negb (status_is s item))
     | None => false
     end then false
  else if workflow_rejects f item then false
  else if mode_rejects f item then false
  else if date_rejects tz f item then false
  else true.

Definition filteredData (data : list ExecutionLog) (f : ExecutionFilters)
  : list ExecutionLog :=
  filter (passesAllFilters f) data.
End Grid.

End Table.

(* ================================================================== *)
(** ** The contract of the aggregation, in the words of the specification *)

Module Spec.
Import Schema Filters.

(** Number of records of a status, in one pass. *)
Fixpoint tally (s : ExecutionStatus) (l : list ExecutionLog) : nat :=
  match l with
  | [] => 0
  | e :: t => ((if status_eqb (status e) s then 1 else 0) + tally s t)%nat
  end.

(** The durations that are not null. *)
Fixpoint known_durations (l : list ExecutionLog) : list Z :=
  match l with
  | [] => []
  | e :: t =>
      match duration_ms e with
      | Some d => d :: known_durations t
      | None => known_durations t
      end
  end.

(** Arithmetic mean; 0 of no value. *)
Definition mean (ds : list Z) : Q :=
  match ds with
  | [] => 0%Q
  | _ => (inject_Z (fold_right Z.add 0%Z ds)
          / inject_Z (Z.of_nat (List.length ds)))%Q
  end.

(** [matchesStatusFilter]: no status selected, or the record has it. *)
Definition matchesStatusFilter (f : ExecutionFilters) (e : ExecutionLog) : bool :=
  if Js.truthy (statusFilter f)
  then match statusFilter f with
       | Some s => String.eqb (status_string (status e)) s
       | None => true
       end
  else true.

(** A text dimension of the filter state is inactive when it is null
    or empty. *)
Definition inactive (o : option string) : bool :=
  match o with
  | None => true
  | Some s => String.eqb s EmptyString
  end.

(** At least one of the dimensions that narrow the figures of the page
    is active: workflow, mode, date range or status. *)
Definition narrows (f : ExecutionFilters) : bool :=
  orb (negb (inactive (workflowFilter f)))
    (orb (negb (inactive (modeFilter f)))
       (orb (match dateRange f with Some _ => true | None => false end)
            (negb (inactive (statusFilter f))))).

(** workflowFilter: exact equality on the workflow name, or pass when
    the filter is inactive. *)
Definition workflowMatches (f : ExecutionFilters) (e : ExecutionLog) : bool :=
  orb (inactive (workflowFilter f))
      (match workflowFilter f with
       | Some w => String.eqb (workflow_name e) w
       | None => false
       end).

(** modeFilter: exact equality on the mode, or pass when the filter is
    inactive. *)
Definition modeMatches (f : ExecutionFilters) (e : ExecutionLog) : bool :=
  orb (inactive (modeFilter f))
      (match modeFilter f, mode e with
       | Some m, Some m' => String.eqb m' m
       | _, _ => false
       end).

(** [t] lies between the two ends, whichever of them is the earlier. *)
Definition between (a b t : Z) : bool :=
  orb (andb (a <=? t) (t <=? b)) (andb (b <=? t) (t <=? a)).

(** dateRange: the start time lies between start-of-day(from) and
    end-of-day(to ?? from); pass when there is no range, no [from], or
    no start time. *)
Definition dateMatches (tz : Z) (f : ExecutionFilters) (e : ExecutionLog) : bool :=
  match dateRange f with
  | None => true
  | Some range =>
      match from range, started_at e with
      | Some fromDate, Some t =>
          between (Dates.startOfDay tz fromDate)
            (Dates.endOfDay tz
               (match to range with Some d => d | None => fromDate end))
            t
      | _, _ => true
      end
  end.

(** The count predicate: workflow, mode and date range; status is not
    part of it. *)
Definition matchesCountFilters (tz : Z) (f : ExecutionFilters) (e : ExecutionLog)
  : bool :=
  andb (workflowMatches f e) (andb (modeMatches f e) (dateMatches tz f e)).

(** Count-eligible and duration-eligible subsets. *)
Definition countSet (tz : Z) (f : ExecutionFilters) (records : list ExecutionLog) :=
  filter (matchesCountFilters tz f) records.

Definition durationSet (tz : Z) (f : ExecutionFilters) (records : list ExecutionLog) :=
  filter (matchesStatusFilter f) (countSet tz f records).

(** The date-range clause as the specification words it for a dated
    record: within [start-of-day(from), end-of-day(to ?? from)]. *)
Definition inWindow (tz : Z) (range : DateRange) (fromDate t : Z) : Prop :=
  Dates.startOfDay tz fromDate <= t
  <= Dates.endOfDay tz (match to range with Some d => d | None => fromDate end).

(** [totalExecutions] is the sum of the five per-status counts. *)
Definition sums_up (s : ExecutionStats) : Prop :=
  totalExecutions s
  = (successCount s + errorCount s + runningCount s
     + waitingCount s + canceledCount s)%nat.

(** The percentage of successes, as a real number. *)
Definition percentage (s : ExecutionStats) : Q :=
  (100 * inject_Z (Z.of_nat (successCount s))
   / inject_Z (Z.of_nat (totalExecutions s)))%Q.

(** The success rate: 0 of no execution; otherwise the quotient of the
    two counts times 100, each of the two operations rounded to
    binary64, which is within [2 ^ -45] of the percentage; and its
    range. *)
Definition rate_ok (s : ExecutionStats) : Prop :=
  (totalExecutions s = 0%nat -> successRate s == 0)%Q
  /\ (totalExecutions s <> 0%nat ->
      successRate s
      = Js.mul (Js.div (inject_Z (Z.of_nat (successCount s)))
                       (inject_Z (Z.of_nat (totalExecutions s)))) 100
      /\ (Qabs (successRate s - percentage s) <= Js.pow2 (-45))%Q)
  /\ (0 <= successRate s <= 100)%Q.

(** The six counts of two results agree. *)
Definition same_counts (a b : ExecutionStats) : Prop :=
  totalExecutions a = totalExecutions b
  /\ successCount a = successCount b
  /\ errorCount a = errorCount b
  /\ runningCount a = runningCount b
  /\ waitingCount a = waitingCount b
  /\ canceledCount a = canceledCount b.

(** The count a result holds for a status. *)
Definition count_of (st : ExecutionStatus) (s : ExecutionStats) : nat :=
  match st with
  | success => successCount s
  | error => errorCount s
  | running => runningCount s
  | waiting => waitingCount s
  | canceled => canceledCount s
  end.





(** A row is of the instance asked for; every row is when none is
    asked for. *)
Definition of_instance (instance : option string) (e : ExecutionLog) : bool :=
  orb (inactive instance)
      (match instance, n8n_instance e with
       | Some i, Some j => String.eqb j i
       | _, _ => false
       end).

(** The rows of the instance asked for that were created at
    [startDate] or later. *)
Definition created_since (startDate : Z) (instance : option string)
    (rows : list ExecutionLog) : list ExecutionLog :=
  filter (fun e => andb (startDate <=? created_at e) (of_instance instance e))
    rows.



End Spec.

(* ================================================================== *)
(** ** Sample data *)

Module Samples.
Import Schema Filters.

Definition day1 : Z := 1762128000000.

Definition log (ident name : string) (st : ExecutionStatus) (dur : option Z)
    (started : option Z) : ExecutionLog :=
  {| id := ident; execution_id := ident; workflow_id := name;
     workflow_name := name; status := st; finished := true;
     started_at := started;
     finished_at := match started, dur with
                    | Some t, Some d => Some (t + d)
                    | _, _ => None
                    end;
     duration_ms := dur;
     mode := Some "trigger"%string; node_count := Some 3;
     error_message := None; created_at := day1 + 1000;
     n8n_instance := Some "https://prod"%string |}.

(** The two records of the specification's scenarios. *)
Definition record1 := log "1" "A" success (Some 100) (Some day1).
Definition record2 := log "2" "B" Schema.error (Some 200) (Some day1).
Definition two_records := [record1; record2].

Definition undated := log "3" "A" running None None.

Definition quick := log "4" "A" success (Some 1) (Some day1).
Definition slow := log "5" "A" success (Some 2) (Some day1).

Definition long_run := log "6" "A" success (Some 125000) (Some day1).

(** The [i]-th of a run of successful executions, one second apart. *)
Definition numbered (i : nat) : ExecutionLog :=
  {| id := Js.show (Z.of_nat i); execution_id := Js.show (Z.of_nat i);
     workflow_id := "A"; workflow_name := "A"; status := success;
     finished := true;
     started_at := Some (day1 + 1000 * Z.of_nat i);
     finished_at := Some (day1 + 1000 * Z.of_nat i + 100);
     duration_ms := Some 100;
     mode := Some "trigger"%string; node_count := Some 3;
     error_message := None; created_at := day1 + 1000 * Z.of_nat i + 200;
     n8n_instance := Some "https://prod"%string |}.

(** The [i]-th execution, failed. *)
Definition failed (i : nat) : ExecutionLog :=
  {| id := Js.show (Z.of_nat i); execution_id := Js.show (Z.of_nat i);
     workflow_id := "B"; workflow_name := "B"; status := Schema.error;
     finished := true;
     started_at := Some (day1 + 1000 * Z.of_nat i);
     finished_at := Some (day1 + 1000 * Z.of_nat i + 100);
     duration_ms := Some 100;
     mode := Some "trigger"%string; node_count := Some 3;
     error_message := Some "boom"%string;
     created_at := day1 + 1000 * Z.of_nat i + 200;
     n8n_instance := Some "https://prod"%string |}.

(** Forty executions, 23 of them successful. *)
Definition forty : list ExecutionLog :=
  map numbered (seq 0 23) ++ map failed (seq 23 17).

Definition onlyWorkflow (w : string) : ExecutionFilters :=
  {| instanceFilter := None; statusFilter := None; workflowFilter := Some w;
     modeFilter := None; dateRange := None |}.

Definition onlyStatus (s : string) : ExecutionFilters :=
  with_status none (Some s).

Definition onlyInstance (i : string) : ExecutionFilters :=
  {| instanceFilter := Some i; statusFilter := None; workflowFilter := None;
     modeFilter := None; dateRange := None |}.

Definition onlyDay (d : Z) : ExecutionFilters :=
  {| instanceFilter := None; statusFilter := None; workflowFilter := None;
     modeFilter := None;
     dateRange := Some {| from := Some d; to := None |} |}.

(** Eastern time around the end of daylight saving on 2 November 2025,
    06:00 UTC: four hours behind UTC before, five after; of the two
    readings of the hour that the clock repeats, the earlier. *)
Definition newYork : Dates.TimeZone :=
  let change := day1 - 64800000 in
  {| Dates.offsetOfInstant :=
       fun t => if t <? change then -14400000 else -18000000;
     Dates.offsetOfLocal :=
       fun local => if local <? change - 14400000 then -14400000 else -18000000 |}.

(** One more row than the page's fetch brings back. *)
Definition crowded : Server.Store := Server.Rows (map numbered (seq 0 101)).

Definition small : Server.Store := Server.Rows two_records.

End Samples.

(* ================================================================== *)
(** ** String-keyed [Map] and [Set] *)

Module StrColl.

Section KeyedMap.
Context {V : Type}.

(** A JavaScript [Map] with string keys: entries in insertion order. *)
Definition StrMap := list (string * V).

Fixpoint get (k : string) (m : StrMap) : option V :=
  match m with
  | [] => None
  | (k', v) :: t => if String.eqb k k' then Some v else get k t
  end.

(** [m.set(k, v)]: an existing key keeps its place. *)
Fixpoint set (k : string) (v : V) (m : StrMap) : StrMap :=
  match m with
  | [] => [(k, v)]
  | (k', v') :: t =>
      if String.eqb k k' then (k, v) :: t else (k', v') :: set k v t
  end.
End KeyedMap.

Arguments StrMap : clear implicits.

(** [s.add(x)] on a [Set] of strings, in insertion order. *)
Definition add (x : string) (s : list string) : list string :=
  if existsb (String.eqb x) s then s else s ++ [x].

(** [Array.from(set).sort()]: ascending by code units. *)
Definition sorted (s : list string) : list string :=
  Coll.sort_by String.leb s.

End StrColl.

(* ================================================================== *)
(** ** server/routes.ts: the instances and workflows handlers *)

Module Routes.

(** *** GET /api/instances *)

Definition has_instance (r : Schema.ExecutionLog) : bool :=
  match Schema.n8n_instance r with
  | Some _ => true
  | None => false
  end.

(** One turn of the [forEach] that fills [instanceSet]. *)
Definition collect (instanceSet : list string) (d : Schema.ExecutionLog)
  : list string :=
  match Schema.n8n_instance d with
  | Some i => if Js.truthy (Some i) then StrColl.add i instanceSet else instanceSet
  | None => instanceSet
  end.

Definition instancesHandler (st : Server.Store) : Server.Response (list string) :=
  let r := Server.run st (filter has_instance) in
  match Server.error r with
  | Some m => Server.Status500 m
  | None =>
      let instanceSet := fold_left collect (Server.or_empty (Server.data r)) [] in
      Server.Json (StrColl.sorted instanceSet)
  end.

(** *** GET /api/executions/workflows *)

(** The value the handler keeps per workflow while it groups. *)
Record Group := {
  g_total_executions : nat;
  g_successful : nat;
  g_failed : nat;
  g_durations : list Z
}.

Definition empty_group : Group :=
  {| g_total_executions := 0; g_successful := 0; g_failed := 0;
     g_durations := [] |}.

(** [WorkflowStats] of shared/schema.ts. *)
Record WorkflowStats := {
  workflow_name : string;
  total_executions : nat;
  successful : nat;
  failed : nat;
  avg_duration_ms : Z
}.

(** One turn of the grouping [forEach]. *)
Definition accumulate (workflowMap : StrColl.StrMap Group)
    (execution : Schema.ExecutionLog) : StrColl.StrMap Group :=
  let name := Schema.workflow_name execution in
  let existing :=
    match StrColl.get name workflowMap with
    | Some g => g
    | None => empty_group
    end in
  StrColl.set name
    {| g_total_executions := S (g_total_executions existing);
       g_successful :=
         if Schema.status_eqb (Schema.status execution) Schema.success
         then S (g_successful existing) else g_successful existing;
       g_failed :=
         if Schema.status_eqb (Schema.status execution) Schema.error
         then S (g_failed existing) else g_failed existing;
       g_durations :=
         match Schema.duration_ms execution with
         | Some d => g_durations existing ++ [d]
         | None => g_durations existing
         end |}
    workflowMap.

Definition toWorkflowStats (entry : string * Group) : WorkflowStats :=
  let stats := snd entry in
  {| workflow_name := fst entry;
     total_executions := g_total_executions stats;
     successful := g_successful stats;
     failed := g_failed stats;
     avg_duration_ms :=
       if (0 <? List.length (g_durations stats))%nat
       then Js.Math_round
              (inject_Z (Js.sum (g_durations stats))
               / Server.of_nat (List.length (g_durations stats)))
       else 0 |}.

Definition workflowsHandler (st : Server.Store) (instance : option string)
  : Server.Response (list WorkflowStats) :=
  let r := Server.run st (Server.eq_instance instance) in
  match Server.error r with
  | Some m => Server.Status500 m
  | None =>
      Server.Json
        (map toWorkflowStats
           (fold_left accumulate (Server.or_empty (Server.data r)) []))
  end.

End Routes.

(* ================================================================== *)
(** ** client/src/lib/instance-config.ts

    A string is the sequence of its code units; the functions below are
    exact on text whose code units are all below 256. *)

Module InstanceConfig.

(** White space that [String.prototype.trim] removes. *)
Definition is_trim_space (c : ascii) : bool :=
  let n := nat_of_ascii c in
  orb (orb (Nat.eqb n 32) (Nat.eqb n 160)) (andb (Nat.leb 9 n) (Nat.leb n 13)).

Fixpoint trimStart (s : string) : string :=
  match s with
  | String c r => if is_trim_space c then trimStart r else s
  | EmptyString => s
  end.

Fixpoint trimEnd (s : string) : string :=
  match s with
  | String c r =>
      match trimEnd r with
      | EmptyString => if is_trim_space c then EmptyString else String c EmptyString
      | r' => String c r'
      end
  | EmptyString => EmptyString
  end.

(** [s.trim()] *)
Definition trim (s : string) : string := trimEnd (trimStart s).

(** [s.replace(/\/+$/, "")]: the slashes at the end are removed. *)
Fixpoint stripTrailingSlashes (s : string) : string :=
  match s with
  | String c r =>
      match stripTrailingSlashes r with
      | EmptyString =>
          if Ascii.eqb c "/" then EmptyString else String c EmptyString
      | r' => String c r'
      end
  | EmptyString => EmptyString
  end.

(** Lower case of an ASCII letter, as the [i] flag compares. *)
Definition lower (c : ascii) : ascii :=
  let n := nat_of_ascii c in
  if andb (Nat.leb 65 n) (Nat.leb n 90) then ascii_of_nat (n + 32) else c.

(** What follows a prefix, letters compared without case; the prefix is
    given in lower case. *)
Fixpoint afterPrefix (p s : string) : option string :=
  match p with
  | EmptyString => Some s
  | String a p' =>
      match s with
      | String c s' => if Ascii.eqb (lower c) a then afterPrefix p' s' else None
      | EmptyString => None
      end
  end.

(** The text after a match of [/^https?:\/\//i], if there is one. *)
Definition afterProtocol (s : string) : option string :=
  match afterPrefix "https://" s with
  | Some r => Some r
  | None => afterPrefix "http://" s
  end.

Definition normalizeInstanceUrl (url : option string) : string :=
  match url with
  | Some u =>
      if Js.truthy (Some u) then
        let normalized := stripTrailingSlashes (trim u) in
        match afterProtocol normalized with
        | Some _ => normalized
        | None => ("https://" ++ normalized)%string
        end
      else EmptyString
  | None => EmptyString
  end.

Definition formatInstanceForDisplay (instance : option string) : string :=
  match instance with
  | Some i =>
      if Js.truthy (Some i) then
        stripTrailingSlashes
          match afterProtocol i with
          | Some rest => rest
          | None => i
          end
      else EmptyString
  | None => EmptyString
  end.

Definition buildN8nExecutionUrl (instanceUrl : option string)
    (workflowId executionId : string) : option string :=
  if Js.truthy instanceUrl then
    let baseUrl := normalizeInstanceUrl instanceUrl in
    Some (baseUrl ++ "/workflow/" ++ workflowId
          ++ "/executions/" ++ executionId)%string
  else None.

(** The last code unit of a string. *)
Fixpoint lastChar (s : string) : option ascii :=
  match s with
  | EmptyString => None
  | String c EmptyString => Some c
  | String _ r => lastChar r
  end.

End InstanceConfig.

(* ================================================================== *)
(** ** execution-hooks.js *)

Module Hook.

(** [host.startsWith("http")] *)
Definition startsWithHttp (host : string) : bool :=
  match host with
  | String "h" (String "t" (String "t" (String "p" _))) => true
  | _ => false
  end.

(** [getN8nInstance], from the value of [N8N_HOST]. *)
Definition getN8nInstance (host : option string) : string :=
  match host with
  | Some h =>
      if Js.truthy (Some h) then
        if startsWithHttp h then h else ("https://" ++ h)%string
      else "https://default"%string
  | None => "https://default"%string
  end.

End Hook.

(* ================================================================== *)
(** ** client/src/components/execution-filters.tsx: the filter bar *)

Module FiltersBar.
Import Filters.

(** One turn of the [forEach] of [uniqueWorkflows]. *)
Definition addWorkflow (workflows : list string) (item : Schema.ExecutionLog)
  : list string :=
  if Js.truthy (Some (Schema.workflow_name item))
  then StrColl.add (Schema.workflow_name item) workflows
  else workflows.

Definition uniqueWorkflows (data : list Schema.ExecutionLog) : list string :=
  StrColl.sorted (fold_left addWorkflow data []).

(** One turn of the [forEach] of [uniqueModes]. *)
Definition addMode (modes : list string) (item : Schema.ExecutionLog)
  : list string :=
  match Schema.mode item with
  | Some m => if Js.truthy (Some m) then StrColl.add m modes else modes
  | None => modes
  end.

Definition uniqueModes (data : list Schema.ExecutionLog) : list string :=
  StrColl.sorted (fold_left addMode data []).

(** One turn of the [forEach] of [uniqueStatuses]. *)
Definition addStatus (statuses : list string) (item : Schema.ExecutionLog)
  : list string :=
  let s := Schema.status_string (Schema.status item) in
  if Js.truthy (Some s) then StrColl.add s statuses else statuses.

Definition uniqueStatuses (data : list Schema.ExecutionLog) : list string :=
  StrColl.sorted (fold_left addStatus data []).

(** [filters.dateRange?.from], as a condition. *)
Definition has_from (f : ExecutionFilters) : bool :=
  match dateRange f with
  | Some range =>
      match from range with
      | Some _ => true
      | None => false
      end
  | None => false
  end.

Definition hasActiveFilters (f : ExecutionFilters) : bool :=
  orb (orb (orb (orb (Js.truthy (instanceFilter f)) (Js.truthy (statusFilter f)))
                (Js.truthy (workflowFilter f)))
           (Js.truthy (modeFilter f)))
      (has_from f).

Definition activeFilterCount (f : ExecutionFilters) : nat :=
  List.length
    (filter (fun b : bool => b)
       [Js.truthy (instanceFilter f); Js.truthy (statusFilter f);
        Js.truthy (workflowFilter f); Js.truthy (modeFilter f);
        has_from f]).

(** What [resetFilters] hands to [onFiltersChange]. *)
Definition resetFilters : ExecutionFilters :=
  {| instanceFilter := None; statusFilter := None; workflowFilter := None;
     modeFilter := None; dateRange := None |}.

(** [onValueChange] of the workflow select. *)
Definition selectWorkflow (f : ExecutionFilters) (value : string)
  : ExecutionFilters :=
  {| instanceFilter := instanceFilter f; statusFilter := statusFilter f;
     workflowFilter := if String.eqb value "all" then None else Some value;
     modeFilter := modeFilter f; dateRange := dateRange f |}.

(** [onValueChange] of the status select. *)
Definition selectStatus (f : ExecutionFilters) (value : string)
  : ExecutionFilters :=
  {| instanceFilter := instanceFilter f;
     statusFilter := if String.eqb value "all" then None else Some value;
     workflowFilter := workflowFilter f;
     modeFilter := modeFilter f; dateRange := dateRange f |}.

(** [onValueChange] of the mode select. *)
Definition selectMode (f : ExecutionFilters) (value : string)
  : ExecutionFilters :=
  {| instanceFilter := instanceFilter f; statusFilter := statusFilter f;
     workflowFilter := workflowFilter f;
     modeFilter := if String.eqb value "all" then None else Some value;
     dateRange := dateRange f |}.

End FiltersBar.

(* ================================================================== *)
(** ** client/src/components/status-distribution-chart.tsx *)

Module Chart.

Record Slice := { name : string; value : nat; color : string }.

(** The [data] of the pie, once loaded and without error. *)
Definition data (stats : option Schema.ExecutionStats) : list Slice :=
  match stats with
  | Some s =>
      filter (fun item => (0 <? value item)%nat)
        [ {| name := "Success"; value := Schema.successCount s;
             color := "hsl(142, 71%, 45%)" |};
          {| name := "Error"; value := Schema.errorCount s;
             color := "hsl(0, 84%, 60%)" |};
          {| name := "Running"; value := Schema.runningCount s;
             color := "hsl(217, 91%, 60%)" |};
          {| name := "Waiting"; value := Schema.waitingCount s;
             color := "hsl(38, 92%, 50%)" |};
          {| name := "Canceled"; value := Schema.canceledCount s;
             color := "hsl(220, 9%, 46%)" |} ]
  | None => []
  end.

(** What the card of the chart holds. *)
Inductive View :=
| Spinner
| UnableToLoad (error : string)
| NoExecutionData
| Pie (slices : list Slice).

Definition StatusDistributionChart (stats : option Schema.ExecutionStats)
    (isLoading : bool) (error : option string) : View :=
  if isLoading then Spinner
  else
    match error with
    | Some e =>
        if Js.truthy (Some e) then UnableToLoad e
        else if Nat.eqb (List.length (data stats)) 0 then NoExecutionData
             else Pie (data stats)
    | None =>
        if Nat.eqb (List.length (data stats)) 0 then NoExecutionData
        else Pie (data stats)
    end.

End Chart.

(* ================================================================== *)
(** ** client/src/pages/dashboard.tsx: the handlers of the page *)

Module Page.
Import Filters.

(** [handleStatusClick]: the new filter state. *)
Definition handleStatusClick (filters : ExecutionFilters) (status : string)
  : ExecutionFilters :=
  match statusFilter filters with
  | Some s =>
      if String.eqb s status then with_status filters None
      else with_status filters (Some status)
  | None => with_status filters (Some status)
  end.

(** [onValueChange] of the environment selector. *)
Definition selectInstance (f : ExecutionFilters) (value : string)
  : ExecutionFilters :=
  {| instanceFilter := if String.eqb value "all" then None else Some value;
     statusFilter := statusFilter f; workflowFilter := workflowFilter f;
     modeFilter := modeFilter f; dateRange := dateRange f |}.

(** [statsError ? getErrorMessage(statsError) : null], once the first
    stats query has settled: the query function throws
    [new Error("Failed to fetch stats")] on an answer that is not ok. *)
Definition statsErrorMessage (stats : option Schema.ExecutionStats)
  : option string :=
  match stats with
  | Some _ => None
  | None => Some "Failed to fetch stats"%string
  end.

(** The status distribution chart of the page, once the stats query has
    settled with [stats] ([None]: it failed). *)
Definition statusChart (filteredStats stats : option Schema.ExecutionStats)
  : Chart.View :=
  Chart.StatusDistributionChart filteredStats false (statsErrorMessage stats).

(** The success-rate line of the Successful card. *)
Definition successRateLine (filtered : option Schema.ExecutionStats) : string :=
  (Js.show (Js.Math_round
              match filtered with
              | Some s => Schema.successRate s
              | None => 0%Q
              end)
   ++ "% success rate")%string.

End Page.

(* ================================================================== *)
(** ** Vocabulary for the properties of the remaining code *)

Module Terms.

(** [a] was created no earlier than [b]. *)
Definition newer_first (a b : Schema.ExecutionLog) : Prop :=
  Schema.created_at b <= Schema.created_at a.

(** The number a run of decimal digits writes after [acc]. *)
Fixpoint decimal_value (acc : Z) (d : Decimal.uint) : Z :=
  match d with
  | Decimal.Nil => acc
  | Decimal.D0 l => decimal_value (10 * acc + 0) l
  | Decimal.D1 l => decimal_value (10 * acc + 1) l
  | Decimal.D2 l => decimal_value (10 * acc + 2) l
  | Decimal.D3 l => decimal_value (10 * acc + 3) l
  | Decimal.D4 l => decimal_value (10 * acc + 4) l
  | Decimal.D5 l => decimal_value (10 * acc + 5) l
  | Decimal.D6 l => decimal_value (10 * acc + 6) l
  | Decimal.D7 l => decimal_value (10 * acc + 7) l
  | Decimal.D8 l => decimal_value (10 * acc + 8) l
  | Decimal.D9 l => decimal_value (10 * acc + 9) l
  end.

(** The records run in a mode. *)
Definition in_mode (m : string) (rows : list Schema.ExecutionLog)
  : list Schema.ExecutionLog :=
  filter (fun e => match Schema.mode e with
                   | Some m' => String.eqb m' m
                   | None => false
                   end) rows.

(** A list of strings in ascending order. *)
Definition ascending (l : list string) : Prop :=
  Sorted (fun a b => String.leb a b = true) l.

(** The rows of a workflow. *)
Definition named (name : string) (rows : list Schema.ExecutionLog)
  : list Schema.ExecutionLog :=
  filter (fun e => String.eqb (Schema.workflow_name e) name) rows.

(** What the workflows endpoint should report for a workflow: the
    figures of its rows. *)
Definition workflow_figures (name : string) (rows : list Schema.ExecutionLog)
  : Routes.WorkflowStats :=
  {| Routes.workflow_name := name;
     Routes.total_executions := List.length (named name rows);
     Routes.successful := Spec.tally Schema.success (named name rows);
     Routes.failed := Spec.tally Schema.error (named name rows);
     Routes.avg_duration_ms :=
       Js.Math_round (Spec.mean (Spec.known_durations (named name rows))) |}.

(** The group the handler holds for a workflow after a run of rows. *)
Definition group_of (name : string) (rows : list Schema.ExecutionLog)
  : Routes.Group :=
  {| Routes.g_total_executions := List.length (named name rows);
     Routes.g_successful := Spec.tally Schema.success (named name rows);
     Routes.g_failed := Spec.tally Schema.error (named name rows);
     Routes.g_durations := Spec.known_durations (named name rows) |}.

(** The state of the grouping loop after the rows [seen]. *)
Definition grouped (m : StrColl.StrMap Routes.Group)
    (seen : list Schema.ExecutionLog) : Prop :=
  NoDup (map fst m)
  /\ forall name,
       StrColl.get name m
       = match named name seen with
         | [] => None
         | _ => Some (group_of name seen)
         end.

(** The group of a workflow after one more of its executions. *)
Definition bumped (existing : Routes.Group) (execution : Schema.ExecutionLog)
  : Routes.Group :=
  {| Routes.g_total_executions := S (Routes.g_total_executions existing);
     Routes.g_successful :=
       if Schema.status_eqb (Schema.status execution) Schema.success
       then S (Routes.g_successful existing) else Routes.g_successful existing;
     Routes.g_failed :=
       if Schema.status_eqb (Schema.status execution) Schema.error
       then S (Routes.g_failed existing) else Routes.g_failed existing;
     Routes.g_durations :=
       match Schema.duration_ms execution with
       | Some d => Routes.g_durations existing ++ [d]
       | None => Routes.g_durations existing
       end |}.

(** Sum of a figure over a list. *)
Definition sum_by {A} (f : A -> nat) (l : list A) : nat :=
  fold_right (fun x acc => (f x + acc)%nat) 0%nat l.

(** A server bucket after one more execution of its day. *)
Definition counted (existing : Server.Bucket) (execution : Schema.ExecutionLog)
  : Server.Bucket :=
  {| Server.b_total := S (Server.b_total existing);
     Server.b_success :=
       if Schema.status_eqb (Schema.status execution) Schema.success
       then S (Server.b_success existing) else Server.b_success existing;
     Server.b_error :=
       if Schema.status_eqb (Schema.status execution) Schema.success
       then Server.b_error existing
       else if Schema.status_eqb (Schema.status execution) Schema.error
            then S (Server.b_error existing) else Server.b_error existing |}.

(** A bucket of the page after one more execution of its day. *)
Definition tallied (existing : Server.Bucket) (e : Schema.ExecutionLog)
  : Server.Bucket :=
  {| Server.b_total := S (Server.b_total existing);
     Server.b_success :=
       if Schema.status_eqb (Schema.status e) Schema.success
       then S (Server.b_success existing) else Server.b_success existing;
     Server.b_error :=
       if Schema.status_eqb (Schema.status e) Schema.error
       then S (Server.b_error existing) else Server.b_error existing |}.

(** A bucket that counts at most what it holds. *)
Definition sound_bucket (b : Server.Bucket) : Prop :=
  (Server.b_success b + Server.b_error b <= Server.b_total b)%nat.

(** Daily statistics in ascending order of their date text. *)
Definition ascending_by_date (l : list Schema.DailyStats) : Prop :=
  Sorted (fun a b => String.leb (Schema.date a) (Schema.date b) = true) l.

(** The records of a list that have a start time. *)
Definition dated (l : list Schema.ExecutionLog) : list Schema.ExecutionLog :=
  filter (fun e => match Schema.started_at e with
                   | Some _ => true
                   | None => false
                   end) l.

Definition undated (l : list Schema.ExecutionLog) : list Schema.ExecutionLog :=
  filter (fun e => match Schema.started_at e with
                   | Some _ => false
                   | None => true
                   end) l.

End Terms.

(* ================================================================== *)
(** ** More sample data *)

Module Fixtures.

Definition staging (ident name : string) (st : Schema.ExecutionStatus)
    (dur : option Z) (created : Z) : Schema.ExecutionLog :=
  {| Schema.id := ident; Schema.execution_id := ident;
     Schema.workflow_id := name; Schema.workflow_name := name;
     Schema.status := st; Schema.finished := true;
     Schema.started_at := Some created;
     Schema.finished_at := match dur with
                           | Some d => Some (created + d)
                           | None => None
                           end;
     Schema.duration_ms := dur;
     Schema.mode := Some "webhook"%string; Schema.node_count := Some 2;
     Schema.error_message := None; Schema.created_at := created;
     Schema.n8n_instance := Some "https://staging"%string |}.

Definition s1 := staging "11" "Sync" Schema.success (Some 300) (Samples.day1 + 10).
Definition s2 := staging "12" "Mail" Schema.error (Some 500) (Samples.day1 + 20).
Definition s3 := staging "13" "Sync" Schema.success None (Samples.day1 + 86400030).

Definition mixed : list Schema.ExecutionLog :=
  [Samples.record1; s1; Samples.undated; s2; s3].

End Fixtures.

(* ================================================================== *)
(** ** Binary64 rounding *)

Section Binary64.
Open Scope Q_scope.

Lemma pow2_pos (e : Z) : 0 < Js.pow2 e.
Proof. apply Qpower_0_lt. reflexivity. Qed.

Lemma pow2_plus (a b : Z) : Js.pow2 (a + b) == Js.pow2 a * Js.pow2 b.
Proof. apply Qpower_plus. discriminate. Qed.

Lemma pow2_le (a b : Z) : (a <= b)%Z -> Js.pow2 a <= Js.pow2 b.
Proof. intros H. apply Qpower_le_compat_l; [exact H | discriminate]. Qed.

Lemma pow2_lt_inv (a b : Z) : Js.pow2 a < Js.pow2 b -> (a < b)%Z.
Proof. intros H. apply (Qpower_lt_compat_l_inv 2); [exact H | reflexivity]. Qed.

Lemma pow2_inject (n : Z) : (0 <= n)%Z -> Js.pow2 n == inject_Z (2 ^ n).
Proof. intros H. unfold Js.pow2. rewrite Zpower_Qpower by exact H. reflexivity. Qed.

Lemma pow2_minus (a b : Z) : Js.pow2 (a - b) == Js.pow2 a / Js.pow2 b.
Proof. apply Qpower_minus. discriminate. Qed.

(** [2 ^ e <= q < 2 ^ (e + 1)] for the exponent of a positive [q]. *)
Lemma exponent_spec (q : Q) :
  0 < q -> Js.pow2 (Js.exponent q) <= q /\ q < Js.pow2 (Js.exponent q + 1).
Proof.
  intros Hq.
  destruct q as [n d].
  assert (Hn : (0 < n)%Z).
  { unfold Qlt in Hq. simpl in Hq. lia. }
  pose proof (Z.log2_spec n Hn) as [Hn1 Hn2].
  pose proof (Z.log2_spec (Zpos d) (Pos2Z.is_pos d)) as [Hd1 Hd2].
  pose proof (Z.log2_nonneg n) as Hln.
  pose proof (Z.log2_nonneg (Zpos d)) as Hld.
  set (ln := Z.log2 n) in *. set (ld := Z.log2 (Zpos d)) in *.
  assert (Hq' : n # d == inject_Z n / inject_Z (Zpos d)) by apply Qmake_Qdiv.
  assert (HD : 0 < inject_Z (Zpos d)) by (rewrite <- (Zlt_Qlt 0); lia).
  assert (Hlow : Js.pow2 (ln - ld - 1) <= n # d).
  { replace (ln - ld - 1)%Z with (ln - (ld + 1))%Z by lia.
    rewrite pow2_minus, Hq'.
    rewrite (pow2_inject ln), (pow2_inject (ld + 1)) by lia.
    assert (HB : 0 < inject_Z (2 ^ (ld + 1))).
    { rewrite <- (Zlt_Qlt 0). apply Z.pow_pos_nonneg; lia. }
    apply Qle_shift_div_r; [exact HB |].
    setoid_replace (inject_Z n / inject_Z (Z.pos d) * inject_Z (2 ^ (ld + 1)))
      with (inject_Z n * inject_Z (2 ^ (ld + 1)) / inject_Z (Z.pos d))
      by (field; intro H0; rewrite H0 in HD; discriminate).
    apply Qle_shift_div_l; [exact HD |].
    rewrite <- !inject_Z_mult, <- Zle_Qle.
    assert (0 < 2 ^ ln)%Z by (apply Z.pow_pos_nonneg; lia).
    nia. }
  assert (Hhigh : n # d < Js.pow2 (ln - ld + 1)).
  { replace (ln - ld + 1)%Z with (ln + 1 - ld)%Z by lia.
    rewrite pow2_minus, Hq'.
    rewrite (pow2_inject (ln + 1)), (pow2_inject ld) by lia.
    assert (HB : 0 < inject_Z (2 ^ ld)).
    { rewrite <- (Zlt_Qlt 0). apply Z.pow_pos_nonneg; lia. }
    apply Qlt_shift_div_r; [exact HD |].
    setoid_replace (inject_Z (2 ^ (ln + 1)) / inject_Z (2 ^ ld) * inject_Z (Z.pos d))
      with (inject_Z (2 ^ (ln + 1)) * inject_Z (Z.pos d) / inject_Z (2 ^ ld))
      by (field; intro H0; rewrite H0 in HB; discriminate).
    apply Qlt_shift_div_l; [exact HB |].
    rewrite <- !inject_Z_mult, <- Zlt_Qlt.
    assert (0 < 2 ^ ld)%Z by (apply Z.pow_pos_nonneg; lia).
    nia. }
  unfold Js.exponent. cbn [Qnum Qden]. fold ln ld.
  destruct (Qle_bool (Js.pow2 (ln - ld)) (n # d)) eqn:Hk.
  - split; [apply Qle_bool_iff; exact Hk | exact Hhigh].
  - split; [exact Hlow |].
    replace (ln - ld - 1 + 1)%Z with (ln - ld)%Z by lia.
    apply Qnot_le_lt. intro Hle. apply Qle_bool_iff in Hle. congruence.
Qed.

Lemma exponent_below (q : Q) (j : Z) :
  0 < q -> q < Js.pow2 (j + 1) -> (Js.exponent q <= j)%Z.
Proof.
  intros Hq Hlt. destruct (exponent_spec q Hq) as [Hlo _].
  assert (H : (Js.exponent q < j + 1)%Z).
  { apply pow2_lt_inv. eapply Qle_lt_trans; eassumption. }
  lia.
Qed.

Lemma exponent_mono (p q : Q) :
  0 < p -> p <= q -> (Js.exponent p <= Js.exponent q)%Z.
Proof.
  intros Hp Hpq.
  assert (Hq : 0 < q) by (eapply Qlt_le_trans; eassumption).
  destruct (exponent_spec p Hp) as [Hlo _].
  destruct (exponent_spec q Hq) as [_ Hhi].
  assert (H : (Js.exponent p < Js.exponent q + 1)%Z).
  { apply pow2_lt_inv. eapply Qle_lt_trans; [exact Hlo |].
    eapply Qle_lt_trans; eassumption. }
  lia.
Qed.

(** *** Rounding to the nearest integer *)

Lemma floor_bounds (x : Q) :
  inject_Z (Qfloor x) <= x /\ x < inject_Z (Qfloor x) + 1.
Proof.
  split; [apply Qfloor_le |].
  pose proof (Qlt_floor x) as H. rewrite inject_Z_plus in H. exact H.
Qed.

Lemma roundTiesToEven_cases (x : Q) :
  (Js.roundTiesToEven x = Qfloor x /\ x - inject_Z (Qfloor x) <= 1 # 2)
  \/ (Js.roundTiesToEven x = (Qfloor x + 1)%Z /\ 1 # 2 <= x - inject_Z (Qfloor x)).
Proof.
  unfold Js.roundTiesToEven.
  destruct (Qcompare (x - inject_Z (Qfloor x)) (1 # 2)) eqn:Hc.
  - apply Qeq_alt in Hc.
    destruct (Z.even (Qfloor x)); [left | right]; split; auto; rewrite Hc; apply Qle_refl.
  - apply Qlt_alt in Hc. left. split; [reflexivity | apply Qlt_le_weak; exact Hc].
  - apply Qgt_alt in Hc. right. split; [reflexivity | apply Qlt_le_weak; exact Hc].
Qed.

Lemma roundTiesToEven_near (x : Q) :
  Qabs (inject_Z (Js.roundTiesToEven x) - x) <= 1 # 2.
Proof.
  destruct (floor_bounds x) as [Hlo Hhi].
  apply Qabs_Qle_condition.
  destruct (roundTiesToEven_cases x) as [[-> H] | [-> H]].
  - split; lra.
  - rewrite inject_Z_plus. change (inject_Z 1) with 1. split; lra.
Qed.

Lemma roundTiesToEven_inject (z : Z) : Js.roundTiesToEven (inject_Z z) = z.
Proof.
  unfold Js.roundTiesToEven. rewrite Qfloor_Z.
  destruct (Qcompare (inject_Z z - inject_Z z) (1 # 2)) eqn:Hc.
  - apply Qeq_alt in Hc. exfalso. lra.
  - reflexivity.
  - apply Qgt_alt in Hc. exfalso. lra.
Qed.

Lemma roundTiesToEven_comp (x y : Q) :
  x == y -> Js.roundTiesToEven x = Js.roundTiesToEven y.
Proof.
  intros H. unfold Js.roundTiesToEven.
  rewrite (Qfloor_comp _ _ H).
  assert (Hc : (x - inject_Z (Qfloor y) ?= 1 # 2) = (y - inject_Z (Qfloor y) ?= 1 # 2)).
  { apply Qcompare_comp; [rewrite H; reflexivity | reflexivity]. }
  rewrite Hc. reflexivity.
Qed.

Lemma roundTiesToEven_mono (x y : Q) :
  x <= y -> (Js.roundTiesToEven x <= Js.roundTiesToEven y)%Z.
Proof.
  intros Hxy.
  pose proof (Qfloor_resp_le _ _ Hxy) as Hf.
  destruct (Z.eq_dec (Qfloor x) (Qfloor y)) as [Heq | Hne].
  - unfold Js.roundTiesToEven. rewrite Heq.
    assert (Hr : x - inject_Z (Qfloor y) <= y - inject_Z (Qfloor y)) by lra.
    destruct (Qcompare (x - inject_Z (Qfloor y)) (1 # 2)) eqn:Hx;
      destruct (Qcompare (y - inject_Z (Qfloor y)) (1 # 2)) eqn:Hy;
      first [apply Qeq_alt in Hx | apply Qlt_alt in Hx | apply Qgt_alt in Hx];
      first [apply Qeq_alt in Hy | apply Qlt_alt in Hy | apply Qgt_alt in Hy];
      try (destruct (Z.even (Qfloor y))); try lia; exfalso; lra.
  - destruct (roundTiesToEven_cases x) as [[-> _] | [-> _]];
      destruct (roundTiesToEven_cases y) as [[-> _] | [-> _]]; lia.
Qed.

Lemma roundTiesToEven_le (x : Q) (z : Z) :
  x <= inject_Z z -> (Js.roundTiesToEven x <= z)%Z.
Proof.
  intros H. rewrite <- (roundTiesToEven_inject z). apply roundTiesToEven_mono, H.
Qed.

Lemma roundTiesToEven_ge (x : Q) (z : Z) :
  inject_Z z <= x -> (z <= Js.roundTiesToEven x)%Z.
Proof.
  intros H. rewrite <- (roundTiesToEven_inject z). apply roundTiesToEven_mono, H.
Qed.

(** *** Rounding to binary64 *)

Lemma binary64_pos_upper (q : Q) (j : Z) :
  0 < q -> (Z.max (Js.exponent q) (-1022) <= j)%Z ->
  Js.binary64_pos q <= Js.pow2 (j + 1).
Proof.
  intros Hq Hj. unfold Js.binary64_pos.
  set (e := Z.max (Js.exponent q) (-1022)) in *.
  pose proof (pow2_pos (e - 52)) as Hu.
  destruct (exponent_spec q Hq) as [_ Hhi].
  assert (Hlt : q < Js.pow2 (e + 1)).
  { eapply Qlt_le_trans; [exact Hhi |]. apply pow2_le. unfold e. lia. }
  assert (Hr : (Js.roundTiesToEven (q / Js.pow2 (e - 52)) <= 2 ^ 53)%Z).
  { apply roundTiesToEven_le. rewrite <- pow2_inject by lia.
    apply Qle_shift_div_r; [exact Hu |].
    rewrite <- pow2_plus. replace (53 + (e - 52))%Z with (e + 1)%Z by lia.
    apply Qlt_le_weak, Hlt. }
  apply Qle_trans with (inject_Z (2 ^ 53) * Js.pow2 (e - 52)).
  - apply Qmult_le_compat_r; [| apply Qlt_le_weak, Hu].
    rewrite <- Zle_Qle. exact Hr.
  - rewrite <- pow2_inject by lia. rewrite <- pow2_plus.
    apply pow2_le. lia.
Qed.

Lemma binary64_pos_lower (q : Q) :
  0 < q -> (-1022 <= Js.exponent q)%Z ->
  Js.pow2 (Js.exponent q) <= Js.binary64_pos q.
Proof.
  intros Hq He. unfold Js.binary64_pos.
  rewrite Z.max_l by lia.
  set (e := Js.exponent q) in *.
  pose proof (pow2_pos (e - 52)) as Hu.
  destruct (exponent_spec q Hq) as [Hlo _]. fold e in Hlo.
  assert (Hr : (2 ^ 52 <= Js.roundTiesToEven (q / Js.pow2 (e - 52)))%Z).
  { apply roundTiesToEven_ge. rewrite <- pow2_inject by lia.
    apply Qle_shift_div_l; [exact Hu |].
    rewrite <- pow2_plus. replace (52 + (e - 52))%Z with e by lia. exact Hlo. }
  apply Qle_trans with (inject_Z (2 ^ 52) * Js.pow2 (e - 52)).
  - rewrite <- pow2_inject by lia. rewrite <- pow2_plus.
    apply pow2_le. lia.
  - apply Qmult_le_compat_r; [| apply Qlt_le_weak, Hu].
    rewrite <- Zle_Qle. exact Hr.
Qed.

Lemma binary64_pos_nonneg (q : Q) : 0 < q -> 0 <= Js.binary64_pos q.
Proof.
  intros Hq. unfold Js.binary64_pos.
  set (e := Z.max (Js.exponent q) (-1022)).
  pose proof (pow2_pos (e - 52)) as Hu.
  apply Qmult_le_0_compat; [| apply Qlt_le_weak, Hu].
  rewrite <- (Zle_Qle 0). apply roundTiesToEven_ge.
  apply Qlt_le_weak. apply Qlt_shift_div_l; [exact Hu |].
  change (inject_Z 0) with 0. rewrite Qmult_0_l. exact Hq.
Qed.

Lemma binary64_pos_mono (p q : Q) :
  0 < p -> p <= q -> Js.binary64_pos p <= Js.binary64_pos q.
Proof.
  intros Hp Hpq.
  assert (Hq : 0 < q) by (eapply Qlt_le_trans; eassumption).
  pose proof (exponent_mono p q Hp Hpq) as He.
  destruct (Z.eq_dec (Z.max (Js.exponent p) (-1022)) (Z.max (Js.exponent q) (-1022)))
    as [Heq | Hne].
  - unfold Js.binary64_pos. rewrite Heq.
    set (e := Z.max (Js.exponent q) (-1022)).
    pose proof (pow2_pos (e - 52)) as Hu.
    apply Qmult_le_compat_r; [| apply Qlt_le_weak, Hu].
    rewrite <- Zle_Qle. apply roundTiesToEven_mono.
    apply Qmult_le_compat_r; [exact Hpq |].
    apply Qlt_le_weak, Qinv_lt_0_compat, Hu.
  - apply Qle_trans with (Js.pow2 (Js.exponent q)).
    + apply Qle_trans with (Js.pow2 (Z.max (Js.exponent p) (-1022) + 1)).
      * apply binary64_pos_upper; [exact Hp | lia].
      * apply pow2_le. lia.
    + apply binary64_pos_lower; [exact Hq | lia].
Qed.

Lemma binary64_pos_error (q : Q) (j : Z) :
  0 < q -> (Z.max (Js.exponent q) (-1022) <= j)%Z ->
  Qabs (Js.binary64_pos q - q) <= Js.pow2 (j - 53).
Proof.
  intros Hq Hj. unfold Js.binary64_pos.
  set (e := Z.max (Js.exponent q) (-1022)) in *.
  pose proof (pow2_pos (e - 52)) as Hu.
  set (u := Js.pow2 (e - 52)) in *.
  pose proof (roundTiesToEven_near (q / u)) as Hn.
  apply Qle_trans with ((1 # 2) * u).
  - setoid_replace (inject_Z (Js.roundTiesToEven (q / u)) * u - q)
      with ((inject_Z (Js.roundTiesToEven (q / u)) - q / u) * u)
      by (field; intro H0; rewrite H0 in Hu; discriminate).
    rewrite Qabs_Qmult. rewrite (Qabs_pos u) by (apply Qlt_le_weak, Hu).
    apply Qmult_le_compat_r; [exact Hn | apply Qlt_le_weak, Hu].
  - apply Qle_trans with (Js.pow2 (e - 53)).
    + unfold u. replace (e - 52)%Z with (1 + (e - 53))%Z by lia.
      rewrite pow2_plus.
      setoid_replace (Js.pow2 1) with 2 by reflexivity.
      pose proof (pow2_pos (e - 53)). lra.
    + apply pow2_le. lia.
Qed.

(** An integer of less than 54 bits is a binary64 value. *)
Lemma binary64_pos_int (q : Q) (n : Z) :
  q == inject_Z n -> (0 < n < 2 ^ 53)%Z -> Js.binary64_pos q == inject_Z n.
Proof.
  intros Hqn Hn.
  assert (Hq : 0 < q) by (rewrite Hqn, <- (Zlt_Qlt 0); lia).
  destruct (exponent_spec q Hq) as [Hlo Hhi].
  assert (He0 : (0 <= Js.exponent q)%Z).
  { assert (H : (0 < Js.exponent q + 1)%Z).
    { apply pow2_lt_inv. eapply Qle_lt_trans; [| exact Hhi].
      rewrite Hqn. setoid_replace (Js.pow2 0) with (inject_Z 1) by reflexivity.
      rewrite <- Zle_Qle. lia. }
    lia. }
  assert (He1 : (Js.exponent q <= 52)%Z).
  { apply exponent_below; [exact Hq |].
    rewrite Hqn, (pow2_inject (52 + 1)) by lia. rewrite <- Zlt_Qlt.
    change (52 + 1)%Z with 53%Z. lia. }
  unfold Js.binary64_pos. rewrite Z.max_l by lia.
  set (e := Js.exponent q) in *.
  pose proof (pow2_pos (e - 52)) as Hu.
  assert (Hinv : Js.pow2 (e - 52) * inject_Z (2 ^ (52 - e)) == 1).
  { rewrite <- pow2_inject by lia. rewrite <- pow2_plus.
    replace (e - 52 + (52 - e))%Z with 0%Z by lia. reflexivity. }
  assert (Hdiv : q / Js.pow2 (e - 52) == inject_Z (n * 2 ^ (52 - e))).
  { rewrite inject_Z_mult, <- Hqn.
    apply Qmult_inj_r with (Js.pow2 (e - 52)).
    - intro H0. rewrite H0 in Hu. discriminate.
    - rewrite <- Qmult_assoc, (Qmult_comm (inject_Z _)), Hinv.
      field. intro H0. rewrite H0 in Hu. discriminate. }
  rewrite (roundTiesToEven_comp _ _ Hdiv), roundTiesToEven_inject.
  rewrite inject_Z_mult, <- Qmult_assoc, (Qmult_comm (inject_Z (2 ^ _))), Hinv.
  ring.
Qed.

Lemma binary64_nonneg (q : Q) : 0 <= q -> 0 <= Js.binary64 q.
Proof.
  intros Hq. unfold Js.binary64.
  destruct (Qcompare q 0) eqn:Hc.
  - apply Qle_refl.
  - apply Qlt_alt in Hc. exfalso. lra.
  - apply Qgt_alt in Hc. apply binary64_pos_nonneg, Hc.
Qed.

Lemma binary64_mono (p q : Q) :
  0 <= p -> p <= q -> Js.binary64 p <= Js.binary64 q.
Proof.
  intros Hp Hpq. unfold Js.binary64 at 1.
  destruct (Qcompare p 0) eqn:Hc.
  - apply binary64_nonneg. lra.
  - apply Qlt_alt in Hc. exfalso. lra.
  - apply Qgt_alt in Hc.
    assert (Hq : 0 < q) by lra.
    unfold Js.binary64. apply Qgt_alt in Hq. rewrite Hq.
    apply binary64_pos_mono; [exact Hc | exact Hpq].
Qed.

Lemma binary64_error (q : Q) (j : Z) :
  0 <= q -> q < Js.pow2 (j + 1) -> (-1022 <= j)%Z ->
  Qabs (Js.binary64 q - q) <= Js.pow2 (j - 53).
Proof.
  intros Hq Hlt Hj. unfold Js.binary64.
  destruct (Qcompare q 0) eqn:Hc.
  - apply Qeq_alt in Hc. rewrite Hc.
    setoid_replace (0 - 0) with 0 by ring.
    apply Qlt_le_weak, pow2_pos.
  - apply Qlt_alt in Hc. exfalso. lra.
  - apply Qgt_alt in Hc. apply binary64_pos_error; [exact Hc |].
    pose proof (exponent_below q j Hc Hlt). lia.
Qed.

Lemma binary64_int_exact (n : Z) :
  (Z.abs n < 2 ^ 53)%Z -> Js.binary64_int n = n.
Proof.
  intros Hn. unfold Js.binary64_int, Js.binary64.
  destruct (Qcompare (inject_Z n) 0) eqn:Hc.
  - apply Qeq_alt in Hc. apply (inject_Z_injective n 0) in Hc. subst n. reflexivity.
  - apply Qlt_alt in Hc. change (inject_Z n < inject_Z 0) in Hc. rewrite <- Zlt_Qlt in Hc.
    assert (H : Js.binary64_pos (- inject_Z n) == inject_Z (- n)).
    { apply binary64_pos_int; [rewrite inject_Z_opp; reflexivity | lia]. }
    rewrite (Qfloor_comp _ (inject_Z n)).
    + apply Qfloor_Z.
    + rewrite H, inject_Z_opp. ring.
  - apply Qgt_alt in Hc. change (inject_Z 0 < inject_Z n) in Hc. rewrite <- Zlt_Qlt in Hc.
    rewrite (Qfloor_comp _ (inject_Z n)).
    + apply Qfloor_Z.
    + apply binary64_pos_int; [reflexivity | lia].
Qed.

End Binary64.

(* ================================================================== *)
(** ** Counting lemmas *)

Section Counting.
Import Schema.

Lemma count_status_tally s l : Server.count_status s l = Spec.tally s l.
Proof.
  unfold Server.count_status.
  induction l as [|e t IH]; simpl; [reflexivity|].
  destruct (status_eqb (status e) s); simpl; rewrite IH; reflexivity.
Qed.

Lemma client_count_status s l : Dashboard.count_status s l = Spec.tally s l.
Proof. apply count_status_tally. Qed.

Lemma tally_partition l :
  List.length l
  = (Spec.tally success l + Spec.tally Schema.error l + Spec.tally running l
     + Spec.tally waiting l + Spec.tally canceled l)%nat.
Proof.
  induction l as [|e t IH]; simpl; [reflexivity|].
  destruct (status e); simpl; lia.
Qed.

Lemma tally_le_length s l : (Spec.tally s l <= List.length l)%nat.
Proof.
  induction l as [|e t IH]; simpl; [lia|].
  destruct (status_eqb (status e) s); lia.
Qed.

Lemma tally_perm s l l' : Permutation l l' -> Spec.tally s l = Spec.tally s l'.
Proof.
  induction 1; simpl; try lia.
Qed.

Lemma sum_fold_right l : Js.sum l = fold_right Z.add 0 l.
Proof.
  unfold Js.sum.
  assert (H : forall a, fold_left Z.add l a = a + fold_right Z.add 0 l).
  { induction l as [|x t IH]; intros a; simpl; [lia|]. rewrite IH. lia. }
  rewrite H. lia.
Qed.

Lemma durations_known l :
  map Server.duration_number (filter Server.has_duration l)
  = Spec.known_durations l.
Proof.
  induction l as [|e t IH]; simpl; [reflexivity|].
  destruct (duration_ms e) eqn:E; unfold Server.has_duration at 1;
    rewrite E; simpl; [unfold Server.duration_number at 1; rewrite E|];
    rewrite IH; reflexivity.
Qed.

Lemma ltb_length_pos {A} (l : list A) :
  (0 <? List.length l)%nat = match l with [] => false | _ => true end.
Proof. destruct l; reflexivity. Qed.

End Counting.

(** ** The success rate *)

Section Rate.

Lemma count_ratio (s t : nat) :
  (s <= t)%nat -> (t <> 0)%nat ->
  (0 <= Server.of_nat s / Server.of_nat t <= 1)%Q.
Proof.
  intros Hst Ht. unfold Server.of_nat.
  assert (Hpos : (0 < inject_Z (Z.of_nat t))%Q).
  { rewrite <- (Zlt_Qlt 0). lia. }
  assert (Hs : (0 <= inject_Z (Z.of_nat s))%Q).
  { rewrite <- (Zle_Qle 0). lia. }
  assert (Hle : (inject_Z (Z.of_nat s) <= inject_Z (Z.of_nat t))%Q).
  { rewrite <- Zle_Qle. lia. }
  split.
  - apply Qle_shift_div_l; [exact Hpos|].
    rewrite Qmult_0_l. exact Hs.
  - apply Qle_shift_div_r; [exact Hpos|].
    rewrite Qmult_1_l. exact Hle.
Qed.

Lemma binary64_1 : (Js.binary64 1 == 1)%Q.
Proof. vm_compute. reflexivity. Qed.

Lemma binary64_100 : (Js.binary64 100 == 100)%Q.
Proof. vm_compute. reflexivity. Qed.

(** The rounded quotient of two counts is in [0, 1]. *)
Lemma div_range (s t : nat) :
  (s <= t)%nat -> (t <> 0)%nat ->
  (0 <= Js.div (Server.of_nat s) (Server.of_nat t) <= 1)%Q.
Proof.
  intros Hst Ht. destruct (count_ratio s t Hst Ht) as [Hlo Hhi].
  unfold Js.div. split.
  - apply binary64_nonneg, Hlo.
  - rewrite <- binary64_1. apply binary64_mono; assumption.
Qed.

Lemma rate_range (s t : nat) :
  (s <= t)%nat -> (t <> 0)%nat ->
  (0 <= Js.mul (Js.div (Server.of_nat s) (Server.of_nat t)) 100 <= 100)%Q.
Proof.
  intros Hst Ht. destruct (div_range s t Hst Ht) as [Hlo Hhi].
  unfold Js.mul. split.
  - apply binary64_nonneg. lra.
  - rewrite <- binary64_100 at 2. apply binary64_mono; lra.
Qed.

(** The two roundings move the rate by no more than [2 ^ -45]. *)
Lemma rate_near (s t : nat) :
  (s <= t)%nat -> (t <> 0)%nat ->
  (Qabs (Js.mul (Js.div (Server.of_nat s) (Server.of_nat t)) 100
         - 100 * Server.of_nat s / Server.of_nat t)
   <= Js.pow2 (-45))%Q.
Proof.
  intros Hst Ht.
  destruct (count_ratio s t Hst Ht) as [Hlo Hhi].
  destruct (div_range s t Hst Ht) as [Dlo Dhi].
  assert (H1 : (Qabs (Js.div (Server.of_nat s) (Server.of_nat t)
                      - Server.of_nat s / Server.of_nat t)
                <= Js.pow2 (0 - 53))%Q).
  { apply binary64_error; [exact Hlo | | lia].
    apply Qle_lt_trans with 1%Q; [exact Hhi | reflexivity]. }
  assert (H2 : (Qabs (Js.mul (Js.div (Server.of_nat s) (Server.of_nat t)) 100
                      - Js.div (Server.of_nat s) (Server.of_nat t) * 100)
                <= Js.pow2 (6 - 53))%Q).
  { apply binary64_error; [lra | | lia].
    apply Qle_lt_trans with 100%Q; [lra | reflexivity]. }
  assert (P1 : (Js.pow2 (0 - 53) == 1 # 9007199254740992)%Q) by reflexivity.
  assert (P2 : (Js.pow2 (6 - 53) == 1 # 140737488355328)%Q) by reflexivity.
  assert (P3 : (Js.pow2 (-45) == 1 # 35184372088832)%Q) by reflexivity.
  rewrite P1 in H1. rewrite P2 in H2. rewrite P3.
  apply Qabs_Qle_condition in H1. apply Qabs_Qle_condition in H2.
  apply Qabs_Qle_condition.
  set (x := Js.div (Server.of_nat s) (Server.of_nat t)) in *.
  set (r := Js.mul x 100) in *.
  setoid_replace (100 * Server.of_nat s / Server.of_nat t)%Q
    with (100 * (Server.of_nat s / Server.of_nat t))%Q
    by (unfold Qdiv; ring).
  set (a := (Server.of_nat s / Server.of_nat t)%Q) in *.
  split; lra.
Qed.

Lemma rate_ok_intro (s : Schema.ExecutionStats) :
  (Schema.successCount s <= Schema.totalExecutions s)%nat ->
  Schema.successRate s
  = (if (0 <? Schema.totalExecutions s)%nat
     then Js.mul (Js.div (Server.of_nat (Schema.successCount s))
                         (Server.of_nat (Schema.totalExecutions s))) 100
     else 0%Q) ->
  Spec.rate_ok s.
Proof.
  intros Hle Hrate. unfold Spec.rate_ok, Spec.percentage. rewrite Hrate.
  destruct (Schema.totalExecutions s) as [|n] eqn:Et.
  - change (0 <? 0)%nat with false. cbv iota.
    split; [intros _; reflexivity |].
    split; [intros H; exfalso; apply H; reflexivity |].
    split; discriminate.
  - change (0 <? S n)%nat with true. cbv iota.
    split; [discriminate |].
    split; [| apply rate_range; [exact Hle | discriminate]].
    intros _. split; [reflexivity |].
    apply rate_near; [exact Hle | discriminate].
Qed.

End Rate.

(** ** The shape of what the two paths compute *)

Section Shape.
Import Schema Filters.

Lemma mean_as_computed (l : list ExecutionLog) :
  (if (0 <? List.length (map Server.duration_number (filter Server.has_duration l)))%nat
   then (inject_Z (Js.sum (map Server.duration_number (filter Server.has_duration l)))
         / Server.of_nat
             (List.length (map Server.duration_number (filter Server.has_duration l))))%Q
   else 0%Q)
  = Spec.mean (Spec.known_durations l).
Proof.
  rewrite durations_known, ltb_length_pos, sum_fold_right.
  unfold Spec.mean, Server.of_nat.
  destruct (Spec.known_durations l); reflexivity.
Qed.

Lemma filter_all_true {A} (p : A -> bool) (l : list A) :
  (forall x, p x = true) -> filter p l = l.
Proof.
  intros H. induction l as [|x t IH]; simpl; [reflexivity|].
  rewrite H, IH. reflexivity.
Qed.

(** The callback of the page keeps exactly the records that match the
    count predicate. *)
Lemma between_isWithinInterval a b t :
  Spec.between a b t = Dates.isWithinInterval t a b.
Proof.
  unfold Spec.between, Dates.isWithinInterval.
  apply Bool.eq_iff_eq_true.
  rewrite orb_true_iff, !andb_true_iff, !Z.leb_le. lia.
Qed.

Lemma passesCountFilters_matches tz f e :
  passesCountFilters tz f e = Spec.matchesCountFilters tz f e.
Proof.
  unfold passesCountFilters, Spec.matchesCountFilters.
  assert (Hw : workflow_rejects f e = negb (Spec.workflowMatches f e)).
  { unfold workflow_rejects, Spec.workflowMatches, Spec.inactive, Js.truthy.
    destruct (workflowFilter f) as [w|]; [|reflexivity].
    destruct (String.eqb w EmptyString); [reflexivity|].
    destruct (String.eqb (workflow_name e) w); reflexivity. }
  assert (Hm : mode_rejects f e = negb (Spec.modeMatches f e)).
  { unfold mode_rejects, Spec.modeMatches, Spec.inactive, Js.truthy.
    destruct (modeFilter f) as [m|]; [|reflexivity].
    destruct (String.eqb m EmptyString); [reflexivity|].
    destruct (mode e) as [m'|]; [|reflexivity].
    destruct (String.eqb m' m); reflexivity. }
  assert (Hd : date_rejects tz f e = negb (Spec.dateMatches tz f e)).
  { unfold date_rejects, Spec.dateMatches.
    destruct (dateRange f) as [range|]; [|reflexivity].
    destruct (from range) as [fromDate|]; [|reflexivity].
    destruct (started_at e) as [t|]; [|reflexivity].
    cbv zeta. rewrite between_isWithinInterval.
    destruct (to range); reflexivity. }
  rewrite Hw, Hm, Hd.
  destruct (Spec.workflowMatches f e), (Spec.modeMatches f e),
    (Spec.dateMatches tz f e); reflexivity.
Qed.

Lemma countSet_filtered tz f records :
  Spec.countSet tz f records = filter (passesCountFilters tz f) records.
Proof.
  unfold Spec.countSet. apply filter_ext. intros e.
  symmetry. apply passesCountFilters_matches.
Qed.

Lemma narrows_hasAnyFilters f :
  Spec.narrows f = Dashboard.hasAnyFilters f.
Proof.
  unfold Spec.narrows, Dashboard.hasAnyFilters, Dashboard.hasCountFilters,
    Dashboard.is_some, Spec.inactive, Js.truthy.
  destruct (workflowFilter f) as [w|], (modeFilter f) as [m|],
    (dateRange f), (statusFilter f) as [x|];
    try destruct (String.eqb w EmptyString);
    try destruct (String.eqb m EmptyString);
    try destruct (String.eqb x EmptyString); reflexivity.
Qed.

Lemma filteredForDuration_durationSet tz records f :
  Dashboard.filteredForDuration tz records f = Spec.durationSet tz f records.
Proof.
  unfold Spec.durationSet. rewrite countSet_filtered.
  unfold Dashboard.filteredForDuration,
    Dashboard.filteredForCounts, Spec.matchesStatusFilter.
  destruct (statusFilter f) as [s|] eqn:Es.
  - destruct (Js.truthy (Some s)) eqn:Et.
    + apply filter_ext. intros e. reflexivity.
    + symmetry. apply filter_all_true. reflexivity.
  - symmetry. apply filter_all_true. reflexivity.
Qed.

(** With a filter active and the records loaded, [filteredStats]
    builds its result from the records alone. *)
Lemma filteredStats_active tz records f stats :
  Dashboard.hasAnyFilters f = true ->
  exists s,
    Dashboard.filteredStats tz (Some records) f stats = Some s
    /\ totalExecutions s = List.length (Spec.countSet tz f records)
    /\ successCount s = Spec.tally success (Spec.countSet tz f records)
    /\ errorCount s = Spec.tally Schema.error (Spec.countSet tz f records)
    /\ runningCount s = Spec.tally running (Spec.countSet tz f records)
    /\ waitingCount s = Spec.tally waiting (Spec.countSet tz f records)
    /\ canceledCount s = Spec.tally canceled (Spec.countSet tz f records)
    /\ avgDurationMs s
       = Spec.mean (Spec.known_durations (Spec.durationSet tz f records))
    /\ successRate s
       = (if (0 <? totalExecutions s)%nat
          then Js.mul (Js.div (Server.of_nat (successCount s))
                              (Server.of_nat (totalExecutions s))) 100
          else 0%Q).
Proof.
  intros Hany. unfold Dashboard.filteredStats. rewrite Hany. simpl negb.
  cbv iota. eexists. split; [reflexivity|]. simpl.
  rewrite !client_count_status, mean_as_computed,
    filteredForDuration_durationSet.
  unfold Dashboard.filteredForCounts. rewrite <- countSet_filtered.
  repeat split; reflexivity.
Qed.

Lemma computeStats_fields rows :
  let s := Server.computeStats rows in
  totalExecutions s = List.length rows
  /\ successCount s = Spec.tally success rows
  /\ errorCount s = Spec.tally Schema.error rows
  /\ runningCount s = Spec.tally running rows
  /\ waitingCount s = Spec.tally waiting rows
  /\ canceledCount s = Spec.tally canceled rows
  /\ avgDurationMs s
     = (match Spec.known_durations rows with
        | [] => 0%Q
        | _ => inject_Z (Js.Math_round (Spec.mean (Spec.known_durations rows)))
        end)
  /\ successRate s
     = (if (0 <? totalExecutions s)%nat
        then Js.mul (Js.div (Server.of_nat (successCount s))
                            (Server.of_nat (totalExecutions s))) 100
        else 0%Q).
Proof.
  simpl. rewrite !count_status_tally.
  repeat split; try reflexivity.
  rewrite durations_known, ltb_length_pos, sum_fold_right.
  unfold Spec.mean, Server.of_nat.
  destruct (Spec.known_durations rows); reflexivity.
Qed.

Lemma computeStats_sums_up rows : Spec.sums_up (Server.computeStats rows).
Proof.
  unfold Spec.sums_up. simpl. rewrite !count_status_tally.
  apply tally_partition.
Qed.

Lemma computeStats_rate_ok rows : Spec.rate_ok (Server.computeStats rows).
Proof.
  apply rate_ok_intro; [|reflexivity].
  simpl. rewrite count_status_tally. apply tally_le_length.
Qed.

(** Whatever the stats query answered, its body is a computed one. *)
Lemma fetchStats_computed st f s :
  Dashboard.fetchStats st f = Some s ->
  exists rows, s = Server.computeStats rows.
Proof.
  unfold Dashboard.fetchStats, Server.statsHandler, Server.run.
  destruct st as [rows|m]; simpl; intros H; inversion H.
  eexists; reflexivity.
Qed.

End Shape.

(* ================================================================== *)
(** ** Invariants of the aggregate *)

(** C6. On the server stats path and on the client re-aggregation path,
    for every record set and every filter combination, [totalExecutions]
    equals successCount + errorCount + runningCount + waitingCount +
    canceledCount.  The client is given what the stats query answered. *)
Theorem total_is_sum_of_status_counts :
  (forall rows, Spec.sums_up (Server.computeStats rows))
  /\ (forall st instance s,
        Server.statsHandler st instance = Server.Json s -> Spec.sums_up s)
  /\ (forall tz st execs f s,
        Dashboard.filteredStats tz execs f (Dashboard.fetchStats st f) = Some s ->
        Spec.sums_up s).
Proof.
  split; [exact computeStats_sums_up|]. split.
  - intros st instance s H.
    unfold Server.statsHandler, Server.run in H.
    destruct st; simpl in H; inversion H. apply computeStats_sums_up.
  - intros tz st execs f s H.
    assert (Hserver : forall s', Dashboard.fetchStats st f = Some s' -> Spec.sums_up s').
    { intros s' Hs'. destruct (fetchStats_computed _ _ _ Hs') as [rows ->].
      apply computeStats_sums_up. }
    destruct execs as [records|]; [|apply Hserver; exact H].
    destruct (Dashboard.hasAnyFilters f) eqn:Hany.
    + destruct (filteredStats_active tz records f (Dashboard.fetchStats st f) Hany)
        as (s' & Hs' & Ht & H1 & H2 & H3 & H4 & H5 & _).
      rewrite Hs' in H. inversion H; subst s'.
      unfold Spec.sums_up. rewrite Ht, H1, H2, H3, H4, H5.
      apply tally_partition.
    + unfold Dashboard.filteredStats in H. rewrite Hany in H. simpl in H.
      apply Hserver; exact H.
Qed.

Lemma total_is_sum_of_status_counts_witness :
  exists s,
    Dashboard.filteredStats 0 (Some Samples.two_records) (Samples.onlyWorkflow "A")
      (Dashboard.fetchStats Samples.small (Samples.onlyWorkflow "A")) = Some s
    /\ Spec.sums_up s.
Proof.
  eexists. split; [reflexivity|].
  apply (proj2 (proj2 total_is_sum_of_status_counts) 0 Samples.small
           (Some Samples.two_records) (Samples.onlyWorkflow "A")).
  reflexivity.
Defined.

(** With 23 successes out of 40 executions both paths give
    57.49999999999999 (8092405580431359 / 2 ^ 47), not the 57.5 that
    100 * 23 / 40 is: the quotient 23 / 40 is rounded before it is
    multiplied. *)
Lemma success_rate_is_rounded_twice :
  let server := Server.computeStats Samples.forty in
  let client :=
    Dashboard.filteredStats 0 (Some Samples.forty) (Samples.onlyStatus "success")
      None in
  Schema.totalExecutions server = 40%nat
  /\ Schema.successCount server = 23%nat
  /\ (Spec.percentage server == 115 # 2)%Q
  /\ (Schema.successRate server == 8092405580431359 # 140737488355328)%Q
  /\ ~ (Schema.successRate server == Spec.percentage server)%Q
  /\ option_map Schema.successRate client = Some (Schema.successRate server).
Proof.
  vm_compute. repeat split; try reflexivity. discriminate.
Qed.

(** C7. On both paths successRate is 0 when totalExecutions is 0;
    otherwise it is (successCount / totalExecutions) * 100 with the
    quotient and the product each rounded to binary64, which is within
    2 ^ -45 of 100 * successCount / totalExecutions; it lies in
    [0, 100]. *)
Theorem success_rate_formula_and_range :
  (forall rows, Spec.rate_ok (Server.computeStats rows))
  /\ (forall st instance s,
        Server.statsHandler st instance = Server.Json s -> Spec.rate_ok s)
  /\ (forall tz st execs f s,
        Dashboard.filteredStats tz execs f (Dashboard.fetchStats st f) = Some s ->
        Spec.rate_ok s).
Proof.
  split; [exact computeStats_rate_ok|]. split.
  - intros st instance s H.
    unfold Server.statsHandler, Server.run in H.
    destruct st; simpl in H; inversion H. apply computeStats_rate_ok.
  - intros tz st execs f s H.
    assert (Hserver : forall s', Dashboard.fetchStats st f = Some s' -> Spec.rate_ok s').
    { intros s' Hs'. destruct (fetchStats_computed _ _ _ Hs') as [rows ->].
      apply computeStats_rate_ok. }
    destruct execs as [records|]; [|apply Hserver; exact H].
    destruct (Dashboard.hasAnyFilters f) eqn:Hany.
    + destruct (filteredStats_active tz records f (Dashboard.fetchStats st f) Hany)
        as (s' & Hs' & Ht & H1 & _ & _ & _ & _ & _ & Hr).
      rewrite Hs' in H. inversion H; subst s'.
      apply rate_ok_intro; [|exact Hr].
      rewrite Ht, H1. apply tally_le_length.
    + unfold Dashboard.filteredStats in H. rewrite Hany in H. simpl in H.
      apply Hserver; exact H.
Qed.

Lemma success_rate_formula_and_range_witness :
  exists s,
    Dashboard.filteredStats 0 (Some Samples.two_records) (Samples.onlyStatus "error")
      (Dashboard.fetchStats Samples.small (Samples.onlyStatus "error")) = Some s
    /\ Spec.rate_ok s.
Proof.
  eexists. split; [reflexivity|].
  apply (proj2 (proj2 success_rate_formula_and_range) 0 Samples.small
           (Some Samples.two_records) (Samples.onlyStatus "error")).
  reflexivity.
Defined.

(* ================================================================== *)
(** ** The short-circuit to the server's values *)

(** C2. When instanceFilter, statusFilter, workflowFilter, modeFilter and
    dateRange are all null or absent, the client re-aggregation returns
    the server-supplied stats object and the server-supplied daily-bucket
    array unchanged, whatever record set was fetched (truncated or not,
    or none at all). *)
Theorem no_filter_returns_server_values
    (tz : Z) (executions : option (list Schema.ExecutionLog))
    (f : Filters.ExecutionFilters) (stats : option Schema.ExecutionStats)
    (dailyStats : list Schema.DailyStats) :
  Filters.instanceFilter f = None ->
  Filters.statusFilter f = None ->
  Filters.workflowFilter f = None ->
  Filters.modeFilter f = None ->
  Filters.dateRange f = None ->
  Dashboard.filteredStats tz executions f stats = stats
  /\ Dashboard.filteredDailyStats tz executions f (Some dailyStats) = dailyStats.
Proof.
  intros _ Hs Hw Hm Hd.
  assert (Hc : Dashboard.hasCountFilters f = false).
  { unfold Dashboard.hasCountFilters. rewrite Hw, Hm, Hd. reflexivity. }
  assert (Ha : Dashboard.hasAnyFilters f = false).
  { unfold Dashboard.hasAnyFilters. rewrite Hc, Hs. reflexivity. }
  unfold Dashboard.filteredStats, Dashboard.filteredDailyStats.
  rewrite Ha, Hc. destruct executions; split; reflexivity.
Qed.

Lemma no_filter_returns_server_values_witness :
  let stats := Dashboard.fetchStats Samples.crowded Filters.none in
  let daily := [{| Schema.date := "Nov 3"; Schema.total := 101%nat;
                   Schema.success_n := 101%nat; Schema.error_n := 0%nat |}] in
  Dashboard.filteredStats 0 (Dashboard.fetchExecutions Samples.crowded Filters.none)
    Filters.none stats = stats
  /\ Dashboard.filteredDailyStats 0
       (Dashboard.fetchExecutions Samples.crowded Filters.none)
       Filters.none (Some daily) = daily.
Proof.
  intros stats daily.
  apply (no_filter_returns_server_values 0 _ Filters.none stats daily);
    reflexivity.
Defined.

(* ================================================================== *)
(** ** Which records feed which figure *)

Section Eligibility.
Import Schema Filters.

Lemma passesCountFilters_ignores_status tz f x e :
  passesCountFilters tz (with_status f x) e = passesCountFilters tz f e.
Proof. reflexivity. Qed.

Lemma countSet_ignores_status tz f x records :
  Spec.countSet tz (with_status f x) records = Spec.countSet tz f records.
Proof. reflexivity. Qed.

Lemma count_of_tally tz records f stats s st :
  Dashboard.hasAnyFilters f = true ->
  Dashboard.filteredStats tz (Some records) f stats = Some s ->
  Spec.count_of st s = Spec.tally st (Spec.countSet tz f records).
Proof.
  intros Hany Hs.
  destruct (filteredStats_active tz records f stats Hany)
    as (s' & Hs' & _ & H1 & H2 & H3 & H4 & H5 & _).
  rewrite Hs' in Hs. inversion Hs; subst s'.
  destruct st; simpl; assumption.
Qed.

Lemma tally_self e l :
  Spec.tally (status e) (e :: l) = S (Spec.tally (status e) l).
Proof. simpl. destruct (status e); reflexivity. Qed.

Lemma known_durations_filter_cons p e l :
  duration_ms e = None ->
  Spec.known_durations (filter p (e :: l)) = Spec.known_durations (filter p l).
Proof.
  intros He. simpl. destruct (p e); [simpl; rewrite He|]; reflexivity.
Qed.

End Eligibility.

(** With only an instance selected the page shows the stats object of
    the server as it is: over the 101 rows of that instance in the store
    it shows a total of 101, although the fetched records, all of which
    pass the count predicate, are 100. *)
Lemma instance_only_filter_keeps_server_stats :
  let f := Samples.onlyInstance "https://prod" in
  let executions := Dashboard.fetchExecutions Samples.crowded f in
  let stats := Dashboard.fetchStats Samples.crowded f in
  Js.truthy (Filters.instanceFilter f) = true
  /\ Dashboard.filteredStats 0 executions f stats = stats
  /\ option_map Schema.totalExecutions
       (Dashboard.filteredStats 0 executions f stats) = Some 101%nat
  /\ option_map (fun records => List.length (Spec.countSet 0 f records))
       executions = Some 100%nat.
Proof.
  vm_compute. repeat split; reflexivity.
Qed.

(** C3. With at least one of workflowFilter, modeFilter, dateRange and
    statusFilter active, totalExecutions and the five per-status counts
    are taken over the records matching the workflow, mode and
    date-range clauses, statusFilter being ignored; avgDurationMs is the
    arithmetic mean of the non-null durations of that subset narrowed by
    statusFilter, and 0 when there is none; a record without a duration
    still counts in totalExecutions and in the count of its status, and
    leaves the average alone. *)
Theorem counts_ignore_status_duration_narrows
    (tz : Z) (records : list Schema.ExecutionLog)
    (f : Filters.ExecutionFilters) (stats : option Schema.ExecutionStats) :
  Spec.narrows f = true ->
  exists s,
    Dashboard.filteredStats tz (Some records) f stats = Some s
    /\ (let countSet := Spec.countSet tz (Filters.with_status f None) records in
        Schema.totalExecutions s = List.length countSet
        /\ (forall st, Spec.count_of st s = Spec.tally st countSet)
        /\ Schema.avgDurationMs s
           = Spec.mean (Spec.known_durations
                          (filter (Spec.matchesStatusFilter f) countSet))
        /\ (Spec.known_durations (filter (Spec.matchesStatusFilter f) countSet) = [] ->
            Schema.avgDurationMs s = 0%Q))
    /\ (forall e,
          Schema.duration_ms e = None ->
          Spec.matchesCountFilters tz f e = true ->
          exists s',
            Dashboard.filteredStats tz (Some (e :: records)) f stats = Some s'
            /\ Schema.totalExecutions s' = S (Schema.totalExecutions s)
            /\ Spec.count_of (Schema.status e) s'
               = S (Spec.count_of (Schema.status e) s)
            /\ Schema.avgDurationMs s' = Schema.avgDurationMs s).
Proof.
  intros Hany. rewrite narrows_hasAnyFilters in Hany.
  destruct (filteredStats_active tz records f stats Hany)
    as (s & Hs & Ht & H1 & H2 & H3 & H4 & H5 & Havg & _).
  exists s. split; [exact Hs|]. split.
  - cbv zeta. rewrite countSet_ignores_status.
    split; [exact Ht|]. split.
    + intros st. apply (count_of_tally tz records f stats); assumption.
    + split; [exact Havg|].
      intros Hnone. rewrite Havg. unfold Spec.durationSet. rewrite Hnone.
      reflexivity.
  - intros e Hdur Hpass.
    destruct (filteredStats_active tz (e :: records) f stats Hany)
      as (s' & Hs' & Ht' & _ & _ & _ & _ & _ & Havg' & _).
    exists s'. split; [exact Hs'|].
    assert (Hcons : Spec.countSet tz f (e :: records)
                    = e :: Spec.countSet tz f records).
    { unfold Spec.countSet. cbn [filter]. rewrite Hpass. reflexivity. }
    split; [rewrite Ht', Ht, Hcons; reflexivity|]. split.
    + rewrite (count_of_tally tz (e :: records) f stats s' _ Hany Hs').
      rewrite (count_of_tally tz records f stats s _ Hany Hs).
      rewrite Hcons. apply tally_self.
    + rewrite Havg', Havg. unfold Spec.durationSet. rewrite Hcons.
      rewrite known_durations_filter_cons by exact Hdur. reflexivity.
Qed.

(** The workflow clause at work: of the two records, one of workflow A
    and one of workflow B, the filter on A keeps the first alone. *)
Lemma counts_ignore_status_duration_narrows_witness :
  exists s,
    Dashboard.filteredStats 0 (Some Samples.two_records)
      (Samples.onlyWorkflow "A") None = Some s
    /\ Schema.totalExecutions s = 1%nat
    /\ Schema.successCount s = 1%nat
    /\ Schema.errorCount s = 0%nat
    /\ Schema.avgDurationMs s = (inject_Z 100 / inject_Z 1)%Q.
Proof.
  destruct (counts_ignore_status_duration_narrows 0 Samples.two_records
              (Samples.onlyWorkflow "A") None eq_refl)
    as (s & Hs & (Ht & Hc & Havg & _) & _).
  exists s. split; [exact Hs|]. split; [exact Ht|].
  split; [exact (Hc Schema.success)|].
  split; [exact (Hc Schema.error)|]. exact Havg.
Defined.

(* ================================================================== *)
(** ** The date-range clause *)

Section DateRangeClause.
Import Schema Filters.
Variable tz : Z.

Lemma startOfDay_localDay t :
  Dates.startOfDay tz t = Dates.msPerDay * Dates.localDay tz t - tz.
Proof.
  unfold Dates.startOfDay, Dates.localDay.
  pose proof (Z.div_mod (t + tz) Dates.msPerDay) as H.
  unfold Dates.msPerDay in *. lia.
Qed.

(** An instant lies between the start and the end of a day exactly
    when it falls on that local calendar day. *)
Lemma within_day fromDate t :
  Dates.startOfDay tz fromDate <= t <= Dates.endOfDay tz fromDate
  <-> Dates.localDay tz t = Dates.localDay tz fromDate.
Proof.
  unfold Dates.endOfDay. rewrite startOfDay_localDay.
  unfold Dates.localDay.
  pose proof (Z.div_mod (t + tz) Dates.msPerDay) as Ht.
  pose proof (Z.mod_pos_bound (t + tz) Dates.msPerDay) as Hr.
  unfold Dates.msPerDay in *.
  split; intros H; lia.
Qed.

Lemma localDay_mono a b : a <= b -> Dates.localDay tz a <= Dates.localDay tz b.
Proof.
  intros H. unfold Dates.localDay, Dates.msPerDay.
  apply Z.div_le_mono; lia.
Qed.

Lemma startOfDay_le_endOfDay a b :
  a <= b -> Dates.startOfDay tz a <= Dates.endOfDay tz b.
Proof.
  intros H. unfold Dates.endOfDay. rewrite !startOfDay_localDay.
  pose proof (localDay_mono a b H). unfold Dates.msPerDay. lia.
Qed.

Lemma isWithinInterval_ordered t lo hi :
  lo <= hi ->
  Dates.isWithinInterval t lo hi = true <-> lo <= t <= hi.
Proof.
  intros H. unfold Dates.isWithinInterval.
  rewrite andb_true_iff, !Z.leb_le. lia.
Qed.

Lemma passesCountFilters_clauses f item :
  passesCountFilters tz f item
  = andb (negb (workflow_rejects f item))
      (andb (negb (mode_rejects f item)) (negb (date_rejects tz f item))).
Proof.
  unfold passesCountFilters.
  destruct (workflow_rejects f item), (mode_rejects f item),
    (date_rejects tz f item); reflexivity.
Qed.

End DateRangeClause.

(** C5, as the code has it.  With a date range whose [from] is set (and
    whose [to], when set, is not before [from]), a record that has a
    start time passes the date-range clause if and only if that time
    lies in [start-of-day(from), end-of-day(to ?? from)], both ends
    included; with [to] absent this is the local calendar day of [from].
    A record without a start time passes the clause.  The clause is one
    conjunct of the count predicate, next to workflow and mode. *)
Theorem date_range_clause
    (tz : Z) (f : Filters.ExecutionFilters) (item : Schema.ExecutionLog)
    (range : Filters.DateRange) (fromDate : Z) :
  Filters.dateRange f = Some range ->
  Filters.from range = Some fromDate ->
  (forall toDate, Filters.to range = Some toDate -> fromDate <= toDate) ->
  (forall t, Schema.started_at item = Some t ->
     (Filters.date_rejects tz f item = false <-> Spec.inWindow tz range fromDate t)
     /\ (Filters.to range = None ->
         (Filters.date_rejects tz f item = false
          <-> Dates.localDay tz t = Dates.localDay tz fromDate)))
  /\ (Schema.started_at item = None -> Filters.date_rejects tz f item = false)
  /\ Filters.passesCountFilters tz f item
     = andb (negb (Filters.workflow_rejects f item))
         (andb (negb (Filters.mode_rejects f item))
               (negb (Filters.date_rejects tz f item))).
Proof.
  intros Hrange Hfrom Horder.
  split; [|split].
  - intros t Hstart.
    assert (Hclause :
      Filters.date_rejects tz f item = false <-> Spec.inWindow tz range fromDate t).
    { unfold Filters.date_rejects, Spec.inWindow.
      rewrite Hrange, Hfrom, Hstart.
      rewrite negb_false_iff.
      destruct (Filters.to range) as [toDate|] eqn:Hto.
      - apply isWithinInterval_ordered, startOfDay_le_endOfDay.
        apply Horder; reflexivity.
      - apply isWithinInterval_ordered, startOfDay_le_endOfDay. lia. }
    split; [exact Hclause|].
    intros Hto. rewrite Hclause. unfold Spec.inWindow. rewrite Hto.
    apply within_day.
  - intros Hstart. unfold Filters.date_rejects.
    rewrite Hrange, Hfrom, Hstart. reflexivity.
  - apply passesCountFilters_clauses.
Qed.

Lemma date_range_clause_witness :
  Filters.date_rejects 3600000 (Samples.onlyDay (Samples.day1 + 7200000))
    Samples.record1 = false.
Proof.
  refine (proj2 (proj2 (proj1 (date_range_clause 3600000
                   (Samples.onlyDay (Samples.day1 + 7200000))
                   Samples.record1
                   {| Filters.from := Some (Samples.day1 + 7200000);
                      Filters.to := None |}
                   (Samples.day1 + 7200000) eq_refl eq_refl _)
                 Samples.day1 eq_refl) eq_refl) eq_refl).
  intros toDate H. discriminate H.
Defined.

(** C5, as claimed, fails: a record without a start time is kept by the
    date-range clause, by the count predicate and by the table's filter. *)
Lemma undated_record_passes_date_range :
  Schema.started_at Samples.undated = None
  /\ Filters.date_rejects 0 (Samples.onlyDay Samples.day1) Samples.undated = false
  /\ Dashboard.filteredForCounts 0 [Samples.undated] (Samples.onlyDay Samples.day1)
     = [Samples.undated]
  /\ Table.filteredData 0 [Samples.undated] (Samples.onlyDay Samples.day1)
     = [Samples.undated].
Proof. repeat split. Qed.

(* ================================================================== *)
(** ** Client re-aggregation against the server computation *)

Section TwoPaths.
Import Schema Filters.

Lemma durationSet_without_status tz f records :
  Js.truthy (statusFilter f) = false ->
  Spec.durationSet tz f records = Spec.countSet tz f records.
Proof.
  intros H. unfold Spec.durationSet.
  apply filter_all_true. intros e.
  unfold Spec.matchesStatusFilter. rewrite H. reflexivity.
Qed.

Lemma round_mean_nil : inject_Z (Js.Math_round (Spec.mean [])) = 0%Q.
Proof. reflexivity. Qed.

End TwoPaths.

(** C1, as the code has it.  With at least one filter dimension active,
    the client re-aggregation yields the same totalExecutions, the same
    five per-status counts and the same successRate as the server stats
    computation run over the records that pass the workflow, mode and
    date-range clauses.  For avgDurationMs the two agree after rounding
    to whole milliseconds when no status is selected; a selected status
    narrows the client's average only. *)
Theorem reaggregation_matches_server_counts
    (tz : Z) (records : list Schema.ExecutionLog)
    (f : Filters.ExecutionFilters) (stats : option Schema.ExecutionStats) :
  Dashboard.hasAnyFilters f = true ->
  exists s,
    Dashboard.filteredStats tz (Some records) f stats = Some s
    /\ (let server := Server.computeStats (Spec.countSet tz f records) in
        Spec.same_counts s server
        /\ Schema.successRate s = Schema.successRate server
        /\ (Js.truthy (Filters.statusFilter f) = false ->
            Schema.avgDurationMs server
            = inject_Z (Js.Math_round (Schema.avgDurationMs s)))).
Proof.
  intros Hany.
  destruct (filteredStats_active tz records f stats Hany)
    as (s & Hs & Ht & H1 & H2 & H3 & H4 & H5 & Havg & Hrate).
  exists s. split; [exact Hs|]. cbv zeta.
  destruct (computeStats_fields (Spec.countSet tz f records))
    as (St & S1 & S2 & S3 & S4 & S5 & Savg & Srate).
  split; [|split].
  - unfold Spec.same_counts.
    rewrite Ht, H1, H2, H3, H4, H5, St, S1, S2, S3, S4, S5.
    repeat split; reflexivity.
  - rewrite Hrate, Srate, Ht, H1, St, S1. reflexivity.
  - intros Hstatus. rewrite Savg, Havg.
    rewrite (durationSet_without_status tz f records Hstatus).
    destruct (Spec.known_durations (Spec.countSet tz f records));
      [symmetry; apply round_mean_nil | reflexivity].
Qed.

Lemma reaggregation_matches_server_counts_witness :
  exists s,
    Dashboard.filteredStats 0 (Some Samples.two_records)
      (Samples.onlyWorkflow "A") None = Some s
    /\ Spec.same_counts s
         (Server.computeStats
            (Spec.countSet 0 (Samples.onlyWorkflow "A") Samples.two_records)).
Proof.
  destruct (reaggregation_matches_server_counts 0 Samples.two_records
              (Samples.onlyWorkflow "A") None eq_refl)
    as (s & Hs & Hc & _).
  exists s. split; [exact Hs | exact Hc].
Defined.

(** C1, as claimed, fails on avgDurationMs: with the status "error"
    selected the client averages the error records only (200) while the
    server computation over the same count-eligible records gives 150;
    and with two durations 1 and 2 the client keeps 3/2 where the server
    rounds to 2. *)
Lemma average_differs_between_paths :
  (exists s,
     Dashboard.filteredStats 0 (Some Samples.two_records)
       (Samples.onlyStatus "error") None = Some s
     /\ Schema.avgDurationMs s == 200
     /\ Schema.avgDurationMs
          (Server.computeStats
             (Spec.countSet 0 (Samples.onlyStatus "error") Samples.two_records))
        == 150
     /\ ~ Schema.avgDurationMs s
          == Schema.avgDurationMs
               (Server.computeStats
                  (Spec.countSet 0 (Samples.onlyStatus "error")
                     Samples.two_records)))
  /\ (exists s,
        Dashboard.filteredStats 0 (Some [Samples.quick; Samples.slow])
          (Samples.onlyWorkflow "A") None = Some s
        /\ Schema.avgDurationMs s == 3 # 2
        /\ Schema.avgDurationMs
             (Server.computeStats
                (Spec.countSet 0 (Samples.onlyWorkflow "A")
                   [Samples.quick; Samples.slow]))
           == 2).
Proof.
  split.
  - eexists. split; [reflexivity|].
    repeat split; try reflexivity. intros H. discriminate H.
  - eexists. split; [reflexivity|]. split; reflexivity.
Qed.

(* ================================================================== *)
(** ** Toggling the status filter alone *)

Section Fetch.
Import Schema Filters.

Lemma insert_sorted_perm {A} (le : A -> A -> bool) x l :
  Permutation (Coll.insert_sorted le x l) (x :: l).
Proof.
  induction l as [|y t IH]; simpl; [apply Permutation_refl|].
  destruct (le x y); [apply Permutation_refl|].
  eapply perm_trans; [apply perm_skip, IH | apply perm_swap].
Qed.

Lemma sort_by_perm {A} (le : A -> A -> bool) l :
  Permutation (Coll.sort_by le l) l.
Proof.
  induction l as [|x t IH]; simpl; [apply perm_nil|].
  eapply perm_trans; [apply insert_sorted_perm | apply perm_skip, IH].
Qed.


Lemma no_count_filter_passes tz f e :
  Dashboard.hasCountFilters f = false -> passesCountFilters tz f e = true.
Proof.
  unfold Dashboard.hasCountFilters. rewrite !orb_false_iff.
  intros [[Hw Hm] Hd].
  unfold passesCountFilters, workflow_rejects, mode_rejects, date_rejects.
  destruct (workflowFilter f) as [w|]; [rewrite Hw|];
    (destruct (modeFilter f) as [m|]; [rewrite Hm|]);
    (destruct (dateRange f); [discriminate Hd|]); reflexivity.
Qed.


End Fetch.




(* ================================================================== *)
(** ** The daily series of the server *)

Section DayMapFacts.
Context {V : Type}.
Implicit Types (m : Coll.DayMap V) (k : Z) (v : V).

Lemma set_keys_present k v m :
  In k (map fst m) -> map fst (Coll.set k v m) = map fst m.
Proof.
  induction m as [|[k' v'] t IH]; simpl; [tauto|].
  intros Hin. destruct (Z.eqb_spec k k') as [->|Hne]; simpl; [reflexivity|].
  f_equal. apply IH. destruct Hin as [H|H]; [congruence | exact H].
Qed.

Lemma set_absent k v m :
  ~ In k (map fst m) -> Coll.set k v m = m ++ [(k, v)].
Proof.
  induction m as [|[k' v'] t IH]; simpl; [reflexivity|].
  intros Hnin. destruct (Z.eqb_spec k k') as [->|Hne]; [tauto|].
  f_equal. apply IH. tauto.
Qed.

Lemma set_keeps_keys k v m d :
  In d (map fst m) -> In d (map fst (Coll.set k v m)).
Proof.
  intros Hd. destruct (in_dec Z.eq_dec k (map fst m)) as [Hin|Hnin].
  - rewrite set_keys_present by exact Hin. exact Hd.
  - rewrite set_absent by exact Hnin. rewrite map_app, in_app_iff. tauto.
Qed.





End DayMapFacts.

Section DailySeries.
Import Schema.




(** *** Dates in range *)








(** *** Loops that may throw *)


Lemma forEach_invariant {A B} (body : B -> A -> option B) (P : B -> Prop) l :
  (forall b a b', P b -> body b a = Some b' -> P b') ->
  forall b b', P b -> Server.forEach body l b = Some b' -> P b'.
Proof.
  intros Hstep. induction l as [|a t IH]; intros b b' Hb; simpl.
  - intros E. injection E as <-. exact Hb.
  - destruct (body b a) as [b1|] eqn:E1; [|discriminate].
    apply IH. apply (Hstep b a b1 Hb E1).
Qed.


Lemma forEach_aggregate_inv rows : forall m m',
  Server.forEach Server.aggregateTurn rows m = Some m' ->
  m' = fold_left Server.aggregate rows m.
Proof.
  induction rows as [|e t IH]; intros m m'; simpl.
  - intros E. injection E as <-. reflexivity.
  - unfold Server.aggregateTurn at 1.
    destruct (Dates.isoDay (Dates.timeClip (created_at e))); [|discriminate].
    apply IH.
Qed.

(** *** The seeding loop in a zone of fixed offset *)



(** *** The aggregation loop *)

Lemma aggregate_keeps_keys m e d :
  In d (map fst m) -> In d (map fst (Server.aggregate m e)).
Proof. apply set_keeps_keys. Qed.


Lemma fold_aggregate_keys rows : forall m d,
  In d (map fst m) -> In d (map fst (fold_left Server.aggregate rows m)).
Proof.
  induction rows as [|e t IH]; intros m d H; simpl; [exact H|].
  apply IH, aggregate_keeps_keys, H.
Qed.







End DailySeries.

(* ================================================================== *)
(** ** Lenient query parameters *)

Section QueryParams.

Lemma firstn_nonempty {A} (n : nat) (l : list A) :
  (0 < n)%nat -> l <> [] -> firstn n l <> [].
Proof.
  destruct n as [|n]; [lia|]. destruct l; [congruence | discriminate].
Qed.

Lemma sort_by_nonempty {A} (le : A -> A -> bool) (l : list A) :
  l <> [] -> Coll.sort_by le l <> [].
Proof.
  intros Hl Hs. apply Hl.
  apply Permutation_nil. rewrite <- Hs. apply sort_by_perm.
Qed.

End QueryParams.

(** C10. A [limit] or [days] query parameter that parses to 0 is handled
    as an absent or a non-numeric one: the handlers take the default
    (limit 100, days 14) and answer as if the parameter were not there;
    so [limit=0] does not by itself empty the list of executions. *)
Theorem zero_param_falls_back_to_default (q : option string) :
  Js.parseInt q = Some 0 ->
  Server.limit_of q = 100
  /\ Server.days_of q = 14
  /\ (forall q', Js.parseInt q' = None ->
        Server.limit_of q = Server.limit_of q'
        /\ Server.days_of q = Server.days_of q')
  /\ (forall st instance,
        Server.executionsHandler st q instance
        = Server.executionsHandler st None instance)
  /\ (forall tz st now instance,
        Server.dailyHandler tz st now q instance
        = Server.dailyHandler tz st now None instance)
  /\ (forall rows instance,
        Server.eq_instance instance rows <> [] ->
        Server.executionsHandler (Server.Rows rows) q instance
        <> Server.Json []).
Proof.
  intros Hq.
  assert (Hl : Server.limit_of q = 100).
  { unfold Server.limit_of. rewrite Hq. reflexivity. }
  assert (Hd : Server.days_of q = 14).
  { unfold Server.days_of. rewrite Hq. reflexivity. }
  split; [exact Hl|]. split; [exact Hd|]. split; [|split; [|split]].
  - intros q' Hq'. unfold Server.limit_of, Server.days_of.
    rewrite Hq, Hq'. split; reflexivity.
  - intros st instance. unfold Server.executionsHandler. rewrite Hl. reflexivity.
  - intros tz st now instance. unfold Server.dailyHandler. rewrite Hd. reflexivity.
  - intros rows instance Hne. unfold Server.executionsHandler. rewrite Hl.
    unfold Server.run. cbn [Server.error Server.data Server.or_empty].
    intros H.
    assert (Hinj : forall a b : list Schema.ExecutionLog,
               Server.Json a = Server.Json b -> a = b).
    { intros a b E. injection E. trivial. }
    apply Hinj in H. revert H. apply firstn_nonempty; [lia|].
    apply sort_by_nonempty. exact Hne.
Qed.

Lemma zero_param_falls_back_to_default_witness :
  Server.limit_of (Some "0"%string) = 100
  /\ Server.executionsHandler Samples.small (Some "0"%string) None
     <> Server.Json [].
Proof.
  destruct (zero_param_falls_back_to_default (Some "0"%string) eq_refl)
    as (Hl & _ & _ & _ & _ & Hne).
  split; [exact Hl|]. apply Hne. discriminate.
Defined.

(* ================================================================== *)
(** ** Duration display *)

Section DurationDisplay.

Lemma ltb_lt a b : Js.ltb a b = true <-> (a < b)%Q.
Proof.
  unfold Js.ltb. rewrite negb_true_iff.
  split.
  - intros H. apply Qnot_le_lt. intros Hle.
    apply Qle_bool_iff in Hle. congruence.
  - intros H. destruct (Qle_bool b a) eqn:E; [|reflexivity].
    apply Qle_bool_iff in E. exfalso. apply (Qlt_not_le _ _ H E).
Qed.

Lemma ltb_ge a b : Js.ltb a b = false <-> (b <= a)%Q.
Proof.
  unfold Js.ltb. rewrite negb_false_iff. apply Qle_bool_iff.
Qed.

Lemma round_range (x : Q) (lo hi : Z) :
  (inject_Z lo <= x)%Q -> (x <= inject_Z hi)%Q ->
  lo <= Js.Math_round x <= hi.
Proof.
  intros Hlo Hhi. unfold Js.Math_round. split.
  - rewrite <- (Qfloor_Z lo). apply Qfloor_resp_le.
    eapply Qle_trans; [exact Hlo|].
    rewrite <- (Qplus_0_r x) at 1. apply Qplus_le_r. discriminate.
  - assert (H : Qfloor (x + (1 # 2)) <= Qfloor (inject_Z hi + (1 # 2))).
    { apply Qfloor_resp_le, Qplus_le_l, Hhi. }
    eapply Z.le_trans; [exact H|].
    assert (Hh : (inject_Z hi + (1 # 2) < inject_Z (hi + 1))%Q).
    { rewrite inject_Z_plus. apply Qplus_lt_r. reflexivity. }
    pose proof (Qfloor_le (inject_Z hi + (1 # 2))) as Hf.
    assert (Hz : (inject_Z (Qfloor (inject_Z hi + (1 # 2))) < inject_Z (hi + 1))%Q).
    { eapply Qle_lt_trans; eassumption. }
    rewrite <- Zlt_Qlt in Hz. lia.
Qed.

End DurationDisplay.

(** The formatter of the execution table: whole milliseconds under
    1000 ms, whole seconds (1 to 60) from 1000 ms to under 60000 ms,
    whole minutes from 60000 ms on; the grid cell shows the same text. *)
Lemma table_duration_thresholds (ms : Q) :
  ((ms < 1000)%Q ->
     Table.formatDuration (Some ms)
     = (Js.show (Js.Math_round ms) ++ "ms")%string)
  /\ ((1000 <= ms)%Q -> (ms < 60000)%Q ->
        Table.formatDuration (Some ms)
        = (Js.show (Js.Math_round (ms / 1000)) ++ "s")%string
        /\ 1 <= Js.Math_round (ms / 1000) <= 60)
  /\ ((60000 <= ms)%Q ->
        Table.formatDuration (Some ms)
        = (Js.show (Js.Math_round (ms / 60000)) ++ "m")%string
        /\ 1 <= Js.Math_round (ms / 60000))
  /\ Table.DurationCellRenderer (Some ms) = Table.formatDuration (Some ms).
Proof.
  split; [|split; [|split]].
  - intros H. unfold Table.formatDuration.
    apply ltb_lt in H. rewrite H. reflexivity.
  - intros Hlo Hhi. unfold Table.formatDuration.
    apply ltb_ge in Hlo. apply ltb_lt in Hhi. rewrite Hlo, Hhi.
    split; [reflexivity|].
    apply ltb_ge in Hlo. apply ltb_lt in Hhi.
    apply round_range.
    + apply Qle_shift_div_l; [reflexivity|]. exact Hlo.
    + apply Qle_shift_div_r; [reflexivity|]. apply Qlt_le_weak. exact Hhi.
  - intros Hlo. unfold Table.formatDuration.
    assert (H1 : (1000 <= ms)%Q).
    { eapply Qle_trans; [|exact Hlo]. discriminate. }
    apply ltb_ge in H1. apply ltb_ge in Hlo. rewrite H1, Hlo.
    split; [reflexivity|].
    apply ltb_ge in Hlo.
    unfold Js.Math_round.
    rewrite <- (Qfloor_Z 1). apply Qfloor_resp_le.
    apply Qle_trans with (ms / 60000)%Q.
    + apply Qle_shift_div_l; [reflexivity|]. exact Hlo.
    + rewrite <- (Qplus_0_r (ms / 60000)) at 1. apply Qplus_le_r. discriminate.
  - reflexivity.
Qed.

(** The formatter of the dashboard page never changes unit. *)
Lemma card_duration_always_ms (ms : Q) :
  ~ (ms == 0)%Q ->
  Dashboard.formatDuration (Some ms)
  = (Js.show (Js.Math_round ms) ++ "ms")%string.
Proof.
  intros H. unfold Dashboard.formatDuration, Js.is_zero.
  destruct (Qeq_bool ms 0) eqn:E; [|reflexivity].
  apply Qeq_bool_iff in E. contradiction.
Qed.

(** C9. The execution table formats 999, 1000, 59999, 60000 and 125000
    milliseconds as the claim says; the Avg Duration card of the
    dashboard page does not: from 1000 ms on it still prints whole
    milliseconds. *)
Theorem stat_card_duration_keeps_milliseconds :
  (Table.formatDuration (Some 999%Q) = "999ms"
   /\ Table.formatDuration (Some 1000%Q) = "1s"
   /\ Table.formatDuration (Some 59999%Q) = "60s"
   /\ Table.formatDuration (Some 60000%Q) = "1m"
   /\ Table.formatDuration (Some 125000%Q) = "2m")%string
  /\ (Dashboard.formatDuration (Some 999%Q) = "999ms"
      /\ Dashboard.formatDuration (Some 1000%Q) = "1000ms"
      /\ Dashboard.formatDuration (Some 59999%Q) = "59999ms"
      /\ Dashboard.formatDuration (Some 60000%Q) = "60000ms"
      /\ Dashboard.formatDuration (Some 125000%Q) = "125000ms")%string
  /\ Dashboard.avgDurationCard (Some (Server.computeStats [Samples.long_run]))
     = "125000ms"%string
  /\ Table.DurationCellRenderer
       (option_map inject_Z (Schema.duration_ms Samples.long_run))
     = "2m"%string.
Proof. repeat split. Qed.

(* ================================================================== *)
(** ** Sorting facts *)

Section SortFacts.
Context {A : Type} (le : A -> A -> bool).
Hypothesis le_total : forall a b, le a b = true \/ le b a = true.

Lemma insert_sorted_hdrel a x l :
  le a x = true ->
  HdRel (fun u v => le u v = true) a l ->
  HdRel (fun u v => le u v = true) a (Coll.insert_sorted le x l).
Proof.
  intros Hax Hl. destruct l as [|y t]; simpl.
  - constructor. exact Hax.
  - destruct (le x y); constructor; [exact Hax|].
    inversion Hl; assumption.
Qed.

Lemma insert_sorted_sorted x l :
  Sorted (fun u v => le u v = true) l ->
  Sorted (fun u v => le u v = true) (Coll.insert_sorted le x l).
Proof.
  induction 1 as [|y t Hs IH Hhd]; simpl.
  - repeat constructor.
  - destruct (le x y) eqn:E.
    + constructor; [constructor; assumption | constructor; exact E].
    + constructor; [exact IH|].
      apply insert_sorted_hdrel; [|exact Hhd].
      destruct (le_total x y) as [H|H]; congruence.
Qed.

Lemma sort_by_sorted l :
  Sorted (fun u v => le u v = true) (Coll.sort_by le l).
Proof.
  induction l as [|x t IH]; simpl; [constructor|].
  apply insert_sorted_sorted, IH.
Qed.

End SortFacts.

Section ListFacts.
Context {A : Type}.

Lemma sorted_firstn (R : A -> A -> Prop) n l :
  Sorted R l -> Sorted R (firstn n l).
Proof.
  intros Hs. revert n. induction Hs as [|x t Hs IH Hhd]; intros n.
  - rewrite firstn_nil. constructor.
  - destruct n as [|n]; simpl; [constructor|].
    constructor; [apply IH|].
    destruct Hhd as [|y t' Hxy]; [rewrite firstn_nil; constructor|].
    destruct n; simpl; constructor. exact Hxy.
Qed.

Lemma strongly_sorted_split (R : A -> A -> Prop) l1 l2 :
  StronglySorted R (l1 ++ l2) ->
  forall x y, In x l1 -> In y l2 -> R x y.
Proof.
  induction l1 as [|a t IH]; simpl; intros Hs x y Hx Hy; [tauto|].
  apply StronglySorted_inv in Hs. destruct Hs as [Ht Hall].
  destruct Hx as [<-|Hx].
  - rewrite Forall_forall in Hall. apply Hall, in_or_app. tauto.
  - apply IH; assumption.
Qed.

End ListFacts.

Section ExecutionsList.

Lemma order_created_desc_sorted l :
  StronglySorted Terms.newer_first (Server.order_created_desc l).
Proof.
  apply Sorted_StronglySorted.
  - intros a b c Hab Hbc. unfold Terms.newer_first in *. lia.
  - unfold Server.order_created_desc.
    eapply Sorted_ind with
      (R := fun u v : Schema.ExecutionLog =>
              (Schema.created_at v <=? Schema.created_at u) = true).
    + constructor.
    + intros a l0 _ IH Hhd. constructor; [exact IH|].
      destruct Hhd; constructor. unfold Terms.newer_first. lia.
    + apply sort_by_sorted. intros a b. rewrite !Z.leb_le. lia.
Qed.

Lemma eq_instance_sound instance rows e :
  In e (Server.eq_instance instance rows) ->
  In e rows
  /\ (Js.truthy instance = true -> Schema.n8n_instance e = instance).
Proof.
  unfold Server.eq_instance.
  destruct instance as [i|]; [|simpl; intros H; split; [exact H | discriminate]].
  destruct (Js.truthy (Some i)) eqn:Et.
  - rewrite filter_In. intros [Hin Hi]. split; [exact Hin|]. intros _.
    unfold Server.instance_is in Hi.
    destruct (Schema.n8n_instance e) as [j|]; [|discriminate].
    apply String.eqb_eq in Hi. subst j. reflexivity.
  - intros H. split; [exact H | discriminate].
Qed.

End ExecutionsList.

(** X1. With the store answering and a positive row limit, the
    executions handler returns at most [limit] rows (100 by default),
    newest first; they are rows of the table, of the requested instance
    when one is given, and none of the matching rows left out is newer
    than a returned one. *)
Theorem executions_are_the_newest
    (rows : list Schema.ExecutionLog) (limit_param instance : option string) :
  0 < Server.limit_of limit_param ->
  exists returned omitted,
    Server.executionsHandler (Server.Rows rows) limit_param instance
    = Server.Json returned
    /\ Z.of_nat (List.length returned) <= Server.limit_of limit_param
    /\ StronglySorted Terms.newer_first returned
    /\ Permutation (returned ++ omitted) (Server.eq_instance instance rows)
    /\ (forall e, In e returned ->
          In e rows
          /\ (Js.truthy instance = true -> Schema.n8n_instance e = instance))
    /\ (forall x y, In x returned -> In y omitted ->
          Schema.created_at y <= Schema.created_at x)
    /\ (omitted <> [] ->
        Z.of_nat (List.length returned) = Server.limit_of limit_param).
Proof.
  intros Hpos.
  set (n := Z.to_nat (Server.limit_of limit_param)).
  set (sorted := Server.order_created_desc (Server.eq_instance instance rows)).
  exists (firstn n sorted), (skipn n sorted).
  assert (Hperm : Permutation sorted (Server.eq_instance instance rows))
    by apply sort_by_perm.
  assert (Hss : StronglySorted Terms.newer_first sorted)
    by apply order_created_desc_sorted.
  split; [reflexivity|]. split; [|split; [|split; [|split; [|split]]]].
  - pose proof (firstn_le_length n sorted). lia.
  - apply Sorted_StronglySorted.
    + intros a b c Hab Hbc. unfold Terms.newer_first in *. lia.
    + apply sorted_firstn, StronglySorted_Sorted, Hss.
  - rewrite firstn_skipn. exact Hperm.
  - intros e He. apply eq_instance_sound.
    apply (Permutation_in _ Hperm).
    rewrite <- (firstn_skipn n sorted). apply in_or_app. left. exact He.
  - intros x y Hx Hy.
    rewrite <- (firstn_skipn n sorted) in Hss.
    apply (strongly_sorted_split Terms.newer_first _ _ Hss x y Hx Hy).
  - intros Hne.
    destruct (Nat.le_gt_cases (List.length sorted) n) as [Hle|Hgt].
    + exfalso. apply Hne. apply skipn_all2. exact Hle.
    + rewrite length_firstn. lia.
Qed.

Lemma executions_are_the_newest_witness :
  exists returned omitted,
    Server.executionsHandler Samples.crowded (Some "3"%string) None
    = Server.Json returned
    /\ Z.of_nat (List.length returned) <= 3
    /\ (forall x y, In x returned -> In y omitted ->
          Schema.created_at y <= Schema.created_at x).
Proof.
  destruct (executions_are_the_newest (map Samples.numbered (seq 0 101))
              (Some "3"%string) None eq_refl)
    as (returned & omitted & Hr & Hlen & _ & _ & _ & Hnew & _).
  exists returned, omitted. split; [exact Hr|]. split; [exact Hlen | exact Hnew].
Defined.

(* ================================================================== *)
(** ** Sets and maps of strings *)

Section StringSetFacts.

Lemma existsb_eqb_in x s : existsb (String.eqb x) s = true <-> In x s.
Proof.
  rewrite existsb_exists. split.
  - intros (y & Hy & E). apply String.eqb_eq in E. subst. exact Hy.
  - intros H. exists x. split; [exact H | apply String.eqb_refl].
Qed.

Lemma add_in x y s : In x (StrColl.add y s) <-> x = y \/ In x s.
Proof.
  unfold StrColl.add. destruct (existsb (String.eqb y) s) eqn:E.
  - apply existsb_eqb_in in E. split; [tauto|]. intros [->|H]; assumption.
  - rewrite in_app_iff. simpl. split; intros H; intuition congruence.
Qed.

Lemma add_nodup y s : NoDup s -> NoDup (StrColl.add y s).
Proof.
  intros Hnd. unfold StrColl.add.
  destruct (existsb (String.eqb y) s) eqn:E; [exact Hnd|].
  apply NoDup_app; [exact Hnd | repeat constructor; simpl; tauto|].
  intros x Hx [<-|[]].
  apply existsb_eqb_in in Hx. congruence.
Qed.

(** A [forEach] that adds to a set the key of each item that has one. *)
Variable A : Type.
Variable key : A -> option string.
Variable step : list string -> A -> list string.
Hypothesis step_adds :
  forall acc a,
    step acc a = match key a with
                 | Some k => StrColl.add k acc
                 | None => acc
                 end.

Lemma collected_in items : forall acc x,
  In x (fold_left step items acc)
  <-> In x acc \/ exists a, In a items /\ key a = Some x.
Proof.
  induction items as [|a t IH]; intros acc x; simpl.
  - split; [tauto|]. intros [H|(a & [] & _)]. exact H.
  - rewrite IH, step_adds. destruct (key a) as [k|] eqn:Ek.
    + rewrite add_in. split.
      * intros [[->|H]|(b & Hb & Kb)].
        -- right. exists a. tauto.
        -- tauto.
        -- right. exists b. tauto.
      * intros [H|(b & [<-|Hb] & Kb)].
        -- tauto.
        -- left. left. congruence.
        -- right. exists b. tauto.
    + split.
      * intros [H|(b & Hb & Kb)]; [tauto|]. right. exists b. tauto.
      * intros [H|(b & [<-|Hb] & Kb)]; [tauto | congruence|].
        right. exists b. tauto.
Qed.

Lemma collected_nodup items : forall acc,
  NoDup acc -> NoDup (fold_left step items acc).
Proof.
  induction items as [|a t IH]; intros acc H; simpl; [exact H|].
  apply IH. rewrite step_adds. destruct (key a); [apply add_nodup|]; exact H.
Qed.

(** The sorted array of such a set. *)
Lemma sorted_set items :
  let out := StrColl.sorted (fold_left step items []) in
  NoDup out
  /\ Terms.ascending out
  /\ forall x, In x out <-> exists a, In a items /\ key a = Some x.
Proof.
  cbv zeta. unfold StrColl.sorted.
  pose proof (sort_by_perm String.leb (fold_left step items [])) as Hperm.
  split; [|split].
  - apply (Permutation_NoDup (Permutation_sym Hperm)).
    apply collected_nodup. constructor.
  - apply sort_by_sorted. apply String.leb_total.
  - intros x. split.
    + intros H. apply (Permutation_in _ Hperm) in H.
      apply collected_in in H. destruct H as [[]|H]. exact H.
    + intros H. apply (Permutation_in _ (Permutation_sym Hperm)).
      apply collected_in. right. exact H.
Qed.

End StringSetFacts.

(** X2. With the store answering, the instances handler returns the
    instance identifiers of the table that are neither null nor empty,
    each once, in ascending order. *)
Theorem instances_distinct_sorted (rows : list Schema.ExecutionLog) :
  exists instances,
    Routes.instancesHandler (Server.Rows rows) = Server.Json instances
    /\ NoDup instances
    /\ Terms.ascending instances
    /\ forall i,
         In i instances
         <-> (i <> EmptyString
              /\ exists r, In r rows /\ Schema.n8n_instance r = Some i).
Proof.
  pose (key := fun d : Schema.ExecutionLog =>
                 match Schema.n8n_instance d with
                 | Some i => if Js.truthy (Some i) then Some i else None
                 | None => None
                 end).
  assert (Hstep : forall acc a,
            Routes.collect acc a
            = match key a with Some k => StrColl.add k acc | None => acc end).
  { intros acc a. unfold Routes.collect, key.
    destruct (Schema.n8n_instance a) as [i|]; [|reflexivity].
    destruct (Js.truthy (Some i)); reflexivity. }
  destruct (sorted_set _ key Routes.collect Hstep
              (filter Routes.has_instance rows)) as (Hnd & Hasc & Hin).
  eexists. split; [reflexivity|]. split; [exact Hnd|]. split; [exact Hasc|].
  intros i. rewrite Hin. unfold key. split.
  - intros (a & Ha & Hk). apply filter_In in Ha. destruct Ha as [Ha _].
    destruct (Schema.n8n_instance a) as [j|] eqn:Ej; [|discriminate].
    destruct (Js.truthy (Some j)) eqn:Et; [|discriminate].
    injection Hk as ->. split.
    + intros ->. discriminate Et.
    + exists a. tauto.
  - intros (Hne & r & Hr & Hi). exists r. split.
    + apply filter_In. split; [exact Hr|].
      unfold Routes.has_instance. rewrite Hi. reflexivity.
    + rewrite Hi. simpl. destruct (String.eqb_spec i EmptyString); [tauto|].
      reflexivity.
Qed.

(** X3. The workflow select of the filter bar offers the non-empty
    workflow names of the data, each once, in ascending order; choosing
    an offered name (other than the reserved value "all") with no mode
    or date filter keeps exactly the records of that workflow, and at
    least one. *)
Theorem offered_workflow_selects_its_records
    (tz : Z) (data : list Schema.ExecutionLog) (f : Filters.ExecutionFilters) :
  NoDup (FiltersBar.uniqueWorkflows data)
  /\ Terms.ascending (FiltersBar.uniqueWorkflows data)
  /\ (forall w,
        In w (FiltersBar.uniqueWorkflows data)
        <-> (w <> EmptyString
             /\ exists item, In item data /\ Schema.workflow_name item = w))
  /\ (forall w,
        In w (FiltersBar.uniqueWorkflows data) ->
        w <> "all"%string ->
        Js.truthy (Filters.modeFilter f) = false ->
        Filters.dateRange f = None ->
        Dashboard.filteredForCounts tz data (FiltersBar.selectWorkflow f w)
        = Terms.named w data
        /\ Terms.named w data <> []).
Proof.
  pose (key := fun item : Schema.ExecutionLog =>
                 if Js.truthy (Some (Schema.workflow_name item))
                 then Some (Schema.workflow_name item) else None).
  assert (Hstep : forall acc a,
            FiltersBar.addWorkflow acc a
            = match key a with Some k => StrColl.add k acc | None => acc end).
  { intros acc a. unfold FiltersBar.addWorkflow, key.
    destruct (Js.truthy (Some (Schema.workflow_name a))); reflexivity. }
  destruct (sorted_set _ key FiltersBar.addWorkflow Hstep data)
    as (Hnd & Hasc & Hin).
  assert (Hoffered : forall w,
            In w (FiltersBar.uniqueWorkflows data)
            <-> (w <> EmptyString
                 /\ exists item, In item data /\ Schema.workflow_name item = w)).
  { intros w. unfold FiltersBar.uniqueWorkflows. rewrite Hin. unfold key. split.
    - intros (a & Ha & Hk).
      destruct (Js.truthy (Some (Schema.workflow_name a))) eqn:Et; [|discriminate].
      injection Hk as <-. split.
      + intros E. rewrite E in Et. discriminate Et.
      + exists a. tauto.
    - intros (Hne & a & Ha & <-). exists a. split; [exact Ha|].
      simpl. destruct (String.eqb_spec (Schema.workflow_name a) EmptyString);
        [tauto | reflexivity]. }
  split; [exact Hnd|]. split; [exact Hasc|]. split; [exact Hoffered|].
  intros w Hw Hall Hmode Hdate.
  apply Hoffered in Hw. destruct Hw as (Hne & item & Hitem & Hname).
  split.
  - unfold Dashboard.filteredForCounts, Terms.named.
    apply filter_ext. intros e.
    unfold Filters.passesCountFilters, Filters.workflow_rejects,
      Filters.mode_rejects, Filters.date_rejects, FiltersBar.selectWorkflow.
    cbn [Filters.workflowFilter Filters.modeFilter Filters.dateRange].
    destruct (String.eqb_spec w "all"); [tauto|].
    rewrite Hdate.
    assert (Hm : match Filters.modeFilter f with
                 | Some m =>
                     andb (Js.truthy (Some m))
                       (negb match Schema.mode e with
                             | Some m' => String.eqb m' m
                             | None => false
                             end)
                 | None => false
                 end = false).
    { destruct (Filters.modeFilter f); [rewrite Hmode|]; reflexivity. }
    rewrite Hm. simpl.
    destruct (String.eqb_spec w EmptyString); [tauto|]. simpl.
    destruct (String.eqb (Schema.workflow_name e) w); reflexivity.
  - intros Hnil.
    assert (Hin' : In item (Terms.named w data)).
    { apply filter_In. split; [exact Hitem|]. apply String.eqb_eq. exact Hname. }
    rewrite Hnil in Hin'. exact Hin'.
Qed.

Lemma offered_workflow_selects_its_records_witness :
  Dashboard.filteredForCounts 0 Fixtures.mixed
    (FiltersBar.selectWorkflow Filters.none "Sync")
  = Terms.named "Sync" Fixtures.mixed
  /\ Terms.named "Sync" Fixtures.mixed <> [].
Proof.
  apply (proj2 (proj2 (proj2 (offered_workflow_selects_its_records 0
                                Fixtures.mixed Filters.none))) "Sync"%string).
  - vm_compute. tauto.
  - discriminate.
  - reflexivity.
  - reflexivity.
Defined.

(* ================================================================== *)
(** ** The workflows endpoint *)

Section StrMapFacts.
Context {V : Type}.
Implicit Types (m : StrColl.StrMap V) (k : string) (v : V).

Lemma str_get_none_keys k m :
  StrColl.get k m = None <-> ~ In k (map fst m).
Proof.
  induction m as [|[k' v'] t IH]; simpl; [tauto|].
  destruct (String.eqb_spec k k') as [->|Hne].
  - split; [discriminate | tauto].
  - rewrite IH. split; [intros H [E|E]; [congruence | tauto] | tauto].
Qed.

Lemma str_set_keys_present k v m :
  In k (map fst m) -> map fst (StrColl.set k v m) = map fst m.
Proof.
  induction m as [|[k' v'] t IH]; simpl; [tauto|].
  intros Hin. destruct (String.eqb_spec k k') as [->|Hne]; simpl; [reflexivity|].
  f_equal. apply IH. destruct Hin as [H|H]; [congruence | exact H].
Qed.

Lemma str_set_absent k v m :
  ~ In k (map fst m) -> StrColl.set k v m = m ++ [(k, v)].
Proof.
  induction m as [|[k' v'] t IH]; simpl; [reflexivity|].
  intros Hnin. destruct (String.eqb_spec k k') as [->|Hne]; [tauto|].
  f_equal. apply IH. tauto.
Qed.

Lemma str_set_keeps_nodup k v m :
  NoDup (map fst m) -> NoDup (map fst (StrColl.set k v m)).
Proof.
  intros Hnd. destruct (in_dec string_dec k (map fst m)) as [Hin|Hnin].
  - rewrite str_set_keys_present by exact Hin. exact Hnd.
  - rewrite str_set_absent by exact Hnin. rewrite map_app. simpl.
    apply NoDup_app; [exact Hnd | repeat constructor; simpl; tauto |].
    intros x Hx [<-|[]]. tauto.
Qed.

Lemma str_get_set_same k v m : StrColl.get k (StrColl.set k v m) = Some v.
Proof.
  induction m as [|[k' v'] t IH]; simpl.
  - rewrite String.eqb_refl. reflexivity.
  - destruct (String.eqb_spec k k') as [->|Hne]; simpl.
    + rewrite String.eqb_refl. reflexivity.
    + destruct (String.eqb_spec k k'); [tauto | exact IH].
Qed.

Lemma str_get_set_other k v m d :
  d <> k -> StrColl.get d (StrColl.set k v m) = StrColl.get d m.
Proof.
  intros Hne. induction m as [|[k' v'] t IH]; simpl.
  - destruct (String.eqb_spec d k); [tauto | reflexivity].
  - destruct (String.eqb_spec k k') as [->|Hne']; simpl.
    + destruct (String.eqb_spec d k'); [tauto | reflexivity].
    + destruct (String.eqb_spec d k'); [reflexivity | exact IH].
Qed.

Lemma str_get_in k v m :
  NoDup (map fst m) -> (In (k, v) m <-> StrColl.get k m = Some v).
Proof.
  induction m as [|[k' v'] t IH]; simpl; intros Hnd.
  - split; [tauto | discriminate].
  - inversion Hnd as [|? ? Hnin Hnd']; subst.
    destruct (String.eqb_spec k k') as [->|Hne].
    + split.
      * intros [E|Hin]; [congruence|].
        exfalso. apply Hnin. apply (in_map fst) in Hin. exact Hin.
      * intros E. left. congruence.
    + rewrite <- (IH Hnd'). split; [intros [E|H]; [congruence | exact H] | tauto].
Qed.

(** How a figure summed over the map moves when a key is set. *)
Lemma str_set_sum (f : V -> nat) (zero : V) k v m :
  f zero = 0%nat ->
  (Terms.sum_by (fun e => f (snd e)) (StrColl.set k v m)
   + f match StrColl.get k m with Some g => g | None => zero end
   = Terms.sum_by (fun e => f (snd e)) m + f v)%nat.
Proof.
  intros Hz. induction m as [|[k' v'] t IH]; simpl.
  - lia.
  - destruct (String.eqb_spec k k') as [->|Hne]; simpl; lia.
Qed.

End StrMapFacts.

Section Grouping.

Lemma named_app name l1 l2 :
  Terms.named name (l1 ++ l2) = Terms.named name l1 ++ Terms.named name l2.
Proof. apply filter_app. Qed.

Lemma tally_app s l1 l2 :
  Spec.tally s (l1 ++ l2) = (Spec.tally s l1 + Spec.tally s l2)%nat.
Proof. induction l1 as [|e t IH]; simpl; [reflexivity|]. rewrite IH. lia. Qed.

Lemma known_durations_app l1 l2 :
  Spec.known_durations (l1 ++ l2)
  = Spec.known_durations l1 ++ Spec.known_durations l2.
Proof.
  induction l1 as [|e t IH]; simpl; [reflexivity|].
  destruct (Schema.duration_ms e); simpl; rewrite IH; reflexivity.
Qed.

Lemma group_eq (a b : Routes.Group) :
  Routes.g_total_executions a = Routes.g_total_executions b ->
  Routes.g_successful a = Routes.g_successful b ->
  Routes.g_failed a = Routes.g_failed b ->
  Routes.g_durations a = Routes.g_durations b -> a = b.
Proof. destruct a, b; simpl; intros; subst; reflexivity. Qed.

Lemma accumulate_grouped m seen e :
  Terms.grouped m seen -> Terms.grouped (Routes.accumulate m e) (seen ++ [e]).
Proof.
  intros [Hnd Hget]. split; [apply str_set_keeps_nodup, Hnd|].
  intros name. unfold Routes.accumulate.
  destruct (String.eqb_spec (Schema.workflow_name e) name) as [Heq|Hne].
  - rewrite Heq, str_get_set_same.
    assert (Hnamed : Terms.named name (seen ++ [e]) = Terms.named name seen ++ [e]).
    { rewrite named_app. unfold Terms.named at 2. simpl.
      rewrite Heq, String.eqb_refl. reflexivity. }
    assert (Hmatch : forall (l : list Schema.ExecutionLog) (x : Routes.Group),
              match l ++ [e] with [] => None | _ :: _ => Some x end = Some x).
    { intros [|? ?] x; reflexivity. }
    rewrite Hnamed, Hmatch. f_equal.
    assert (Hex : match StrColl.get name m with
                  | Some g => g
                  | None => Routes.empty_group
                  end
                  = Terms.group_of name seen).
    { rewrite Hget. unfold Terms.group_of.
      destruct (Terms.named name seen); reflexivity. }
    rewrite Hex. unfold Terms.group_of. rewrite Hnamed.
    apply group_eq; simpl.
    + rewrite length_app. simpl. lia.
    + rewrite tally_app. simpl. destruct (Schema.status e); simpl; lia.
    + rewrite tally_app. simpl. destruct (Schema.status e); simpl; lia.
    + rewrite known_durations_app. simpl.
      destruct (Schema.duration_ms e); [reflexivity | rewrite app_nil_r; reflexivity].
  - rewrite str_get_set_other by congruence. rewrite Hget.
    assert (Hnamed : Terms.named name (seen ++ [e]) = Terms.named name seen).
    { rewrite named_app. unfold Terms.named at 2. simpl.
      destruct (String.eqb_spec (Schema.workflow_name e) name); [tauto|].
      apply app_nil_r. }
    unfold Terms.group_of. rewrite Hnamed. reflexivity.
Qed.

Lemma fold_accumulate_grouped rows : forall m seen,
  Terms.grouped m seen -> Terms.grouped (fold_left Routes.accumulate rows m) (seen ++ rows).
Proof.
  induction rows as [|e t IH]; intros m seen H; simpl.
  - rewrite app_nil_r. exact H.
  - replace (seen ++ e :: t) with ((seen ++ [e]) ++ t)
      by (rewrite <- app_assoc; reflexivity).
    apply IH, accumulate_grouped, H.
Qed.

Lemma grouped_all rows : Terms.grouped (fold_left Routes.accumulate rows []) rows.
Proof.
  apply (fold_accumulate_grouped rows [] []).
  split; [constructor | reflexivity].
Qed.

Lemma toWorkflowStats_figures name rows :
  Routes.toWorkflowStats (name, Terms.group_of name rows)
  = Terms.workflow_figures name rows.
Proof.
  unfold Routes.toWorkflowStats, Terms.workflow_figures, Terms.group_of. simpl.
  f_equal.
  rewrite ltb_length_pos, sum_fold_right. unfold Spec.mean, Server.of_nat.
  destruct (Spec.known_durations (Terms.named name rows)); reflexivity.
Qed.

End Grouping.

Section WorkflowTotals.

Lemma accumulate_bumped m e :
  Routes.accumulate m e
  = StrColl.set (Schema.workflow_name e)
      (Terms.bumped
         match StrColl.get (Schema.workflow_name e) m with
         | Some g => g
         | None => Routes.empty_group
         end e) m.
Proof. reflexivity. Qed.

Variable f : Routes.Group -> nat.
Variable delta : Schema.ExecutionLog -> nat.
Hypothesis f_empty : f Routes.empty_group = 0%nat.
Hypothesis f_bumped : forall g e, f (Terms.bumped g e) = (f g + delta e)%nat.

Lemma accumulate_sum m e :
  Terms.sum_by (fun x => f (snd x)) (Routes.accumulate m e)
  = (Terms.sum_by (fun x => f (snd x)) m + delta e)%nat.
Proof.
  rewrite accumulate_bumped.
  pose proof (str_set_sum f Routes.empty_group (Schema.workflow_name e)
                (Terms.bumped
                   match StrColl.get (Schema.workflow_name e) m with
                   | Some g => g
                   | None => Routes.empty_group
                   end e) m f_empty) as Hsum.
  rewrite f_bumped in Hsum. lia.
Qed.

Lemma fold_accumulate_sum rows : forall m,
  Terms.sum_by (fun x => f (snd x)) (fold_left Routes.accumulate rows m)
  = (Terms.sum_by (fun x => f (snd x)) m + Terms.sum_by delta rows)%nat.
Proof.
  induction rows as [|e t IH]; intros m; simpl; [lia|].
  rewrite IH, accumulate_sum. lia.
Qed.

End WorkflowTotals.

Section WorkflowReport.

Lemma sum_by_map {A B} (g : A -> B) (h : B -> nat) l :
  Terms.sum_by h (map g l) = Terms.sum_by (fun x => h (g x)) l.
Proof. induction l as [|x t IH]; simpl; [reflexivity|]. rewrite IH. reflexivity. Qed.

Lemma sum_by_ones {A} (l : list A) :
  Terms.sum_by (fun _ => 1%nat) l = List.length l.
Proof. induction l as [|x t IH]; simpl; [reflexivity|]. rewrite IH. reflexivity. Qed.

Lemma sum_by_tally s l :
  Terms.sum_by
    (fun e => if Schema.status_eqb (Schema.status e) s then 1%nat else 0%nat) l
  = Spec.tally s l.
Proof. induction l as [|x t IH]; simpl; [reflexivity|]. rewrite IH. reflexivity. Qed.

Lemma named_le name rows :
  (Spec.tally Schema.success (Terms.named name rows)
   + Spec.tally Schema.error (Terms.named name rows)
   <= List.length (Terms.named name rows))%nat.
Proof. rewrite (tally_partition (Terms.named name rows)). lia. Qed.

End WorkflowReport.

(** X4. With the store answering, the workflows handler reports each
    workflow that has a row of the requested instance exactly once (and
    no other); its entry holds the number of rows of that workflow, how
    many succeeded, how many failed, and the rounded mean of their known
    durations (0 when none is known); so every entry counts at least one
    execution and successes plus failures never exceed its total. *)
Theorem workflows_report_each_workflow
    (rows : list Schema.ExecutionLog) (instance : option string) :
  let matching := Server.eq_instance instance rows in
  exists out,
    Routes.workflowsHandler (Server.Rows rows) instance = Server.Json out
    /\ NoDup (map Routes.workflow_name out)
    /\ (forall name,
          In name (map Routes.workflow_name out)
          <-> Terms.named name matching <> [])
    /\ (forall ws,
          In ws out ->
          ws = Terms.workflow_figures (Routes.workflow_name ws) matching
          /\ (1 <= Routes.total_executions ws)%nat
          /\ (Routes.successful ws + Routes.failed ws
              <= Routes.total_executions ws)%nat).
Proof.
  intros matching.
  destruct (grouped_all matching) as [Hnd Hget].
  set (m := fold_left Routes.accumulate matching []) in *.
  assert (Hnames : map Routes.workflow_name (map Routes.toWorkflowStats m)
                   = map fst m).
  { rewrite map_map. apply map_ext. intros [k g]. reflexivity. }
  exists (map Routes.toWorkflowStats m).
  split; [reflexivity|]. split; [rewrite Hnames; exact Hnd|]. split.
  - intros name. rewrite Hnames. split.
    + intros Hin Hnil.
      assert (Hn : StrColl.get name m = None) by (rewrite Hget, Hnil; reflexivity).
      apply str_get_none_keys in Hn. tauto.
    + intros Hne. destruct (in_dec string_dec name (map fst m)) as [H|H]; [exact H|].
      apply str_get_none_keys in H. rewrite Hget in H.
      destruct (Terms.named name matching); [tauto | discriminate].
  - intros ws Hws. apply in_map_iff in Hws.
    destruct Hws as ([k g] & <- & Hkg).
    apply (str_get_in k g m Hnd) in Hkg. rewrite Hget in Hkg.
    destruct (Terms.named k matching) as [|e0 l0] eqn:En; [discriminate|].
    injection Hkg as <-.
    rewrite toWorkflowStats_figures. simpl Routes.workflow_name.
    split; [reflexivity|]. unfold Terms.workflow_figures. simpl.
    split; [rewrite En; simpl; lia | apply named_le].
Qed.

(** X5. For one and the same instance parameter, the per-workflow
    figures add up to the figures of the stats endpoint: the totals to
    totalExecutions, the successes to successCount, the failures to
    errorCount. *)
Theorem workflow_totals_match_stats
    (rows : list Schema.ExecutionLog) (instance : option string) :
  exists out stats,
    Routes.workflowsHandler (Server.Rows rows) instance = Server.Json out
    /\ Server.statsHandler (Server.Rows rows) instance = Server.Json stats
    /\ Terms.sum_by Routes.total_executions out = Schema.totalExecutions stats
    /\ Terms.sum_by Routes.successful out = Schema.successCount stats
    /\ Terms.sum_by Routes.failed out = Schema.errorCount stats.
Proof.
  eexists. eexists. split; [reflexivity|]. split; [reflexivity|].
  cbn [Server.run Server.data Server.or_empty].
  destruct (computeStats_fields (Server.eq_instance instance rows))
    as (St & S1 & S2 & _).
  rewrite St, S1, S2. clear St S1 S2.
  rewrite !sum_by_map.
  split; [|split].
  - rewrite (fold_accumulate_sum Routes.g_total_executions (fun _ => 1%nat)).
    + apply sum_by_ones.
    + reflexivity.
    + intros g e. simpl. lia.
  - rewrite (fold_accumulate_sum Routes.g_successful
               (fun e => if Schema.status_eqb (Schema.status e) Schema.success
                         then 1%nat else 0%nat)).
    + apply sum_by_tally.
    + reflexivity.
    + intros g e. simpl. destruct (Schema.status_eqb _ _); lia.
  - rewrite (fold_accumulate_sum Routes.g_failed
               (fun e => if Schema.status_eqb (Schema.status e) Schema.error
                         then 1%nat else 0%nat)).
    + apply sum_by_tally.
    + reflexivity.
    + intros g e. simpl. destruct (Schema.status_eqb _ _); lia.
Qed.

(* ================================================================== *)
(** ** More on the daily series *)

Section DayMapSums.
Context {V : Type}.

Lemma day_set_sum (f : V -> nat) (zero : V) k v (m : Coll.DayMap V) :
  f zero = 0%nat ->
  (Terms.sum_by (fun e => f (snd e)) (Coll.set k v m)
   + f match Coll.get k m with Some g => g | None => zero end
   = Terms.sum_by (fun e => f (snd e)) m + f v)%nat.
Proof.
  intros Hz. induction m as [|[k' v'] t IH]; simpl.
  - lia.
  - destruct (Z.eqb_spec k k') as [->|Hne]; simpl; lia.
Qed.

Lemma day_set_forall (P : V -> Prop) k v (m : Coll.DayMap V) :
  Forall (fun e => P (snd e)) m -> P v ->
  Forall (fun e => P (snd e)) (Coll.set k v m).
Proof.
  intros Hm Hv. induction m as [|[k' v'] t IH]; simpl.
  - repeat constructor. exact Hv.
  - inversion Hm; subst.
    destruct (Z.eqb k k'); constructor; auto.
Qed.

Lemma day_get_forall (P : V -> Prop) k (m : Coll.DayMap V) g :
  Forall (fun e => P (snd e)) m -> Coll.get k m = Some g -> P g.
Proof.
  induction m as [|[k' v'] t IH]; simpl; [discriminate|].
  intros Hm. inversion Hm; subst.
  destruct (Z.eqb k k'); [intros E; injection E as <-; assumption | auto].
Qed.

End DayMapSums.

Section ServerDaily.

Lemma aggregate_counted m e :
  Server.aggregate m e
  = Coll.set (Dates.utcDay (Schema.created_at e))
      (Terms.counted
         match Coll.get (Dates.utcDay (Schema.created_at e)) m with
         | Some b => b
         | None => Server.zero_bucket
         end e) m.
Proof. reflexivity. Qed.

Variable f : Server.Bucket -> nat.
Variable delta : Schema.ExecutionLog -> nat.
Hypothesis f_zero : f Server.zero_bucket = 0%nat.
Hypothesis f_counted : forall b e, f (Terms.counted b e) = (f b + delta e)%nat.

Lemma fold_aggregate_sum rows : forall m,
  Terms.sum_by (fun x => f (snd x)) (fold_left Server.aggregate rows m)
  = (Terms.sum_by (fun x => f (snd x)) m + Terms.sum_by delta rows)%nat.
Proof.
  induction rows as [|e t IH]; intros m; simpl; [lia|].
  rewrite IH, aggregate_counted.
  pose proof (day_set_sum f Server.zero_bucket
                (Dates.utcDay (Schema.created_at e))
                (Terms.counted
                   match Coll.get (Dates.utcDay (Schema.created_at e)) m with
                   | Some b => b
                   | None => Server.zero_bucket
                   end e) m f_zero) as H.
  rewrite f_counted in H. lia.
Qed.

End ServerDaily.

Section ServerDailyFacts.

(** Whatever the zone, the seeding loop leaves zero buckets only. *)
Lemma seed_zeros zone now days m :
  Server.seed zone now days = Some m ->
  Forall (fun x => snd x = Server.zero_bucket) m.
Proof.
  unfold Server.seed.
  apply (forEach_invariant (Server.seedTurn zone now days)
           (fun m => Forall (fun x => snd x = Server.zero_bucket) m)).
  - intros b i b' Hb. unfold Server.seedTurn.
    destruct (Dates.isoDay (Dates.minusDays zone now (days - i)));
      [|discriminate].
    intros E. injection E as <-.
    apply (day_set_forall (fun v => v = Server.zero_bucket));
      [exact Hb | reflexivity].
  - constructor.
Qed.

Lemma seed_sum (f : Server.Bucket -> nat) zone now days m :
  f Server.zero_bucket = 0%nat ->
  Server.seed zone now days = Some m ->
  Terms.sum_by (fun x => f (snd x)) m = 0%nat.
Proof.
  intros Hz Hs. apply seed_zeros in Hs.
  induction Hs as [|x t Hx _ IH]; simpl; [reflexivity|].
  rewrite Hx, Hz, IH. reflexivity.
Qed.

Lemma seed_sound zone now days m :
  Server.seed zone now days = Some m ->
  Forall (fun e => Terms.sound_bucket (snd e)) m.
Proof.
  intros Hs. apply seed_zeros in Hs.
  eapply Forall_impl; [|exact Hs].
  intros x ->. unfold Terms.sound_bucket. simpl. lia.
Qed.

Lemma aggregate_sound m e :
  Forall (fun x => Terms.sound_bucket (snd x)) m ->
  Forall (fun x => Terms.sound_bucket (snd x)) (Server.aggregate m e).
Proof.
  intros Hm. unfold Server.aggregate. apply day_set_forall; [exact Hm|].
  assert (He : Terms.sound_bucket
                 match Coll.get (Dates.utcDay (Schema.created_at e)) m with
                 | Some b => b
                 | None => Server.zero_bucket
                 end).
  { destruct (Coll.get (Dates.utcDay (Schema.created_at e)) m) eqn:Eg.
    - apply (day_get_forall Terms.sound_bucket _ _ _ Hm Eg).
    - unfold Terms.sound_bucket. simpl. lia. }
  unfold Terms.sound_bucket in *. simpl.
  destruct (Schema.status e); simpl; lia.
Qed.

Lemma fold_aggregate_sound rows : forall m,
  Forall (fun x => Terms.sound_bucket (snd x)) m ->
  Forall (fun x => Terms.sound_bucket (snd x))
    (fold_left Server.aggregate rows m).
Proof.
  induction rows as [|e t IH]; intros m H; simpl; [exact H|].
  apply IH, aggregate_sound, H.
Qed.

Lemma fold_aggregate_same_keys rows : forall m,
  (forall e, In e rows -> In (Dates.utcDay (Schema.created_at e)) (map fst m)) ->
  map fst (fold_left Server.aggregate rows m) = map fst m.
Proof.
  induction rows as [|e t IH]; intros m H; simpl; [reflexivity|].
  assert (Hk : map fst (Server.aggregate m e) = map fst m).
  { apply set_keys_present. apply H. left. reflexivity. }
  rewrite IH; [exact Hk|].
  intros e' He'. rewrite Hk. apply H. right. exact He'.
Qed.


Lemma filter_perm {A} (f : A -> bool) l l' :
  Permutation l l' -> Permutation (filter f l) (filter f l').
Proof.
  induction 1; simpl.
  - constructor.
  - destruct (f x); [constructor|]; assumption.
  - destruct (f x), (f y); try apply perm_swap; apply Permutation_refl.
  - eapply Permutation_trans; eassumption.
Qed.

(** The query of the daily handler returns the rows of the instance
    created since the start date, in some order. *)
Lemma dailyQuery_created_since startDate instance rows :
  Permutation (Server.dailyQuery startDate instance rows)
    (Spec.created_since startDate instance rows).
Proof.
  unfold Server.dailyQuery, Spec.created_since.
  set (p := fun e : Schema.ExecutionLog => startDate <=? Schema.created_at e).
  assert (Hsort : Permutation (Server.order_created_asc (filter p rows))
                    (filter p rows)) by apply sort_by_perm.
  assert (Hsplit : forall q : Schema.ExecutionLog -> bool,
            filter q (filter p rows) = filter (fun e => andb (p e) (q e)) rows).
  { intros q. clear Hsort. induction rows as [|e t IH]; simpl; [reflexivity|].
    destruct (p e); simpl; [destruct (q e)|]; rewrite IH; reflexivity. }
  unfold Server.eq_instance, Spec.of_instance, Spec.inactive, Js.truthy.
  destruct instance as [i|].
  - destruct (String.eqb i EmptyString); cbn [negb orb].
    + eapply Permutation_trans; [exact Hsort|].
      rewrite <- (filter_all_true (fun _ => true) (filter p rows)) at 1
        by reflexivity.
      rewrite Hsplit. apply Permutation_refl.
    + eapply Permutation_trans; [apply filter_perm, Hsort|].
      rewrite Hsplit. unfold Server.instance_is. apply Permutation_refl.
  - eapply Permutation_trans; [exact Hsort|].
    rewrite <- (filter_all_true (fun _ => true) (filter p rows)) at 1
      by reflexivity.
    rewrite Hsplit. apply Permutation_refl.
Qed.






End ServerDailyFacts.


(** Across a change of offset [setDate] does not move by 24 hours: in
    New York at 00:30 UTC on 3 November 2025, with a window of 2 days,
    the seeding loop names 31 October, 1 November and 3 November. *)
Lemma seeding_across_a_clock_change :
  Server.seed Samples.newYork (Samples.day1 + 1800000) 2
  = Some [(20392, Server.zero_bucket); (20393, Server.zero_bucket);
          (20395, Server.zero_bucket)]
  /\ Dates.utcDay (Samples.day1 + 1800000) = 20395.
Proof. vm_compute. split; reflexivity. Qed.



(** X6. Whenever the daily handler answers with a series, in whatever
    zone the server runs, every row its query returned is counted in
    exactly one bucket: the totals of the series add up to the number
    of those rows, the success and error figures to their numbers of
    successes and errors, and in no bucket do successes plus errors
    exceed the total. *)
Theorem daily_series_counts_every_row
    (zone : Dates.TimeZone) (now : Z) (rows : list Schema.ExecutionLog)
    (days_param instance : option string) (out : list Schema.DailyStats) :
  Server.dailyHandler zone (Server.Rows rows) now days_param instance
  = Server.Json out ->
  exists startDate,
    Dates.minusDays zone now (Server.days_of days_param) = Some startDate
    /\ (let since := Spec.created_since startDate instance rows in
        Terms.sum_by Schema.total out = List.length since
        /\ Terms.sum_by Schema.success_n out = Spec.tally Schema.success since
        /\ Terms.sum_by Schema.error_n out = Spec.tally Schema.error since
        /\ Forall (fun d => (Schema.success_n d + Schema.error_n d
                             <= Schema.total d)%nat) out).
Proof.
  unfold Server.dailyHandler.
  destruct (Dates.minusDays zone now (Server.days_of days_param))
    as [startDate|]; [|discriminate].
  cbn [Server.run Server.error Server.data Server.or_empty].
  set (queried := Server.dailyQuery startDate instance rows).
  unfold Server.dailyMap.
  destruct (Server.seed zone now (Server.days_of days_param))
    as [seeded|] eqn:Eseed; [|discriminate].
  destruct (Server.forEach Server.aggregateTurn queried seeded)
    as [final|] eqn:Efinal; [|discriminate].
  apply forEach_aggregate_inv in Efinal. subst final.
  intros E. injection E as <-.
  exists startDate. split; [reflexivity|]. cbv zeta.
  pose proof (dailyQuery_created_since startDate instance rows) as Hperm.
  fold queried in Hperm.
  rewrite <- (Permutation_length Hperm), <- !(tally_perm _ _ _ Hperm).
  rewrite !sum_by_map.
  split; [|split; [|split]].
  - rewrite (fold_aggregate_sum (fun b => Server.b_total b) (fun _ => 1%nat)).
    + rewrite (seed_sum _ _ _ _ _ eq_refl Eseed). apply sum_by_ones.
    + reflexivity.
    + intros b e. simpl. lia.
  - rewrite (fold_aggregate_sum (fun b => Server.b_success b)
               (fun e => if Schema.status_eqb (Schema.status e) Schema.success
                         then 1%nat else 0%nat)).
    + rewrite (seed_sum _ _ _ _ _ eq_refl Eseed). apply sum_by_tally.
    + reflexivity.
    + intros b e. simpl.
      destruct (Schema.status_eqb (Schema.status e) Schema.success); lia.
  - rewrite (fold_aggregate_sum (fun b => Server.b_error b)
               (fun e => if Schema.status_eqb (Schema.status e) Schema.error
                         then 1%nat else 0%nat)).
    + rewrite (seed_sum _ _ _ _ _ eq_refl Eseed). apply sum_by_tally.
    + reflexivity.
    + intros b e. simpl. destruct (Schema.status e); simpl; lia.
  - apply Forall_map.
    pose proof (fold_aggregate_sound queried seeded
                  (seed_sound _ _ _ _ Eseed)) as Hs.
    eapply Forall_impl; [|exact Hs].
    intros [d b] Hb. exact Hb.
Qed.

(** In New York, across the clock change, the two rows of 3 November
    are both in the series the handler answers with. *)
Lemma daily_series_counts_every_row_witness :
  exists out,
    Server.dailyHandler Samples.newYork Samples.small
      (Samples.day1 + 1800000) (Some "2"%string) None
    = Server.Json out
    /\ Terms.sum_by Schema.total out = 2%nat.
Proof.
  destruct (daily_series_counts_every_row Samples.newYork
              (Samples.day1 + 1800000) Samples.two_records
              (Some "2"%string) None _ eq_refl)
    as (startDate & Hs & Ht & _).
  eexists. split; [reflexivity|].
  vm_compute in Hs. injection Hs as <-. exact Ht.
Defined.



(* ================================================================== *)
(** ** The daily buckets the page computes *)

Section ClientDaily.
Variable tz : Z.

Lemma group_tallied m e started :
  Schema.started_at e = Some started ->
  Dashboard.group tz m e
  = Coll.set (Dates.localDay tz started)
      (Terms.tallied
         match Coll.get (Dates.localDay tz started) m with
         | Some b => b
         | None => Server.zero_bucket
         end e) m.
Proof. intros H. unfold Dashboard.group. rewrite H. reflexivity. Qed.

Lemma group_undated m e :
  Schema.started_at e = None -> Dashboard.group tz m e = m.
Proof. intros H. unfold Dashboard.group. rewrite H. reflexivity. Qed.

Variable f : Server.Bucket -> nat.
Variable delta : Schema.ExecutionLog -> nat.
Hypothesis f_zero : f Server.zero_bucket = 0%nat.
Hypothesis f_tallied : forall b e, f (Terms.tallied b e) = (f b + delta e)%nat.

Lemma fold_group_sum rows : forall m,
  Terms.sum_by (fun x => f (snd x)) (fold_left (Dashboard.group tz) rows m)
  = (Terms.sum_by (fun x => f (snd x)) m
     + Terms.sum_by delta (Terms.dated rows))%nat.
Proof.
  induction rows as [|e t IH]; intros m; simpl; [lia|].
  rewrite IH. destruct (Schema.started_at e) as [started|] eqn:Es.
  - rewrite (group_tallied m e started Es). simpl.
    pose proof (day_set_sum f Server.zero_bucket (Dates.localDay tz started)
                  (Terms.tallied
                     match Coll.get (Dates.localDay tz started) m with
                     | Some b => b
                     | None => Server.zero_bucket
                     end e) m f_zero) as H.
    rewrite f_tallied in H. lia.
  - rewrite (group_undated m e Es). reflexivity.
Qed.

End ClientDaily.

Section ClientDailyFacts.
Variable tz : Z.

Lemma group_filled m e :
  Forall (fun x => (1 <= Server.b_total (snd x))%nat
                   /\ Terms.sound_bucket (snd x)) m ->
  Forall (fun x => (1 <= Server.b_total (snd x))%nat
                   /\ Terms.sound_bucket (snd x)) (Dashboard.group tz m e).
Proof.
  intros Hm. destruct (Schema.started_at e) as [started|] eqn:Es.
  - rewrite (group_tallied tz m e started Es).
    apply (day_set_forall
             (fun b => (1 <= Server.b_total b)%nat /\ Terms.sound_bucket b));
      [exact Hm|].
    assert (He : Terms.sound_bucket
                   match Coll.get (Dates.localDay tz started) m with
                   | Some b => b
                   | None => Server.zero_bucket
                   end).
    { destruct (Coll.get (Dates.localDay tz started) m) eqn:Eg.
      - apply (day_get_forall
                 (fun b => (1 <= Server.b_total b)%nat /\ Terms.sound_bucket b)
                 _ _ _ Hm Eg).
      - unfold Terms.sound_bucket. simpl. lia. }
    unfold Terms.sound_bucket in *. simpl.
    destruct (Schema.status e); simpl; lia.
  - rewrite (group_undated tz m e Es). exact Hm.
Qed.

Lemma fold_group_filled rows : forall m,
  Forall (fun x => (1 <= Server.b_total (snd x))%nat
                   /\ Terms.sound_bucket (snd x)) m ->
  Forall (fun x => (1 <= Server.b_total (snd x))%nat
                   /\ Terms.sound_bucket (snd x))
    (fold_left (Dashboard.group tz) rows m).
Proof.
  induction rows as [|e t IH]; intros m H; simpl; [exact H|].
  apply IH, group_filled, H.
Qed.

Lemma sum_by_perm {A} (g : A -> nat) l l' :
  Permutation l l' -> Terms.sum_by g l = Terms.sum_by g l'.
Proof. induction 1; simpl; lia. Qed.

Lemma dated_undated_length l :
  List.length l
  = (List.length (Terms.dated l) + List.length (Terms.undated l))%nat.
Proof.
  induction l as [|e t IH]; simpl; [reflexivity|].
  destruct (Schema.started_at e); simpl; lia.
Qed.

End ClientDailyFacts.

(** X8. With a workflow, mode or date filter active, the daily buckets
    the page computes come in ascending order of date; each holds at
    least one execution and never more successes plus errors than its
    total; their totals add up to the number of count-eligible records
    that have a start time.  Records without a start time are in no
    bucket: totalExecutions of the stat cards exceeds the sum of the
    chart by their number. *)
Theorem page_daily_buckets
    (tz : Z) (records : list Schema.ExecutionLog)
    (f : Filters.ExecutionFilters) (daily : option (list Schema.DailyStats))
    (stats : option Schema.ExecutionStats) :
  Dashboard.hasCountFilters f = true ->
  let out := Dashboard.filteredDailyStats tz (Some records) f daily in
  let eligible := Spec.countSet tz f records in
  Terms.ascending_by_date out
  /\ Forall (fun d => (1 <= Schema.total d)%nat
                      /\ (Schema.success_n d + Schema.error_n d
                          <= Schema.total d)%nat) out
  /\ Terms.sum_by Schema.total out = List.length (Terms.dated eligible)
  /\ Terms.sum_by Schema.success_n out
     = Spec.tally Schema.success (Terms.dated eligible)
  /\ Terms.sum_by Schema.error_n out
     = Spec.tally Schema.error (Terms.dated eligible)
  /\ exists s,
       Dashboard.filteredStats tz (Some records) f stats = Some s
       /\ Schema.totalExecutions s
          = (Terms.sum_by Schema.total out
             + List.length (Terms.undated eligible))%nat.
Proof.
  intros Hc out eligible.
  set (byDate := fold_left (Dashboard.group tz) eligible []).
  assert (Hout : out = Coll.sort_by
                         (fun a b => String.leb (Schema.date a) (Schema.date b))
                         (map Dashboard.toDailyStats byDate)).
  { unfold out, Dashboard.filteredDailyStats, byDate, eligible.
    rewrite Hc, countSet_filtered. reflexivity. }
  assert (Hperm : Permutation out (map Dashboard.toDailyStats byDate)).
  { rewrite Hout. apply sort_by_perm. }
  assert (Htotal : Terms.sum_by Schema.total out
                   = List.length (Terms.dated eligible)).
  { rewrite (sum_by_perm _ _ _ Hperm), sum_by_map.
    unfold byDate.
    rewrite (fold_group_sum tz (fun b => Server.b_total b) (fun _ => 1%nat)).
    - simpl. apply sum_by_ones.
    - reflexivity.
    - intros b e. simpl. lia. }
  split; [|split; [|split; [|split; [|split]]]].
  - rewrite Hout. unfold Terms.ascending_by_date.
    apply sort_by_sorted. intros a b. apply String.leb_total.
  - apply (Permutation_Forall (Permutation_sym Hperm)).
    apply Forall_map.
    pose proof (fold_group_filled tz eligible [] (Forall_nil _)) as Hf.
    eapply Forall_impl; [|exact Hf].
    intros [d b] Hb. exact Hb.
  - exact Htotal.
  - rewrite (sum_by_perm _ _ _ Hperm), sum_by_map. unfold byDate.
    rewrite (fold_group_sum tz (fun b => Server.b_success b)
               (fun e => if Schema.status_eqb (Schema.status e) Schema.success
                         then 1%nat else 0%nat)).
    + simpl. apply sum_by_tally.
    + reflexivity.
    + intros b e. simpl.
      destruct (Schema.status_eqb (Schema.status e) Schema.success); lia.
  - rewrite (sum_by_perm _ _ _ Hperm), sum_by_map. unfold byDate.
    rewrite (fold_group_sum tz (fun b => Server.b_error b)
               (fun e => if Schema.status_eqb (Schema.status e) Schema.error
                         then 1%nat else 0%nat)).
    + simpl. apply sum_by_tally.
    + reflexivity.
    + intros b e. simpl.
      destruct (Schema.status_eqb (Schema.status e) Schema.error); lia.
  - assert (Hany : Dashboard.hasAnyFilters f = true).
    { unfold Dashboard.hasAnyFilters. rewrite Hc. reflexivity. }
    destruct (filteredStats_active tz records f stats Hany)
      as (s & Hs & Ht & _).
    exists s. split; [exact Hs|].
    rewrite Ht, Htotal. apply dated_undated_length.
Qed.

Lemma page_daily_buckets_witness :
  Terms.sum_by Schema.total
    (Dashboard.filteredDailyStats 0 (Some Fixtures.mixed)
       (Samples.onlyWorkflow "A") None)
  = List.length
      (Terms.dated (Spec.countSet 0 (Samples.onlyWorkflow "A") Fixtures.mixed)).
Proof.
  destruct (page_daily_buckets 0 Fixtures.mixed (Samples.onlyWorkflow "A")
              None None eq_refl) as (_ & _ & Ht & _).
  exact Ht.
Defined.

(* ================================================================== *)
(** ** The table, the stat cards and the status click *)

Section TableAndCards.


Lemma passesAllFilters_split tz f item :
  Table.passesAllFilters tz f item
  = andb (Filters.passesCountFilters tz f item)
         (Spec.matchesStatusFilter f item).
Proof.
  unfold Table.passesAllFilters, Filters.passesCountFilters,
    Spec.matchesStatusFilter, Filters.status_is.
  destruct (Filters.statusFilter f) as [s|];
    [destruct (Js.truthy (Some s))|];
    simpl;
    destruct (Filters.workflow_rejects f item),
      (Filters.mode_rejects f item), (Filters.date_rejects tz f item);
    simpl; try reflexivity;
    destruct (String.eqb (Schema.status_string (Schema.status item)) s);
    reflexivity.
Qed.

End TableAndCards.


Section StatusClick.
Import Filters.

Lemma with_status_same f : with_status f (statusFilter f) = f.
Proof. destruct f; reflexivity. Qed.

Lemma handleStatusClick_shape f s :
  exists x, Page.handleStatusClick f s = with_status f x
            /\ (x = None \/ x = Some s).
Proof.
  unfold Page.handleStatusClick.
  destruct (statusFilter f) as [t|]; [destruct (String.eqb t s)|]; eauto.
Qed.

End StatusClick.

(** X10. A click on a status card changes nothing but the status
    filter; it selects the status, or clears the filter when that status
    was the selected one.  Clicking the same card twice gives back the
    filter state whenever the status filter was empty or that status. *)
Theorem status_click_toggles
    (f : Filters.ExecutionFilters) (s : string) :
  let f' := Page.handleStatusClick f s in
  Filters.instanceFilter f' = Filters.instanceFilter f
  /\ Filters.workflowFilter f' = Filters.workflowFilter f
  /\ Filters.modeFilter f' = Filters.modeFilter f
  /\ Filters.dateRange f' = Filters.dateRange f
  /\ Filters.statusFilter f'
     = (if match Filters.statusFilter f with
           | Some t => String.eqb t s
           | None => false
           end then None else Some s)
  /\ ((Filters.statusFilter f = None \/ Filters.statusFilter f = Some s) ->
      Page.handleStatusClick f' s = f).
Proof.
  cbv zeta. unfold Page.handleStatusClick.
  destruct f as [i st w m d]. simpl.
  destruct st as [t|]; simpl.
  - destruct (String.eqb_spec t s) as [->|Hne]; simpl;
      do 5 (split; [reflexivity|]).
    + intros _. reflexivity.
    + intros [H|H]; [discriminate | congruence].
  - do 5 (split; [reflexivity|]).
    intros _. rewrite String.eqb_refl. reflexivity.
Qed.

(** X11. Whatever filters are set, a click on a status card leaves the
    daily series of the chart as it was; and with a workflow, mode or
    date filter active it leaves totalExecutions, the five per-status
    counts and the success rate as they were: only avgDurationMs can
    move. *)
Theorem status_click_keeps_chart_and_counts
    (tz : Z) (executions : option (list Schema.ExecutionLog))
    (f : Filters.ExecutionFilters) (s : string)
    (stats : option Schema.ExecutionStats)
    (daily : option (list Schema.DailyStats)) :
  let f' := Page.handleStatusClick f s in
  Dashboard.filteredDailyStats tz executions f' daily
  = Dashboard.filteredDailyStats tz executions f daily
  /\ (Dashboard.hasCountFilters f = true ->
      forall records, executions = Some records ->
      exists before after,
        Dashboard.filteredStats tz executions f stats = Some before
        /\ Dashboard.filteredStats tz executions f' stats = Some after
        /\ Spec.same_counts after before
        /\ Schema.successRate after = Schema.successRate before).
Proof.
  cbv zeta.
  destruct (handleStatusClick_shape f s) as (x & -> & _).
  split; [reflexivity|].
  intros Hc records ->.
  assert (Hany : Dashboard.hasAnyFilters f = true).
  { unfold Dashboard.hasAnyFilters. rewrite Hc. reflexivity. }
  assert (Hany' : Dashboard.hasAnyFilters (Filters.with_status f x) = true).
  { unfold Dashboard.hasAnyFilters.
    change (Dashboard.hasCountFilters (Filters.with_status f x))
      with (Dashboard.hasCountFilters f).
    rewrite Hc. reflexivity. }
  destruct (filteredStats_active tz records f stats Hany)
    as (b & Hb & Bt & B1 & B2 & B3 & B4 & B5 & _ & Brate).
  destruct (filteredStats_active tz records (Filters.with_status f x) stats Hany')
    as (a & Ha & At & A1 & A2 & A3 & A4 & A5 & _ & Arate).
  rewrite countSet_ignores_status in *.
  exists b, a. split; [exact Hb|]. split; [exact Ha|].
  assert (Hsame : Spec.same_counts a b).
  { unfold Spec.same_counts.
    rewrite At, A1, A2, A3, A4, A5, Bt, B1, B2, B3, B4, B5.
    repeat split; reflexivity. }
  split; [exact Hsame|].
  destruct Hsame as (Ct & C1 & _). rewrite Arate, Brate, Ct, C1. reflexivity.
Qed.

(* ================================================================== *)
(** ** The status distribution chart *)

Section ChartFacts.

Lemma slices_sum (s : Schema.ExecutionStats) :
  Terms.sum_by Chart.value (Chart.data (Some s))
  = (Schema.successCount s + Schema.errorCount s + Schema.runningCount s
     + Schema.waitingCount s + Schema.canceledCount s)%nat.
Proof.
  unfold Chart.data. simpl.
  destruct (Schema.successCount s), (Schema.errorCount s),
    (Schema.runningCount s), (Schema.waitingCount s),
    (Schema.canceledCount s); simpl; lia.
Qed.

Lemma slices_empty (s : Schema.ExecutionStats) :
  Chart.data (Some s) = []
  <-> (Schema.successCount s + Schema.errorCount s + Schema.runningCount s
       + Schema.waitingCount s + Schema.canceledCount s = 0)%nat.
Proof.
  unfold Chart.data. simpl.
  destruct (Schema.successCount s), (Schema.errorCount s),
    (Schema.runningCount s), (Schema.waitingCount s),
    (Schema.canceledCount s); simpl; split; intros H;
    try reflexivity; try discriminate H; try lia.
Qed.

End ChartFacts.

(** X12. Once the stats query has answered, the status chart of the
    page shows the "No execution data available" notice exactly when
    totalExecutions of the shown stats is 0; otherwise it shows a pie
    with one slice per status that occurs, at most five and none of
    them empty, whose values add up to totalExecutions. *)
Theorem chart_slices_partition_total
    (tz : Z) (st : Server.Store) (executions : option (list Schema.ExecutionLog))
    (f : Filters.ExecutionFilters) (s : Schema.ExecutionStats) :
  let stats := Dashboard.fetchStats st f in
  Dashboard.filteredStats tz executions f stats = Some s ->
  stats <> None ->
  (Schema.totalExecutions s = 0%nat ->
   Page.statusChart (Some s) stats = Chart.NoExecutionData)
  /\ (Schema.totalExecutions s <> 0%nat ->
      exists slices,
        Page.statusChart (Some s) stats = Chart.Pie slices
        /\ Forall (fun slice => (1 <= Chart.value slice)%nat) slices
        /\ (1 <= List.length slices <= 5)%nat
        /\ Terms.sum_by Chart.value slices = Schema.totalExecutions s).
Proof.
  intros stats Hs Hstats.
  assert (Hsum : Spec.sums_up s).
  { assert (Hserver : forall s', Dashboard.fetchStats st f = Some s' ->
                                  Spec.sums_up s').
    { intros s' Hs'. destruct (fetchStats_computed _ _ _ Hs') as [rows ->].
      apply computeStats_sums_up. }
    destruct executions as [records|]; [|apply Hserver; exact Hs].
    destruct (Dashboard.hasAnyFilters f) eqn:Hany.
    - destruct (filteredStats_active tz records f (Dashboard.fetchStats st f) Hany)
        as (s' & Hs' & Ht & H1 & H2 & H3 & H4 & H5 & _).
      unfold stats in Hs. rewrite Hs' in Hs. injection Hs as <-.
      unfold Spec.sums_up. rewrite Ht, H1, H2, H3, H4, H5.
      apply tally_partition.
    - unfold Dashboard.filteredStats in Hs. rewrite Hany in Hs. simpl in Hs.
      apply Hserver; exact Hs. }
  unfold Spec.sums_up in Hsum.
  unfold Page.statusChart, Page.statsErrorMessage,
    Chart.StatusDistributionChart.
  destruct stats as [s0|]; [|tauto].
  split.
  - intros Hz.
    assert (He : Chart.data (Some s) = []) by (apply slices_empty; lia).
    rewrite He. reflexivity.
  - intros Hnz.
    destruct (Chart.data (Some s)) as [|x t] eqn:Ed.
    + apply slices_empty in Ed. lia.
    + exists (x :: t). split; [reflexivity|]. rewrite <- Ed.
      split; [|split].
      * apply Forall_forall. intros slice Hin.
        unfold Chart.data in Hin. apply filter_In in Hin.
        destruct Hin as [_ Hpos]. apply Nat.ltb_lt in Hpos. lia.
      * split; [rewrite Ed; simpl; lia|].
        unfold Chart.data.
        eapply Nat.le_trans; [apply filter_length_le | simpl; lia].
      * rewrite slices_sum. lia.
Qed.

Lemma chart_slices_partition_total_witness :
  exists slices,
    Page.statusChart (Some (Server.computeStats Samples.two_records))
      (Dashboard.fetchStats Samples.small Filters.none)
    = Chart.Pie slices
    /\ Terms.sum_by Chart.value slices = 2%nat.
Proof.
  destruct (chart_slices_partition_total 0 Samples.small None Filters.none
              (Server.computeStats Samples.two_records) eq_refl)
    as (_ & Hpie).
  - discriminate.
  - destruct Hpie as (slices & Hv & _ & _ & Hsum); [discriminate|].
    exists slices. split; [exact Hv | exact Hsum].
Defined.

(* ================================================================== *)
(** ** The filter bar *)

(** X13. The badge of the filter bar counts the filters that are set,
    at most five, and is 0 exactly when the Reset button is hidden;
    after a reset it is 0 and the page shows the server's stats and
    series.  While the Reset button is hidden, the page recomputes its
    stats from the records exactly when it holds a date range without a
    [from]. *)
Theorem filter_bar_count_and_reset
    (tz : Z) (f : Filters.ExecutionFilters) :
  (FiltersBar.activeFilterCount f <= 5)%nat
  /\ (FiltersBar.activeFilterCount f = 0%nat
      <-> FiltersBar.hasActiveFilters f = false)
  /\ FiltersBar.activeFilterCount FiltersBar.resetFilters = 0%nat
  /\ (forall executions stats daily,
        Dashboard.filteredStats tz executions FiltersBar.resetFilters stats = stats
        /\ Dashboard.filteredDailyStats tz executions FiltersBar.resetFilters
             (Some daily) = daily)
  /\ (FiltersBar.hasActiveFilters f = false ->
      (Dashboard.hasAnyFilters f = true
       <-> exists range,
             Filters.dateRange f = Some range /\ Filters.from range = None)).
Proof.
  unfold FiltersBar.activeFilterCount, FiltersBar.hasActiveFilters.
  split; [|split; [|split; [|split]]].
  - eapply Nat.le_trans; [apply filter_length_le | simpl; lia].
  - destruct (Js.truthy (Filters.instanceFilter f)),
      (Js.truthy (Filters.statusFilter f)),
      (Js.truthy (Filters.workflowFilter f)),
      (Js.truthy (Filters.modeFilter f)), (FiltersBar.has_from f);
      simpl; split; intros H; try reflexivity; discriminate H.
  - reflexivity.
  - intros executions stats daily.
    unfold Dashboard.filteredStats, Dashboard.filteredDailyStats. simpl.
    destruct executions; split; reflexivity.
  - rewrite !orb_false_iff. intros [[[[Hi Hs] Hw] Hm] Hfrom].
    unfold Dashboard.hasAnyFilters, Dashboard.hasCountFilters.
    rewrite Hs, Hw, Hm. simpl. rewrite orb_false_r.
    unfold FiltersBar.has_from in Hfrom.
    destruct (Filters.dateRange f) as [range|]; simpl.
    + destruct (Filters.from range) eqn:Efrom; [discriminate Hfrom|].
      split; [|reflexivity]. intros _. exists range. tauto.
    + split; [discriminate|]. intros (range & H & _). discriminate H.
Qed.

(* ================================================================== *)
(** ** Instance URLs *)

Section InstanceUrls.
Import InstanceConfig.

Lemma strip_no_trailing_slash s :
  lastChar (stripTrailingSlashes s) <> Some "/"%char.
Proof.
  induction s as [|c r IH]; simpl; [discriminate|].
  destruct (stripTrailingSlashes r) as [|c' r'] eqn:Er.
  - destruct (Ascii.eqb_spec c "/"%char) as [->|Hne]; simpl; [discriminate|].
    intros H. injection H as ->. tauto.
  - simpl. simpl in IH. exact IH.
Qed.

Lemma lastChar_app p s :
  s <> EmptyString -> lastChar (p ++ s) = lastChar s.
Proof.
  intros Hs. induction p as [|c p IH]; simpl; [reflexivity|].
  rewrite IH. destruct (p ++ s)%string eqn:E; [|reflexivity].
  destruct p; simpl in E; [tauto | discriminate].
Qed.

Lemma afterProtocol_https s : afterProtocol ("https://" ++ s) = Some s.
Proof. reflexivity. Qed.

Lemma afterProtocol_http s : afterProtocol ("http://" ++ s) = Some s.
Proof.
  unfold afterProtocol. simpl.
  destruct s as [|c s']; [reflexivity|].
  destruct (Ascii.eqb (lower c) ":"); reflexivity.
Qed.

Lemma normalize_shape u :
  Js.truthy (Some u) = true ->
  let n := normalizeInstanceUrl (Some u) in
  afterProtocol n <> None
  /\ (lastChar n = Some "/"%char -> n = "https://"%string).
Proof.
  intros Ht. cbv zeta. unfold normalizeInstanceUrl. rewrite Ht.
  destruct (afterProtocol (stripTrailingSlashes (trim u))) eqn:Ea.
  - split; [rewrite Ea; discriminate|].
    intros H. exfalso. exact (strip_no_trailing_slash _ H).
  - split; [rewrite afterProtocol_https; discriminate|].
    intros H.
    destruct (stripTrailingSlashes (trim u)) as [|c r] eqn:Es; [reflexivity|].
    exfalso. rewrite lastChar_app in H by discriminate.
    rewrite <- Es in H. exact (strip_no_trailing_slash _ H).
Qed.

End InstanceUrls.

(** X14. The link to an execution exists exactly when the instance is
    neither null nor empty; it is then the normalised instance URL
    followed by /workflow/<workflow id>/executions/<execution id>, and
    the normalised URL always starts with http:// or https:// and ends
    with a slash only when nothing but the added "https://" is left of
    it. *)
Theorem execution_link_has_protocol
    (instance : option string) (workflowId executionId : string) :
  (InstanceConfig.buildN8nExecutionUrl instance workflowId executionId = None
   <-> Js.truthy instance = false)
  /\ (Js.truthy instance = true ->
      let base := InstanceConfig.normalizeInstanceUrl instance in
      InstanceConfig.buildN8nExecutionUrl instance workflowId executionId
      = Some (base ++ "/workflow/" ++ workflowId
              ++ "/executions/" ++ executionId)%string
      /\ InstanceConfig.afterProtocol base <> None
      /\ (InstanceConfig.lastChar base = Some "/"%char ->
          base = "https://"%string)).
Proof.
  unfold InstanceConfig.buildN8nExecutionUrl.
  destruct (Js.truthy instance) eqn:Et; split.
  - split; discriminate.
  - intros _. cbv zeta. split; [reflexivity|].
    destruct instance as [u|]; [|discriminate Et].
    apply (normalize_shape u Et).
  - split; reflexivity.
  - discriminate.
Qed.

(** X15. What is shown for an instance never ends with a slash; for a
    URL made of a protocol and a rest it is the rest without its
    trailing slashes; a host without protocol, surrounding white space
    or trailing slash is normalised to https://host and shown as
    itself again. *)
Theorem instance_display_round_trip :
  (forall instance,
     InstanceConfig.lastChar (InstanceConfig.formatInstanceForDisplay instance)
     <> Some "/"%char)
  /\ (forall rest,
        InstanceConfig.formatInstanceForDisplay (Some ("https://" ++ rest)%string)
        = InstanceConfig.stripTrailingSlashes rest
        /\ InstanceConfig.formatInstanceForDisplay (Some ("http://" ++ rest)%string)
           = InstanceConfig.stripTrailingSlashes rest)
  /\ (forall host,
        host <> EmptyString ->
        InstanceConfig.trim host = host ->
        InstanceConfig.stripTrailingSlashes host = host ->
        InstanceConfig.afterProtocol host = None ->
        InstanceConfig.normalizeInstanceUrl (Some host)
        = ("https://" ++ host)%string
        /\ InstanceConfig.formatInstanceForDisplay
             (Some (InstanceConfig.normalizeInstanceUrl (Some host)))
           = host).
Proof.
  split; [|split].
  - intros instance. unfold InstanceConfig.formatInstanceForDisplay.
    destruct instance as [i|]; [|discriminate].
    destruct (Js.truthy (Some i)); [|discriminate].
    apply strip_no_trailing_slash.
  - intros rest. split.
    + reflexivity.
    + unfold InstanceConfig.formatInstanceForDisplay.
      change (Js.truthy (Some ("http://" ++ rest)%string)) with true.
      cbv iota. rewrite afterProtocol_http. reflexivity.
  - intros host Hne Htrim Hstrip Hproto.
    assert (Hn : InstanceConfig.normalizeInstanceUrl (Some host)
                 = ("https://" ++ host)%string).
    { unfold InstanceConfig.normalizeInstanceUrl.
      assert (Ht : Js.truthy (Some host) = true).
      { simpl. destruct (String.eqb_spec host EmptyString); [tauto | reflexivity]. }
      rewrite Ht, Htrim, Hstrip, Hproto. reflexivity. }
    split; [exact Hn|]. rewrite Hn.
    unfold InstanceConfig.formatInstanceForDisplay.
    change (Js.truthy (Some ("https://" ++ host)%string)) with true.
    cbv iota. rewrite afterProtocol_https. exact Hstrip.
Qed.

(** X16. Whatever [N8N_HOST] holds, the instance the hook writes is
    never empty, so the dashboard can always build a link for the
    executions it logs, on a base URL that has a protocol; a host that
    does not start with "http" is written as https://host. *)
Theorem hook_instance_is_linkable
    (host : option string) (workflowId executionId : string) :
  let written := Hook.getN8nInstance host in
  Js.truthy (Some written) = true
  /\ InstanceConfig.buildN8nExecutionUrl (Some written) workflowId executionId
     <> None
  /\ InstanceConfig.afterProtocol
       (InstanceConfig.normalizeInstanceUrl (Some written)) <> None
  /\ (forall h, host = Some h -> h <> EmptyString ->
        Hook.startsWithHttp h = false -> written = ("https://" ++ h)%string)
  /\ (Js.truthy host = false -> written = "https://default"%string).
Proof.
  cbv zeta.
  assert (Ht : Js.truthy (Some (Hook.getN8nInstance host)) = true).
  { unfold Hook.getN8nInstance. destruct host as [h|]; [|reflexivity].
    destruct (Js.truthy (Some h)) eqn:Eh; [|reflexivity].
    destruct (Hook.startsWithHttp h); [exact Eh | reflexivity]. }
  split; [exact Ht|]. split; [|split; [|split]].
  - unfold InstanceConfig.buildN8nExecutionUrl. rewrite Ht. discriminate.
  - apply (normalize_shape _ Ht).
  - intros h -> Hne Hs. unfold Hook.getN8nInstance. rewrite Hs.
    simpl. destruct (String.eqb_spec h EmptyString); [tauto | reflexivity].
  - intros Hf. unfold Hook.getN8nInstance.
    destruct host as [h|]; [rewrite Hf|]; reflexivity.
Qed.

(* ================================================================== *)
(** ** Numeric query parameters, written in decimal *)

Section DecimalParameters.

Lemma digits_decimal u : forall a,
  Js.digits 10 (Some a) (NilEmpty.string_of_uint u)
  = Some (Terms.decimal_value a u).
Proof.
  induction u; intros a; simpl; try reflexivity; apply IHu.
Qed.

Lemma digits_decimal_start u :
  u <> Decimal.Nil ->
  Js.digits 10 None (NilEmpty.string_of_uint u)
  = Some (Terms.decimal_value 0 u).
Proof.
  destruct u; intros H; try tauto; simpl; apply digits_decimal.
Qed.

Lemma parse_unsigned_decimal u :
  u <> Decimal.Nil ->
  Js.signed (NilEmpty.string_of_uint u)
  = Js.digits 10 None (NilEmpty.string_of_uint u)
  /\ Js.unsigned (NilEmpty.string_of_uint u)
     = Js.digits 10 None (NilEmpty.string_of_uint u).
Proof.
  destruct u as [|u|u|u|u|u|u|u|u|u|u]; intros H; try tauto;
    destruct u; split; reflexivity.
Qed.

Lemma decimal_value_acc u : forall p,
  Z.pos (Pos.of_uint_acc u p) = Terms.decimal_value (Z.pos p) u.
Proof.
  induction u; intros p;
    cbn [Pos.of_uint_acc Terms.decimal_value]; try reflexivity;
    rewrite IHu; f_equal; lia.
Qed.

Lemma decimal_value_of_uint u :
  Z.of_N (Pos.of_uint u) = Terms.decimal_value 0 u.
Proof.
  induction u; cbn [Pos.of_uint Terms.decimal_value Z.of_N];
    try reflexivity; try exact IHu;
    rewrite decimal_value_acc; reflexivity.
Qed.

Lemma decimal_value_to_uint p :
  Terms.decimal_value 0 (Pos.to_uint p) = Z.pos p.
Proof.
  rewrite <- decimal_value_of_uint, DecimalPos.Unsigned.of_to. reflexivity.
Qed.

(** [parseInt] reads back the integer that was written. *)
Lemma signed_show n : Js.signed (Js.show n) = Some n.
Proof.
  unfold Js.show. destruct n as [|p|p].
  - reflexivity.
  - simpl Z.to_int. unfold NilZero.string_of_int, NilZero.string_of_uint.
    pose proof (Unsigned.to_uint_nonnil p) as Hnn.
    destruct (Pos.to_uint p) eqn:Eu; try tauto;
      rewrite <- Eu in *;
      rewrite (proj1 (parse_unsigned_decimal _ Hnn)),
        (digits_decimal_start _ Hnn), decimal_value_to_uint; reflexivity.
  - simpl Z.to_int. unfold NilZero.string_of_int, NilZero.string_of_uint.
    pose proof (Unsigned.to_uint_nonnil p) as Hnn.
    assert (Hneg : forall s, Js.signed (String "-" s)
                             = option_map Z.opp (Js.unsigned s))
      by reflexivity.
    destruct (Pos.to_uint p) eqn:Eu; try tauto;
      rewrite <- Eu in *;
      rewrite Hneg, (proj2 (parse_unsigned_decimal _ Hnn)),
        (digits_decimal_start _ Hnn), decimal_value_to_uint; reflexivity.
Qed.

Lemma parseInt_show n :
  Js.parseInt (Some (Js.show n)) = Some (Js.binary64_int n).
Proof.
  unfold Js.parseInt, Js.parseInt_string. rewrite signed_show. reflexivity.
Qed.

(** Above [2 ^ 53] the parameter is rounded: 9007199254740993 is read
    as 9007199254740992. *)
Lemma parseInt_rounds_to_53_bits :
  Js.parseInt (Some "9007199254740993"%string) = Some 9007199254740992
  /\ Js.parseInt (Some "9007199254740992"%string) = Some 9007199254740992
  /\ Js.parseInt (Some "-9007199254740995"%string) = Some (-9007199254740996).
Proof. vm_compute. repeat split; reflexivity. Qed.

End DecimalParameters.

(** X17. A [limit] or [days] parameter written as a decimal integer
    other than 0 and of magnitude below 2 ^ 53 is taken as it is
    written (a larger one is rounded to binary64 first); a positive
    limit that the matching rows can fill gives exactly that many
    executions. *)
Theorem decimal_parameter_is_honoured
    (n : Z) (rows : list Schema.ExecutionLog) (instance : option string) :
  n <> 0 ->
  Z.abs n < 2 ^ 53 ->
  Js.parseInt (Some (Js.show n)) = Some n
  /\ Server.limit_of (Some (Js.show n)) = n
  /\ Server.days_of (Some (Js.show n)) = n
  /\ (0 < n <= Z.of_nat (List.length (Server.eq_instance instance rows)) ->
      exists returned,
        Server.executionsHandler (Server.Rows rows) (Some (Js.show n)) instance
        = Server.Json returned
        /\ Z.of_nat (List.length returned) = n).
Proof.
  intros Hn Hsmall.
  assert (Hp : Js.parseInt (Some (Js.show n)) = Some n).
  { rewrite parseInt_show, binary64_int_exact by exact Hsmall. reflexivity. }
  assert (Hl : Server.limit_of (Some (Js.show n)) = n).
  { unfold Server.limit_of. rewrite Hp. destruct n; [tauto| |]; reflexivity. }
  assert (Hd : Server.days_of (Some (Js.show n)) = n).
  { unfold Server.days_of. rewrite Hp. destruct n; [tauto| |]; reflexivity. }
  split; [exact Hp|]. split; [exact Hl|]. split; [exact Hd|].
  intros Hrange. eexists. split.
  - unfold Server.executionsHandler. rewrite Hl.
    unfold Server.run. cbn [Server.error Server.data Server.or_empty].
    reflexivity.
  - rewrite length_firstn. unfold Server.order_created_desc.
    rewrite (Permutation_length (sort_by_perm _ _)). lia.
Qed.

Lemma decimal_parameter_is_honoured_witness :
  Server.limit_of (Some (Js.show 25)) = 25
  /\ Server.days_of (Some (Js.show 25)) = 25.
Proof.
  destruct (decimal_parameter_is_honoured 25 [] None) as (_ & Hl & Hd & _).
  - discriminate.
  - reflexivity.
  - split; [exact Hl | exact Hd].
Defined.

(* ================================================================== *)
(** ** What the stat cards print *)

Section CardTexts.

Lemma round_inject z : Js.Math_round (inject_Z z) = z.
Proof.
  pose proof (round_range (inject_Z z) z z (Qle_refl _) (Qle_refl _)). lia.
Qed.

Lemma round_comp a b : (a == b)%Q -> Js.Math_round a = Js.Math_round b.
Proof.
  intros H. unfold Js.Math_round. apply Qfloor_comp. rewrite H. reflexivity.
Qed.

Lemma card_text q :
  Dashboard.formatDuration (Some q)
  = (Js.show (Js.Math_round q) ++ "ms")%string.
Proof.
  unfold Dashboard.formatDuration, Js.is_zero.
  destruct (Qeq_bool q 0) eqn:E; [|reflexivity].
  apply Qeq_bool_iff in E. rewrite (round_comp _ _ E). reflexivity.
Qed.

Lemma shown_rate_ok tz st executions f s :
  Dashboard.filteredStats tz executions f (Dashboard.fetchStats st f) = Some s ->
  Spec.rate_ok s.
Proof.
  intros H.
  assert (Hserver : forall s', Dashboard.fetchStats st f = Some s' -> Spec.rate_ok s').
  { intros s' Hs'. destruct (fetchStats_computed _ _ _ Hs') as [rows ->].
    apply computeStats_rate_ok. }
  destruct executions as [records|]; [|apply Hserver; exact H].
  destruct (Dashboard.hasAnyFilters f) eqn:Hany.
  - destruct (filteredStats_active tz records f (Dashboard.fetchStats st f) Hany)
      as (s' & Hs' & Ht & H1 & _ & _ & _ & _ & _ & Hr).
    rewrite Hs' in H. injection H as <-.
    apply rate_ok_intro; [|exact Hr].
    rewrite Ht, H1. apply tally_le_length.
  - unfold Dashboard.filteredStats in H. rewrite Hany in H. simpl in H.
    apply Hserver; exact H.
Qed.

End CardTexts.

(** X18. With a filter active and no status selected, the Avg Duration
    card prints the same text whether it is fed the page's own average
    or the server computation over the same count-eligible records: the
    unrounded mean of the page and the rounded mean of the server print
    alike. *)
Theorem avg_card_same_on_both_paths
    (tz : Z) (records : list Schema.ExecutionLog)
    (f : Filters.ExecutionFilters) (stats : option Schema.ExecutionStats) :
  Dashboard.hasAnyFilters f = true ->
  Js.truthy (Filters.statusFilter f) = false ->
  Dashboard.avgDurationCard (Dashboard.filteredStats tz (Some records) f stats)
  = Dashboard.avgDurationCard
      (Some (Server.computeStats (Spec.countSet tz f records))).
Proof.
  intros Hany Hstatus.
  destruct (filteredStats_active tz records f stats Hany)
    as (s & Hs & _ & _ & _ & _ & _ & _ & Havg & _).
  destruct (computeStats_fields (Spec.countSet tz f records))
    as (_ & _ & _ & _ & _ & _ & Savg & _).
  rewrite Hs. unfold Dashboard.avgDurationCard. cbn [option_map].
  rewrite !card_text, Havg, Savg.
  rewrite (durationSet_without_status tz f records Hstatus).
  destruct (Spec.known_durations (Spec.countSet tz f records)) as [|d t].
  - reflexivity.
  - rewrite round_inject. reflexivity.
Qed.

Lemma avg_card_same_on_both_paths_witness :
  Dashboard.avgDurationCard
    (Dashboard.filteredStats 0 (Some [Samples.quick; Samples.slow])
       (Samples.onlyWorkflow "A") None)
  = Dashboard.avgDurationCard
      (Some (Server.computeStats
               (Spec.countSet 0 (Samples.onlyWorkflow "A")
                  [Samples.quick; Samples.slow]))).
Proof.
  apply (avg_card_same_on_both_paths 0 [Samples.quick; Samples.slow]
           (Samples.onlyWorkflow "A") None); reflexivity.
Defined.

(** With 23 successes out of 40 executions the line reads 57%: the rate
    the code computes is just below 57.5. *)
Lemma success_rate_line_of_23_in_40 :
  Page.successRateLine (Some (Server.computeStats Samples.forty))
  = "57% success rate"%string.
Proof. vm_compute. reflexivity. Qed.

(** X19. The success-rate line of the Successful card always prints a
    whole number between 0 and 100 followed by "% success rate",
    whatever the store holds, whatever was fetched and whatever the
    filters are. *)
Theorem success_rate_line_is_a_percentage
    (tz : Z) (st : Server.Store) (executions : option (list Schema.ExecutionLog))
    (f : Filters.ExecutionFilters) :
  exists n,
    0 <= n <= 100
    /\ Page.successRateLine
         (Dashboard.filteredStats tz executions f (Dashboard.fetchStats st f))
       = (Js.show n ++ "% success rate")%string.
Proof.
  unfold Page.successRateLine.
  destruct (Dashboard.filteredStats tz executions f (Dashboard.fetchStats st f))
    as [s|] eqn:Es.
  - exists (Js.Math_round (Schema.successRate s)). split; [|reflexivity].
    destruct (shown_rate_ok tz st executions f s Es) as (_ & _ & Hlo & Hhi).
    apply round_range; [exact Hlo | exact Hhi].
  - exists 0. split; [lia | reflexivity].
Qed.

(* ================================================================== *)
(** ** Storage failure *)

(** X20. When the store reports a failure, the executions, stats,
    instances and workflows handlers answer 500 with the store's
    message; so does the daily handler when its start date is one that
    [Date] can hold, and otherwise it has answered 500 with the message
    of the [RangeError] before asking the store.  The page, whose three
    queries have then all failed, holds no stats and an empty series
    whatever the filters are, prints "0ms" as average duration, and its
    status chart reports that the data could not be loaded. *)
Theorem storage_failure_is_reported
    (tz : Z) (server_tz : Dates.TimeZone) (now : Z) (message : string)
    (limit_param days_param instance : option string)
    (f : Filters.ExecutionFilters) :
  let st := Server.Failing message in
  Server.executionsHandler st limit_param instance = Server.Status500 message
  /\ Server.statsHandler st instance = Server.Status500 message
  /\ Routes.instancesHandler st = Server.Status500 message
  /\ Routes.workflowsHandler st instance = Server.Status500 message
  /\ Server.dailyHandler server_tz st now days_param instance
     = (match Dates.minusDays server_tz now (Server.days_of days_param) with
        | Some _ => Server.Status500 message
        | None => Server.Status500 "Invalid time value"
        end)
  /\ (let shown :=
        Dashboard.filteredStats tz (Dashboard.fetchExecutions st f) f
          (Dashboard.fetchStats st f) in
      shown = None
      /\ Dashboard.filteredDailyStats tz (Dashboard.fetchExecutions st f) f
           (Dashboard.fetchDaily server_tz st now f) = []
      /\ Dashboard.avgDurationCard shown = "0ms"%string
      /\ Page.statusChart shown (Dashboard.fetchStats st f)
         = Chart.UnableToLoad "Failed to fetch stats").
Proof.
  cbv zeta.
  assert (Hd : forall q i,
            Server.dailyHandler server_tz (Server.Failing message) now q i
            = match Dates.minusDays server_tz now (Server.days_of q) with
              | Some _ => Server.Status500 message
              | None => Server.Status500 "Invalid time value"
              end).
  { intros q i. unfold Server.dailyHandler.
    destruct (Dates.minusDays server_tz now (Server.days_of q)); reflexivity. }
  split; [reflexivity|]. split; [reflexivity|]. split; [reflexivity|].
  split; [reflexivity|]. split; [apply Hd|].
  split; [reflexivity|]. split; [|split; reflexivity].
  unfold Dashboard.fetchDaily.
  rewrite (Hd None).
  destruct (Dates.minusDays server_tz now (Server.days_of None)); reflexivity.
Qed.

(* ================================================================== *)
(** ** The other selects *)

(** X21. The mode select offers the non-empty modes of the data and the
    status select the statuses that occur, each once, in ascending
    order.  Choosing an offered mode (other than the reserved value
    "all") with no workflow or date filter keeps exactly the records of
    that mode, at least one; choosing an offered status with no
    workflow, mode or date filter leaves at least one row in the
    table. *)
Theorem offered_mode_and_status_match_records
    (tz : Z) (data : list Schema.ExecutionLog) (f : Filters.ExecutionFilters) :
  (NoDup (FiltersBar.uniqueModes data)
   /\ Terms.ascending (FiltersBar.uniqueModes data)
   /\ forall m,
        In m (FiltersBar.uniqueModes data)
        <-> (m <> EmptyString
             /\ exists item, In item data /\ Schema.mode item = Some m))
  /\ (NoDup (FiltersBar.uniqueStatuses data)
      /\ Terms.ascending (FiltersBar.uniqueStatuses data)
      /\ forall s,
           In s (FiltersBar.uniqueStatuses data)
           <-> exists item,
                 In item data /\ Schema.status_string (Schema.status item) = s)
  /\ (forall m,
        In m (FiltersBar.uniqueModes data) ->
        m <> "all"%string ->
        Js.truthy (Filters.workflowFilter f) = false ->
        Filters.dateRange f = None ->
        Dashboard.filteredForCounts tz data (FiltersBar.selectMode f m)
        = Terms.in_mode m data
        /\ Terms.in_mode m data <> [])
  /\ (forall s,
        In s (FiltersBar.uniqueStatuses data) ->
        Dashboard.hasCountFilters f = false ->
        Table.filteredData tz data (FiltersBar.selectStatus f s) <> []).
Proof.
  pose (mkey := fun item : Schema.ExecutionLog =>
                  match Schema.mode item with
                  | Some m => if Js.truthy (Some m) then Some m else None
                  | None => None
                  end).
  assert (Hmstep : forall acc a,
            FiltersBar.addMode acc a
            = match mkey a with Some k => StrColl.add k acc | None => acc end).
  { intros acc a. unfold FiltersBar.addMode, mkey.
    destruct (Schema.mode a) as [m|]; [|reflexivity].
    destruct (Js.truthy (Some m)); reflexivity. }
  destruct (sorted_set _ mkey FiltersBar.addMode Hmstep data)
    as (Mnd & Masc & Min).
  assert (Hmodes : forall m,
            In m (FiltersBar.uniqueModes data)
            <-> (m <> EmptyString
                 /\ exists item, In item data /\ Schema.mode item = Some m)).
  { intros m. unfold FiltersBar.uniqueModes. rewrite Min. unfold mkey. split.
    - intros (a & Ha & Hk).
      destruct (Schema.mode a) as [m'|] eqn:Em; [|discriminate].
      destruct (Js.truthy (Some m')) eqn:Et; [|discriminate].
      injection Hk as ->. split.
      + intros ->. discriminate Et.
      + exists a. tauto.
    - intros (Hne & a & Ha & Hm). exists a. split; [exact Ha|].
      rewrite Hm. simpl.
      destruct (String.eqb_spec m EmptyString); [tauto | reflexivity]. }
  pose (skey := fun item : Schema.ExecutionLog =>
                  Some (Schema.status_string (Schema.status item))).
  assert (Hsstep : forall acc a,
            FiltersBar.addStatus acc a
            = match skey a with Some k => StrColl.add k acc | None => acc end).
  { intros acc a. unfold FiltersBar.addStatus, skey.
    destruct (Schema.status a); reflexivity. }
  destruct (sorted_set _ skey FiltersBar.addStatus Hsstep data)
    as (Snd & Sasc & Sin).
  assert (Hstatuses : forall s,
            In s (FiltersBar.uniqueStatuses data)
            <-> exists item,
                  In item data /\ Schema.status_string (Schema.status item) = s).
  { intros s. unfold FiltersBar.uniqueStatuses. rewrite Sin. unfold skey.
    split; intros (a & Ha & Hk); exists a; split; try exact Ha; congruence. }
  split; [tauto|]. split; [tauto|]. split.
  - intros m Hm Hall Hwf Hdate.
    apply Hmodes in Hm. destruct Hm as (Hne & item & Hitem & Hmode).
    split.
    + unfold Dashboard.filteredForCounts, Terms.in_mode.
      apply filter_ext. intros e.
      unfold Filters.passesCountFilters, Filters.workflow_rejects,
        Filters.mode_rejects, Filters.date_rejects, FiltersBar.selectMode.
      cbn [Filters.workflowFilter Filters.modeFilter Filters.dateRange].
      destruct (String.eqb_spec m "all"); [tauto|].
      rewrite Hdate.
      assert (Hw : match Filters.workflowFilter f with
                   | Some w =>
                       andb (Js.truthy (Some w))
                         (negb (String.eqb (Schema.workflow_name e) w))
                   | None => false
                   end = false).
      { destruct (Filters.workflowFilter f); [rewrite Hwf|]; reflexivity. }
      rewrite Hw. simpl.
      destruct (String.eqb_spec m EmptyString); [tauto|]. simpl.
      destruct (Schema.mode e) as [m'|]; [|reflexivity].
      destruct (String.eqb m' m); reflexivity.
    + intros Hnil.
      assert (Hin' : In item (Terms.in_mode m data)).
      { apply filter_In. split; [exact Hitem|]. rewrite Hmode.
        apply String.eqb_refl. }
      rewrite Hnil in Hin'. exact Hin'.
  - intros s Hs Hc Hnil.
    apply Hstatuses in Hs. destruct Hs as (item & Hitem & Hst).
    assert (Hin' : In item (Table.filteredData tz data (FiltersBar.selectStatus f s))).
    { apply filter_In. split; [exact Hitem|].
      rewrite passesAllFilters_split.
      assert (Hpass : Filters.passesCountFilters tz (FiltersBar.selectStatus f s) item
                      = true).
      { apply no_count_filter_passes. exact Hc. }
      rewrite Hpass. simpl.
      unfold Spec.matchesStatusFilter, FiltersBar.selectStatus.
      cbn [Filters.statusFilter].
      subst s. destruct (Schema.status item); reflexivity. }
    rewrite Hnil in Hin'. exact Hin'.
Qed.

Section OfferedInstances.

Lemma instancesHandler_lists rows :
  exists instances,
    Routes.instancesHandler (Server.Rows rows) = Server.Json instances
    /\ forall i, In i instances ->
         i <> EmptyString
         /\ exists r, In r rows /\ Schema.n8n_instance r = Some i.
Proof.
  eexists. split; [reflexivity|].
  intros i Hi.
  cbn [Server.run Server.data Server.or_empty] in Hi.
  unfold StrColl.sorted in Hi.
  apply (Permutation_in _ (sort_by_perm _ _)) in Hi.
  assert (Hgen : forall l acc,
            In i (fold_left Routes.collect l acc) ->
            In i acc
            \/ (i <> EmptyString
                /\ exists r, In r l /\ Schema.n8n_instance r = Some i)).
  { induction l as [|a t IH]; intros acc H; simpl in H; [tauto|].
    apply IH in H. destruct H as [H|(Hne & r & Hr & Hri)].
    - unfold Routes.collect in H.
      destruct (Schema.n8n_instance a) as [j|] eqn:Ej; [|tauto].
      destruct (Js.truthy (Some j)) eqn:Et; [|tauto].
      apply add_in in H. destruct H as [->|H]; [|tauto].
      right. split.
      + intros ->. discriminate Et.
      + exists a. split; [left; reflexivity | exact Ej].
    - right. split; [exact Hne|]. exists r. split; [right; exact Hr | exact Hri]. }
  apply Hgen in Hi. destruct Hi as [[]|(Hne & r & Hr & Hri)].
  split; [exact Hne|]. exists r. apply filter_In in Hr. tauto.
Qed.

End OfferedInstances.

(** X22. An environment the selector offers (an answer of the instances
    endpoint, other than the reserved value "all"), once selected, makes
    the page fetch a non-empty list of executions, all of that
    instance, while the store keeps answering; the other filters stay
    as they were. *)
Theorem offered_instance_has_executions
    (rows : list Schema.ExecutionLog) (f : Filters.ExecutionFilters)
    (instances : list string) (i : string) :
  Routes.instancesHandler (Server.Rows rows) = Server.Json instances ->
  In i instances ->
  i <> "all"%string ->
  let f' := Page.selectInstance f i in
  Filters.statusFilter f' = Filters.statusFilter f
  /\ Filters.workflowFilter f' = Filters.workflowFilter f
  /\ Filters.modeFilter f' = Filters.modeFilter f
  /\ Filters.dateRange f' = Filters.dateRange f
  /\ exists executions,
       Dashboard.fetchExecutions (Server.Rows rows) f' = Some executions
       /\ executions <> []
       /\ forall e, In e executions -> Schema.n8n_instance e = Some i.
Proof.
  intros Hh Hi Hall. cbv zeta.
  destruct (instancesHandler_lists rows) as (l & Hl & Hmem).
  rewrite Hl in Hh. injection Hh as <-.
  destruct (Hmem i Hi) as (Hne & r & Hr & Hri).
  do 4 (split; [reflexivity|]).
  assert (Hparam : Dashboard.instanceQueryParam (Page.selectInstance f i) = Some i).
  { unfold Dashboard.instanceQueryParam, Page.selectInstance.
    cbn [Filters.instanceFilter].
    destruct (String.eqb_spec i "all"); [tauto|].
    simpl. destruct (String.eqb_spec i EmptyString); [tauto | reflexivity]. }
  assert (Htruthy : Js.truthy (Some i) = true).
  { simpl. destruct (String.eqb_spec i EmptyString); [tauto | reflexivity]. }
  eexists. split.
  - unfold Dashboard.fetchExecutions, Server.executionsHandler, Server.run.
    rewrite Hparam. cbn [Server.error Server.data Server.or_empty Dashboard.body].
    reflexivity.
  - split.
    + apply firstn_nonempty; [vm_compute; lia|].
      apply sort_by_nonempty.
      intros Hnil.
      assert (Hin : In r (Server.eq_instance (Some i) rows)).
      { unfold Server.eq_instance. rewrite Htruthy. apply filter_In.
        split; [exact Hr|]. unfold Server.instance_is. rewrite Hri.
        apply String.eqb_refl. }
      rewrite Hnil in Hin. exact Hin.
    + intros e He.
      assert (Hin : In e (Server.eq_instance (Some i) rows)).
      { apply (Permutation_in _
                 (sort_by_perm
                    (fun a b => Schema.created_at b <=? Schema.created_at a)
                    (Server.eq_instance (Some i) rows))).
        fold Server.order_created_desc.
        rewrite <- (firstn_skipn (Z.to_nat (Server.limit_of None))
                      (Server.order_created_desc
                         (Server.eq_instance (Some i) rows))).
        apply in_or_app. left. exact He. }
      apply eq_instance_sound in Hin. apply (proj2 Hin Htruthy).
Qed.

Lemma offered_instance_has_executions_witness :
  exists executions,
    Dashboard.fetchExecutions (Server.Rows Fixtures.mixed)
      (Page.selectInstance Filters.none "https://staging")
    = Some executions
    /\ executions <> [].
Proof.
  destruct (offered_instance_has_executions Fixtures.mixed Filters.none
              ["https://prod"; "https://staging"]%string
              "https://staging"%string eq_refl)
    as (_ & _ & _ & _ & executions & He & Hne & _).
  - right. left. reflexivity.
  - discriminate.
  - exists executions. split; [exact He | exact Hne].
Defined.
